(** * Patient-Journey-Insights: the extract / transform / load pipeline

    A shallow embedding of [src/utils.py], [src/transform.py], [src/load.py]
    and [src/extract.py], and the properties of the pipeline proved on it.

    Conventions of the embedding.
    - A numeric cell of a data frame is a [float64]: a rational, one of the
      two infinities, or NaN (pandas' null).  The sum, the product and the
      quotient of two finite cells are rounded to binary64, to the nearest
      number and to the even one of two; a result too large is an infinity,
      one too small is 0.  The two zeros of binary64 are one cell, [Fin 0],
      and a division by it is a division by [+0.0].
    - A frame is typed: a text column holds texts and nulls, a numeric or a
      date column holds values, texts that are still to be parsed, and nulls.
      A column of another type than the one its name stands for (a
      [procedure_code] held as integers, which has no [.str]) is not
      described.
    - A timestamp is an integer count of nanoseconds, [None] is NaT.
      [datetime.now()] reads the clock of the world, which stands still
      while a step runs.
    - Writing an artifact to a layer succeeds.
    - A data frame is the list of its rows, in order; a column operation of
      pandas is the same operation on every row. *)

From Stdlib Require Import ZArith QArith Qround Qpower Qabs Lqa Lia List String Ascii Bool.
From Stdlib Require Import SpecFloat.
From stdpp Require Import base decidable option list gmap strings pretty.

Set Default Proof Using "Type".
Local Open Scope Z_scope.

(* ===================================================================== *)
(** * Numeric cells *)
(* ===================================================================== *)

Module Float64.

Inductive float64 : Type :=
| NaN
| NegInf
| Fin (q : Q)
| PosInf.

Definition Qlt_bool (a b : Q) : bool := negb (Qle_bool b a).

(** [a < b]; every comparison with NaN is false. *)
Definition flt (a b : float64) : bool :=
  match a, b with
  | NaN, _ | _, NaN => false
  | NegInf, NegInf => false
  | NegInf, _ => true
  | Fin x, Fin y => Qlt_bool x y
  | Fin _, PosInf => true
  | Fin _, NegInf => false
  | PosInf, _ => false
  end.

(** [a <= b]. *)
Definition fle (a b : float64) : bool :=
  match a, b with
  | NaN, _ | _, NaN => false
  | NegInf, _ => true
  | Fin x, Fin y => Qle_bool x y
  | Fin _, PosInf => true
  | Fin _, NegInf => false
  | PosInf, PosInf => true
  | PosInf, _ => false
  end.

Definition fgt (a b : float64) : bool := flt b a.
Definition fge (a b : float64) : bool := fle b a.

Definition isna (a : float64) : bool :=
  match a with NaN => true | _ => false end.

(** [Series.fillna(v)]. *)
Definition fillna (v : float64) (a : float64) : float64 :=
  if isna a then v else a.

(** ** Rounding to binary64

    numpy computes on [float64] columns in IEEE 754 binary64 arithmetic:
    the exact result of an operation is rounded to the nearest number of
    the format, to the one with an even mantissa when two are as near.  A
    number of the format is a multiple [m * 2 ^ (e - 52)] with
    [m < 2 ^ 53] and [-1022 <= e <= 1023]; a result that rounds to
    [2 ^ 1024] or beyond is an infinity, and one below half the smallest
    number, [2 ^ -1074], is 0. *)

Definition pow2 (k : Z) : Q := (2 ^ k)%Q.

(** The integer nearest to [q], the even one when two are as near. *)
Definition round_half_even (q : Q) : Z :=
  let f := Qfloor q in
  match (q - inject_Z f ?= 1 # 2)%Q with
  | Lt => f
  | Gt => f + 1
  | Eq => if Z.even f then f else f + 1
  end.

(** The binary exponent of a positive [q]: [2 ^ e <= q < 2 ^ (e + 1)]. *)
Definition ilog2 (q : Q) : Z :=
  let k := Z.log2 (Qnum q) - Z.log2 (Zpos (Qden q)) in
  if Qle_bool (pow2 k) q then k else k - 1.

(** The spacing of the binary64 numbers around a positive [q]; below
    [2 ^ -1022], among the subnormal numbers, it is [2 ^ -1074]. *)
Definition ulp (q : Q) : Q := pow2 (Z.max (ilog2 q) (-1022) - 52).

(** A positive [q] rounded to binary64. *)
Definition round64_pos (q : Q) : float64 :=
  let r := (inject_Z (round_half_even (q / ulp q)) * ulp q)%Q in
  if Qle_bool (pow2 1024) r then PosInf else Fin (Qred r).

(** [-a]. *)
Definition fneg (a : float64) : float64 :=
  match a with
  | NaN => NaN
  | NegInf => PosInf
  | Fin x => Fin (- x)%Q
  | PosInf => NegInf
  end.

(** The exact result [q] of an operation, rounded to binary64. *)
Definition round64 (q : Q) : float64 :=
  match (q ?= 0)%Q with
  | Eq => Fin 0
  | Gt => round64_pos q
  | Lt => fneg (round64_pos (- q)%Q)
  end.

(** A number of the Standard Library's specification of IEEE 754, as a
    cell; [binary64 m e] is the number of the format nearest to
    [m * 2 ^ e]. *)
Definition of_spec_float (x : spec_float) : float64 :=
  match x with
  | S754_zero _ => Fin 0
  | S754_infinity s => if s then NegInf else PosInf
  | S754_nan => NaN
  | S754_finite s m e =>
      Fin (Qred ((if s then - inject_Z (Zpos m) else inject_Z (Zpos m)) * pow2 e))
  end.

Definition binary64 (m e : Z) : spec_float := binary_normalize 53 1024 m e false.

(** [a + b]. *)
Definition fadd (a b : float64) : float64 :=
  match a, b with
  | NaN, _ | _, NaN => NaN
  | Fin x, Fin y => round64 (x + y)
  | PosInf, NegInf | NegInf, PosInf => NaN
  | PosInf, _ | _, PosInf => PosInf
  | NegInf, _ | _, NegInf => NegInf
  end.

(** [a / b] as pandas divides two float columns: a zero divisor gives an
    infinity of the sign of the dividend, and [0 / 0] gives NaN (the zero of
    the model is [+0.0]). *)
Definition fdiv (a b : float64) : float64 :=
  match a, b with
  | NaN, _ | _, NaN => NaN
  | Fin x, Fin y =>
      if Qeq_bool y 0 then
        if Qeq_bool x 0 then NaN
        else if Qlt_bool 0 x then PosInf else NegInf
      else round64 (x / y)
  | Fin _, (PosInf | NegInf) => Fin 0
  | (PosInf | NegInf), (PosInf | NegInf) => NaN
  | PosInf, Fin y => if Qlt_bool y 0 then NegInf else PosInf
  | NegInf, Fin y => if Qlt_bool y 0 then PosInf else NegInf
  end.

(** [a * b]. *)
Definition fmul (a b : float64) : float64 :=
  match a, b with
  | NaN, _ | _, NaN => NaN
  | Fin x, Fin y => round64 (x * y)
  | Fin x, PosInf | PosInf, Fin x =>
      if Qeq_bool x 0 then NaN else if Qlt_bool 0 x then PosInf else NegInf
  | Fin x, NegInf | NegInf, Fin x =>
      if Qeq_bool x 0 then NaN else if Qlt_bool 0 x then NegInf else PosInf
  | PosInf, PosInf | NegInf, NegInf => PosInf
  | PosInf, NegInf | NegInf, PosInf => NegInf
  end.

(** [Series.clip(lo, hi)]: NaN stays NaN. *)
Definition clip (lo hi : float64) (a : float64) : float64 :=
  if isna a then a
  else if flt a lo then lo
  else if fgt a hi then hi
  else a.

(** Equality of cells as numbers ([Qeq] on the finite ones). *)
Definition feq (a b : float64) : Prop :=
  match a, b with
  | NaN, NaN | NegInf, NegInf | PosInf, PosInf => True
  | Fin x, Fin y => (x == y)%Q
  | _, _ => False
  end.

Definition of_Z (z : Z) : float64 := Fin (inject_Z z).

(** An integer converted to [float64]. *)
Definition float_of_int (z : Z) : float64 := round64 (inject_Z z).

(** [np.floor] of a cell, as an integer; the cells it is applied to are
    finite. *)
Definition floor_to_int (x : float64) : Z :=
  match x with Fin q => Qfloor q | _ => 0 end.

End Float64.
Export Float64.

(* ===================================================================== *)
(** * The pandas operations the pipeline calls *)
(* ===================================================================== *)

Module Pandas.

(** A cell as the bronze layer stores it: a value of the column's type, a
    text that still has to be parsed, or a null. *)
Inductive raw (A : Type) : Type :=
| Val (a : A)
| Text (s : string)
| Null.
Arguments Val {A} a.
Arguments Text {A} s.
Arguments Null {A}.

(** [pd.to_numeric(col, errors='coerce')] on one cell: a number stays as
    it is, an infinity included; a text is parsed by [parse_number], which
    reads the spellings of the infinities and of NaN as well, and what does
    not parse becomes NaN. *)
Definition to_numeric (parse_number : string -> option float64) (c : raw float64)
  : float64 :=
  match c with
  | Val x => x
  | Text s => match parse_number s with Some x => x | None => NaN end
  | Null => NaN
  end.

(** Timestamps count nanoseconds; [day d] is [pd.Timedelta(days=d)]. *)
Definition NS_PER_DAY : Z := 86400000000000.
Definition day (d : Z) : Z := d * NS_PER_DAY.

(** [pd.to_datetime(col, errors='coerce')] on one cell: NaT is [None]. *)
Definition to_datetime (parse_date : string -> option Z) (c : raw Z) : option Z :=
  match c with
  | Val ns => Some ns
  | Text s => parse_date s
  | Null => None
  end.

(** [searchsorted(x, side='left')]: the number of edges strictly below [x]
    in a sorted list of edges. *)
Definition searchsorted_left (bins : list float64) (x : float64) : nat :=
  length (List.filter (fun b => flt b x) bins).

(** [pd.cut(x, bins=bins, labels=labels)] on one cell, with the defaults
    [right=True] and [include_lowest=False]: the label of the interval
    [(bins[i], bins[i+1]]] that holds [x], and null for a null [x], for an
    [x] at or below the first edge, and for an [x] above the last edge. *)
Definition cut {L : Type} (bins : list float64) (labels : list L) (x : float64)
  : option L :=
  let ids := searchsorted_left bins x in
  if isna x || Nat.eqb ids (length bins) || Nat.eqb ids 0 then None
  else nth_error labels (ids - 1).

(** [df.drop_duplicates(subset=[key])]: the first row of every key value is
    kept.  [seen] holds the key values met so far. *)
Fixpoint drop_duplicates_from {A K : Type} `{EqDecision K}
    (key : A -> K) (seen : list K) (df : list A) : list A :=
  match df with
  | [] => []
  | r :: rest =>
      if bool_decide (key r ∈ seen) then drop_duplicates_from key seen rest
      else r :: drop_duplicates_from key (key r :: seen) rest
  end.

Definition drop_duplicates {A K : Type} `{EqDecision K}
    (key : A -> K) (df : list A) : list A :=
  drop_duplicates_from key [] df.

End Pandas.
Export Pandas.

(* ===================================================================== *)
(** * Text cells (ASCII) *)
(* ===================================================================== *)

Module Str.

(** Characters are bytes; the functions below follow Python's [str] methods
    on ASCII text (a byte above 127 is neither a letter nor a blank). *)

Definition code (c : ascii) : nat := nat_of_ascii c.

Definition is_lower (c : ascii) : bool := (97 <=? code c)%nat && (code c <=? 122)%nat.
Definition is_upper (c : ascii) : bool := (65 <=? code c)%nat && (code c <=? 90)%nat.
Definition is_digit (c : ascii) : bool := (48 <=? code c)%nat && (code c <=? 57)%nat.
Definition isalpha (c : ascii) : bool := is_lower c || is_upper c.
Definition isalnum (c : ascii) : bool := isalpha c || is_digit c.

(** The blanks [str.strip()] removes: tab, line feed, vertical tab, form
    feed, carriage return, the four separators 28..31, and the space. *)
Definition isspace (c : ascii) : bool :=
  ((9 <=? code c)%nat && (code c <=? 13)%nat)
  || ((28 <=? code c)%nat && (code c <=? 32)%nat).

Definition upper_char (c : ascii) : ascii :=
  if is_lower c then ascii_of_nat (code c - 32) else c.
Definition lower_char (c : ascii) : ascii :=
  if is_upper c then ascii_of_nat (code c + 32) else c.

Fixpoint map_chars (f : ascii -> ascii) (s : string) : string :=
  match s with
  | EmptyString => EmptyString
  | String c s' => String (f c) (map_chars f s')
  end.

Fixpoint filter_chars (p : ascii -> bool) (s : string) : string :=
  match s with
  | EmptyString => EmptyString
  | String c s' => if p c then String c (filter_chars p s') else filter_chars p s'
  end.

Fixpoint existsb_chars (p : ascii -> bool) (s : string) : bool :=
  match s with
  | EmptyString => false
  | String c s' => p c || existsb_chars p s'
  end.

Definition upper (s : string) : string := map_chars upper_char s.

Fixpoint lstrip (s : string) : string :=
  match s with
  | EmptyString => EmptyString
  | String c s' => if isspace c then lstrip s' else s
  end.

(** [rstrip]: a blank is dropped when nothing but blanks follows it. *)
Fixpoint rstrip (s : string) : string :=
  match s with
  | EmptyString => EmptyString
  | String c s' =>
      match rstrip s' with
      | EmptyString => if isspace c then EmptyString else String c EmptyString
      | t => String c t
      end
  end.

Definition strip (s : string) : string := rstrip (lstrip s).

(** [str.title()]: a letter that follows a letter is lowered, any other
    letter is raised.  [after_letter] tells whether the previous character
    was a letter. *)
Fixpoint title_from (after_letter : bool) (s : string) : string :=
  match s with
  | EmptyString => EmptyString
  | String c s' =>
      String (if after_letter then lower_char c else upper_char c)
             (title_from (isalpha c) s')
  end.

Definition title (s : string) : string := title_from false s.

(** [s[:n]]. *)
Definition prefix (n : nat) (s : string) : string := substring 0 n s.
(** [s[n:]]. *)
Definition suffix (n : nat) (s : string) : string := substring n (String.length s - n) s.

Definition contains_char (c : ascii) (s : string) : bool :=
  existsb_chars (fun d => Ascii.eqb c d) s.

Fixpoint forallb_chars (p : ascii -> bool) (s : string) : bool :=
  match s with
  | EmptyString => true
  | String c s' => p c && forallb_chars p s'
  end.

End Str.

(* ===================================================================== *)
(** * [src/utils.py] *)
(* ===================================================================== *)

Module Utils.

(** [validate_dataframe]: true when no required column is missing. *)
Definition validate_dataframe (columns : gset string) (required_columns : list string)
  : bool :=
  bool_decide (list_to_set required_columns ∖ columns = (∅ : gset string)).

Definition dot : ascii := "."%char.

(** [clean_icd_code]: a null code stays null; otherwise the code is raised
    and stripped, keeps only letters, digits and dots, and gets a dot after
    its third character when it starts with a letter, has no dot and is
    longer than three characters. *)
Definition clean_icd_code (code : option string) : option string :=
  match code with
  | None => None
  | Some code =>
      let code := Str.strip (Str.upper code) in
      let code := Str.filter_chars (fun c => Str.isalnum c || Ascii.eqb c dot) code in
      Some
        match code with
        | String c0 _ =>
            if Str.isalpha c0 then
              if negb (Str.contains_char dot code) && (3 <? String.length code)%nat
              then (Str.prefix 3 code ++ String dot (Str.suffix 3 code))%string
              else code
            else code
        | EmptyString => code
        end
  end.

(** The last step of [clean_icd_code] on its own: the dot after the third
    character. *)
Definition insert_dot (code : string) : string :=
  match code with
  | String c0 _ =>
      if Str.isalpha c0 then
        if negb (Str.contains_char dot code) && (3 <? String.length code)%nat
        then (Str.prefix 3 code ++ String dot (Str.suffix 3 code))%string
        else code
      else code
  | EmptyString => code
  end.

(** The difference of two timestamps, NaT when either is NaT. *)
Definition sub_datetime (a b : option Z) : option Z :=
  match a, b with
  | Some x, Some y => Some (x - y)
  | _, _ => None
  end.

(** [.dt.days] of a time difference: its whole days, rounded down; a null
    difference has null days. *)
Definition dt_days (td : option Z) : option Z :=
  match td with
  | Some t => Some (t / NS_PER_DAY)
  | None => None
  end.

(** Comparisons of a nullable day count with a constant: false on null. *)
Definition days_le (d : option Z) (k : Z) : bool :=
  match d with Some x => x <=? k | None => false end.
Definition days_gt (d : option Z) (k : Z) : bool :=
  match d with Some x => x >? k | None => false end.

(** [calculate_readmission_flag] on one row.  The three dates go through
    [pd.to_datetime(errors='coerce')]; the flag is 1 when the days between
    discharge and readmission are positive and at most [days_threshold].
    The comparisons are already false on a null, so [fillna(False)] changes
    nothing, and [astype(int)] gives 0 or 1. *)
Definition calculate_readmission_flag (parse_date : string -> option Z)
    (admission_date discharge_date readmission_date : raw Z)
    (days_threshold : Z) : Z :=
  let admission_date := to_datetime parse_date admission_date in
  let discharge_date := to_datetime parse_date discharge_date in
  let readmission_date := to_datetime parse_date readmission_date in
  let days_between := dt_days (sub_datetime readmission_date discharge_date) in
  let readmission_flag :=
    days_le days_between days_threshold && days_gt days_between 0 in
  if readmission_flag then 1 else 0.

(** The default of [days_threshold]. *)
Definition default_days_threshold : Z := 30.

(** [calculate_medication_adherence] on one row. *)
Definition calculate_medication_adherence (days_supplied days_prescribed : float64)
  : float64 :=
  let adherence := fdiv days_supplied days_prescribed in
  let adherence := fillna (Fin 0) adherence in
  let adherence := clip (Fin 0) (Fin 1) adherence in
  adherence.

(** The dictionary of [standardize_gender], built in the order of the
    literal (a repeated key keeps its last value). *)
Definition gender_map : gmap string string :=
  <["FEMALE" := "Female"]> (<["MALE" := "Male"]> (<["0" := "Female"]> (<["1" := "Male"]>
  (<["FEMALE" := "Female"]> (<["MALE" := "Male"]> (<["F" := "Female"]> (<["M" := "Male"]>
  ∅))))))).

(** [standardize_gender] on one cell: a null or unmapped value is
    ['Unknown']. *)
Definition standardize_gender (gender : option string) : string :=
  match gender with
  | Some g => default "Unknown"%string (gender_map !! Str.upper g)
  | None => "Unknown"%string
  end.

End Utils.

(* ===================================================================== *)
(** * Rows of the four entities *)
(* ===================================================================== *)

(** A row is parameterised by the type [N] of its numeric cells and the
    type [D] of its date cells: [raw float64] and [raw Z] in the bronze layer,
    [float64] and [option Z] once the cleaning step has coerced them. *)

Module Claim.
Record row (N D : Type) : Type := Row {
  claim_id : option Z;
  patient_id : option Z;
  provider_id : option Z;
  admission_date : D;
  discharge_date : D;
  (** [None]: the frame has no [readmission_date] column. *)
  readmission_date : option D;
  diagnosis_code : option string;
  procedure_code : option string;
  cost : N;
  insurance_type : option string;
  length_of_stay : N
}.
Arguments Row {N D}.
Arguments claim_id {N D}.
Arguments patient_id {N D}.
Arguments provider_id {N D}.
Arguments admission_date {N D}.
Arguments discharge_date {N D}.
Arguments readmission_date {N D}.
Arguments diagnosis_code {N D}.
Arguments procedure_code {N D}.
Arguments cost {N D}.
Arguments insurance_type {N D}.
Arguments length_of_stay {N D}.

Inductive cost_label := CostLow | CostMedium | CostHigh | CostVeryHigh.
Inductive los_label := SameDay | Short | Medium | Long.

(** A row of the silver layer: the cleaned row and its derived columns
    (the calendar columns of the admission date are left out). *)
Record silver : Type := Silver {
  base : row float64 (option Z);
  readmission_flag : Z;
  cost_per_day : float64;
  cost_category : option cost_label;
  los_category : option los_label
}.
End Claim.

Module Patient.
Record row (N D : Type) : Type := Row {
  patient_id : option Z;
  age : N;
  gender : option string;
  race : option string;
  zip_code : option string;
  insurance_type : option string;
  chronic_conditions : float64;
  last_visit_date : D
}.
Arguments Row {N D}.
Arguments patient_id {N D}.
Arguments age {N D}.
Arguments gender {N D}.
Arguments race {N D}.
Arguments zip_code {N D}.
Arguments insurance_type {N D}.
Arguments chronic_conditions {N D}.
Arguments last_visit_date {N D}.

Inductive age_label := Pediatric | YoungAdult | Adult | MiddleAge | Senior.
Inductive risk_label := RiskLow | RiskMedium | RiskHigh | RiskVeryHigh.
Inductive status_label := Active | Inactive | Dormant.

Record silver : Type := Silver {
  base : row float64 (option Z);
  age_category : option age_label;
  risk_level : option risk_label;
  days_since_last_visit : option Z;
  patient_status : status_label
}.
End Patient.

Module Provider.
Record row (N : Type) : Type := Row {
  provider_id : option Z;
  hospital_name : option string;
  provider_type : option string;
  state : option string;
  city : option string;
  beds : N;
  teaching_hospital : option bool
}.
Arguments Row {N}.
Arguments provider_id {N}.
Arguments hospital_name {N}.
Arguments provider_type {N}.
Arguments state {N}.
Arguments city {N}.
Arguments beds {N}.
Arguments teaching_hospital {N}.

Inductive size_label := Small | MediumSize | Large | VeryLarge.

Record silver : Type := Silver {
  base : row float64;
  hospital_size : option size_label;
  full_address : option string;
  avg_cost : float64;
  readmission_rate : float64;
  patient_volume : Z
}.
End Provider.

Module Rx.
Record row (N D : Type) : Type := Row {
  prescription_id : option Z;
  patient_id : option Z;
  provider_id : option Z;
  medication_name : option string;
  prescription_date : D;
  days_supplied : N;
  days_prescribed : N;
  quantity : N;
  cost : N
}.
Arguments Row {N D}.
Arguments prescription_id {N D}.
Arguments patient_id {N D}.
Arguments provider_id {N D}.
Arguments medication_name {N D}.
Arguments prescription_date {N D}.
Arguments days_supplied {N D}.
Arguments days_prescribed {N D}.
Arguments quantity {N D}.
Arguments cost {N D}.

Inductive adherence_label := Poor | Fair | Good.

Record silver : Type := Silver {
  base : row float64 (option Z);
  adherence_rate : float64;
  adherence_category : option adherence_label;
  cost_per_day : float64;
  medication_category : string
}.
End Rx.

(* ===================================================================== *)
(** * Frames, layers, exceptions and the pipeline's world *)
(* ===================================================================== *)

Module Runtime.

Inductive exception : Type :=
| FileNotFoundError (name : string)
| KeyError (column : string)
| ValueError (msg : string)
| ParserError (name : string)
| AttributeError (what : string)
| IntCastingNaNError
| SQLAlchemyError (what : string)
| OtherError (what : string).

(** The outcome of a call: a value, or a raised exception. *)
Inductive result (A : Type) : Type :=
| Ok (a : A)
| Raise (e : exception).
Arguments Ok {A} a.
Arguments Raise {A} e.

Definition is_ok {A} (r : result A) : bool :=
  match r with Ok _ => true | Raise _ => false end.

#[global] Instance result_ret : MRet result := fun A a => Ok a.
#[global] Instance result_bind : MBind result :=
  fun A B k r => match r with Ok a => k a | Raise e => Raise e end.

(** The four entities, in the order [transform_all_data] handles them. *)
Inductive entity := Claims | Patients | Providers | Prescriptions.

#[global] Instance entity_eq_dec : EqDecision entity.
Proof. solve_decision. Defined.

Definition entity_name (e : entity) : string :=
  match e with
  | Claims => "claims"
  | Patients => "patients"
  | Providers => "providers"
  | Prescriptions => "prescriptions"
  end.

(** What the logger receives.  A message that is an f-string keeps its
    values as arguments. *)
Inductive event : Type :=
| Info (msg : string)
| Warning (msg : string)
| Error (msg : string)
| Failed (what : string) (e : exception)
| Started (stage : string) (e : entity)
| FrameInfo (stage : string) (e : entity) (n_rows n_columns : nat)
| Loaded (e : entity) (count : Z)
| UnmappedMedications (n : nat) (names : list (option string)).

(** A value of the metadata attached to a frame. *)
#[warnings="-register-all"]
Inductive meta : Type :=
| MStr (s : string)
| MTime (ns : Z)
| MDict (d : list (string * meta)).

(** A data frame: its column names, its rows and its [attrs]. *)
Record frame (R : Type) : Type := Frame {
  columns : gset string;
  rows : list R;
  attrs : list (string * meta)
}.
Arguments Frame {R}.
Arguments columns {R}.
Arguments rows {R}.
Arguments attrs {R}.

(** A layer holds at most one artifact per entity. *)
Record layer (C P V X : Type) : Type := Layer {
  claims : option (frame C);
  patients : option (frame P);
  providers : option (frame V);
  prescriptions : option (frame X)
}.
Arguments Layer {C P V X}.
Arguments claims {C P V X}.
Arguments patients {C P V X}.
Arguments providers {C P V X}.
Arguments prescriptions {C P V X}.

Definition bronze_layer : Type :=
  layer (Claim.row (raw float64) (raw Z)) (Patient.row (raw float64) (raw Z))
        (Provider.row (raw float64)) (Rx.row (raw float64) (raw Z)).

Definition silver_layer : Type :=
  layer Claim.silver Patient.silver Provider.silver Rx.silver.

Definition empty_layer {C P V X} : layer C P V X := Layer None None None None.

(** The columns of the artifact of an entity, when the layer holds it. *)
Definition artifact_columns {C P V X} (e : entity) (l : layer C P V X)
  : option (gset string) :=
  match e with
  | Claims => columns <$> claims l
  | Patients => columns <$> patients l
  | Providers => columns <$> providers l
  | Prescriptions => columns <$> prescriptions l
  end.

(** The metadata of the artifact of an entity, when the layer holds it. *)
Definition artifact_attrs {C P V X} (e : entity) (l : layer C P V X)
  : option (list (string * meta)) :=
  match e with
  | Claims => attrs <$> claims l
  | Patients => attrs <$> patients l
  | Providers => attrs <$> providers l
  | Prescriptions => attrs <$> prescriptions l
  end.

(** A layer without its artifact of [e]: what is left are the artifacts of
    the other entities. *)
Definition without {C P V X} (e : entity) (l : layer C P V X) : layer C P V X :=
  match e with
  | Claims => Layer None (patients l) (providers l) (prescriptions l)
  | Patients => Layer (claims l) None (providers l) (prescriptions l)
  | Providers => Layer (claims l) (patients l) None (prescriptions l)
  | Prescriptions => Layer (claims l) (patients l) (providers l) None
  end.

Section World.

(** [G] is the state of numpy's global random generator, [DB] the state of
    the warehouse. *)
Context {G DB : Type}.

Record world : Type := World {
  files : gmap string string;   (* the source files, by path *)
  rng : G;
  clock : Z;                    (* what [datetime.now()] reads *)
  bronze : bronze_layer;
  silver : silver_layer;
  db : DB;
  log : list event              (* newest entry last *)
}.

(** A computation: it reads and updates the world, and returns or raises.
    What it did before raising stays done. *)
Definition M (A : Type) : Type := world -> result A * world.

Definition ret_M {A} (a : A) : M A := fun w => (Ok a, w).

Definition bind_M {A B} (m : M A) (k : A -> M B) : M B :=
  fun w =>
    match m w with
    | (Ok a, w') => k a w'
    | (Raise e, w') => (Raise e, w')
    end.

Definition raise {A} (e : exception) : M A := fun w => (Raise e, w).

Definition lift_result {A} (r : result A) : M A := fun w => (r, w).

(** [try: body except Exception as e: handler(e)]. *)
Definition try_except {A} (body : M A) (handler : exception -> M A) : M A :=
  fun w =>
    match body w with
    | (Ok a, w') => (Ok a, w')
    | (Raise e, w') => handler e w'
    end.

(** What a computation reads of the world. *)
Definition get_files : M (gmap string string) := fun w => (Ok (files w), w).
Definition get_bronze : M bronze_layer := fun w => (Ok (bronze w), w).
Definition get_silver : M silver_layer := fun w => (Ok (silver w), w).

Definition logger (ev : event) : M unit :=
  fun w =>
    (Ok tt, World (files w) (rng w) (clock w) (bronze w) (silver w) (db w)
                  (log w ++ [ev])).

Definition set_bronze (b : bronze_layer) : M unit :=
  fun w => (Ok tt, World (files w) (rng w) (clock w) b (silver w) (db w) (log w)).

Definition set_silver (s : silver_layer) : M unit :=
  fun w => (Ok tt, World (files w) (rng w) (clock w) (bronze w) s (db w) (log w)).

Definition set_rng (g : G) : M unit :=
  fun w => (Ok tt, World (files w) g (clock w) (bronze w) (silver w) (db w) (log w)).

Definition set_db (d : DB) : M unit :=
  fun w => (Ok tt, World (files w) (rng w) (clock w) (bronze w) (silver w) d (log w)).

(** [datetime.now()]. *)
Definition datetime_now : M Z := fun w => (Ok (clock w), w).

(** A call of the random generator or of the warehouse. *)
Definition with_rng {A} (f : G -> A * G) : M A :=
  fun w =>
    let '(a, g) := f (rng w) in
    (Ok a, World (files w) g (clock w) (bronze w) (silver w) (db w) (log w)).

Definition with_db {A} (f : DB -> result A * DB) : M A :=
  fun w =>
    let '(r, d) := f (db w) in
    (r, World (files w) (rng w) (clock w) (bronze w) (silver w) d (log w)).

End World.

Arguments world : clear implicits.
Arguments M : clear implicits.

#[global] Instance M_ret {G DB} : MRet (M G DB) := fun A => @ret_M G DB A.
#[global] Instance M_bind {G DB} : MBind (M G DB) := fun A B k m => @bind_M G DB A B m k.

(** The entities whose start a stage has logged, oldest first. *)
Definition started (stage : string) (l : list event) : list entity :=
  omap (fun ev => match ev with
                  | Started s e => if bool_decide (s = stage) then Some e else None
                  | _ => None
                  end) l.

End Runtime.
Export Runtime.

(* ===================================================================== *)
(** * [src/utils.py]: metadata and artifacts *)
(* ===================================================================== *)

Module Artifacts.

Section Artifacts.
Context {G DB : Type}.

(** [d.update(new)] on a dictionary kept as an association list: a key of
    [new] replaces the entry of [d] for it, or is added at the end. *)
Fixpoint dict_set (k : string) (v : meta) (d : list (string * meta))
  : list (string * meta) :=
  match d with
  | [] => [(k, v)]
  | (k', v') :: d' =>
      if bool_decide (k' = k) then (k, v) :: d' else (k', v') :: dict_set k v d'
  end.

Definition dict_update (d new : list (string * meta)) : list (string * meta) :=
  foldl (fun d kv => dict_set kv.1 kv.2 d) d new.

(** [d.get(k)]. *)
Fixpoint dict_get (k : string) (d : list (string * meta)) : option meta :=
  match d with
  | [] => None
  | (k', v) :: d' => if bool_decide (k' = k) then Some v else dict_get k d'
  end.

(** [generate_etl_metadata]. *)
Definition generate_etl_metadata : M G DB (list (string * meta)) :=
  now ← datetime_now;
  mret [("etl_timestamp", MTime now); ("etl_version", MStr "1.0.0");
        ("pipeline_stage", MStr "unknown")]%string.

(** [df.attrs.update(metadata)], the first effect of
    [save_parquet_with_metadata]. *)
Definition with_metadata {R} (df : frame R) (metadata : list (string * meta)) : frame R :=
  Frame (columns df) (rows df) (dict_update (attrs df) metadata).

(** [load_parquet_with_metadata]: the stored frame and its [attrs]; a
    missing file raises. *)
Definition load_parquet_with_metadata {R} (name : string) (file : option (frame R))
  : M G DB (frame R * list (string * meta)) :=
  match file with
  | Some df => mret (df, attrs df)
  | None => raise (FileNotFoundError name)
  end.

(** [log_dataframe_info]: the line with the shape of the frame (the memory
    and null-count lines are left out). *)
Definition log_dataframe_info {R} (df : frame R) (stage : string) (e : entity) : M G DB unit :=
  logger (FrameInfo stage e (length (rows df)) (size (columns df))).

(** [df[col]] for each column of [cols] in turn: the first one the frame
    does not have raises [KeyError]. *)
Fixpoint require_columns (present : gset string) (cols : list string) : M G DB unit :=
  match cols with
  | [] => mret tt
  | c :: cols' =>
      if bool_decide (c ∈ present) then require_columns present cols'
      else raise (KeyError c)
  end.

End Artifacts.

End Artifacts.
Export Artifacts.

(* ===================================================================== *)
(** * [src/transform.py]: cleaning and feature engineering *)
(* ===================================================================== *)

Module HealthcareDataTransformer.

Import Utils.

Section Rows.

(** The text parsers behind [pd.to_numeric] and [pd.to_datetime]. *)
Variable parse_number : string -> option float64.
Variable parse_date : string -> option Z.

Definition fill_unknown (s : option string) : option string :=
  Some (default "Unknown"%string s).

Definition inf : float64 := PosInf.

(** ** Claims *)

(** The column updates of [_clean_claims_data] on one row.  Every update is
    cell by cell, so the row filters of the function commute with them. *)
Definition coerce_claim (r : Claim.row (raw float64) (raw Z)) : Claim.row float64 (option Z) :=
  Claim.Row
    (Claim.claim_id r)
    (Claim.patient_id r)
    (Claim.provider_id r)
    (to_datetime parse_date (Claim.admission_date r))
    (to_datetime parse_date (Claim.discharge_date r))
    (to_datetime parse_date <$> Claim.readmission_date r)
    (clean_icd_code (Claim.diagnosis_code r))
    ((fun s => Str.strip (Str.upper s)) <$> Claim.procedure_code r)
    (to_numeric parse_number (Claim.cost r))
    (fill_unknown (Claim.insurance_type r))
    (to_numeric parse_number (Claim.length_of_stay r)).

Definition cost_is_positive (r : Claim.row float64 (option Z)) : bool :=
  fgt (Claim.cost r) (Fin 0).

Definition los_is_reasonable (r : Claim.row float64 (option Z)) : bool :=
  fge (Claim.length_of_stay r) (Fin 0) && fle (Claim.length_of_stay r) (Fin 365).

(** [_clean_claims_data]: duplicates of a [claim_id] are dropped, the
    columns are coerced, and the rows with a cost that is not positive or a
    length of stay outside 0..365 are removed. *)
Definition _clean_claims_data (df : list (Claim.row (raw float64) (raw Z)))
  : list (Claim.row float64 (option Z)) :=
  let df := drop_duplicates Claim.claim_id df in
  let df := coerce_claim <$> df in
  let df := filter (fun r => cost_is_positive r) df in
  let df := filter (fun r => los_is_reasonable r) df in
  df.

Definition of_datetime (d : option Z) : raw Z :=
  match d with Some ns => Val ns | None => Null end.

Definition cost_bins : list float64 := [Fin 0; Fin 1000; Fin 5000; Fin 15000; inf].
Definition cost_labels : list Claim.cost_label :=
  [Claim.CostLow; Claim.CostMedium; Claim.CostHigh; Claim.CostVeryHigh].

Definition los_bins : list float64 := [Fin 0; Fin 1; Fin 3; Fin 7; inf].
Definition los_labels : list Claim.los_label :=
  [Claim.SameDay; Claim.Short; Claim.Medium; Claim.Long].

(** [df.get('readmission_date', pd.Series())] seen from one row: without
    the column, the empty default series aligns to a null on every row. *)
Definition get_readmission_date (r : Claim.row float64 (option Z)) : raw Z :=
  match Claim.readmission_date r with
  | Some d => of_datetime d
  | None => Null
  end.

Definition readmission_flag_of (r : Claim.row float64 (option Z)) : Z :=
  calculate_readmission_flag parse_date
    (of_datetime (Claim.admission_date r))
    (of_datetime (Claim.discharge_date r))
    (get_readmission_date r)
    default_days_threshold.

Definition cost_per_day_of (r : Claim.row float64 (option Z)) : float64 :=
  fdiv (Claim.cost r) (fadd (Claim.length_of_stay r) (Fin 1)).

Definition cost_category_of (r : Claim.row float64 (option Z)) : option Claim.cost_label :=
  cut cost_bins cost_labels (Claim.cost r).

Definition los_category_of (r : Claim.row float64 (option Z)) : option Claim.los_label :=
  cut los_bins los_labels (Claim.length_of_stay r).

(** [_engineer_claims_features]. *)
Definition _engineer_claims_features (df : list (Claim.row float64 (option Z)))
  : list Claim.silver :=
  (fun r =>
     Claim.Silver r
       (readmission_flag_of r)
       (cost_per_day_of r)
       (cost_category_of r)
       (los_category_of r)) <$> df.

(** The rows of [transform_claims_data]: cleaned, then engineered. *)
Definition transform_claims_rows (df : list (Claim.row (raw float64) (raw Z)))
  : list Claim.silver :=
  _engineer_claims_features (_clean_claims_data df).

(** What the two row filters of the cleaning step require together. *)
Definition acceptable (r : Claim.row float64 (option Z)) : bool :=
  cost_is_positive r && los_is_reasonable r.

(** ** Patients *)

(** The column updates of [_clean_patients_data] on one row.  A text column
    read back from parquet holds [None] for a null, and [astype(str)] turns
    it into the text ['None']. *)
Definition coerce_patient (r : Patient.row (raw float64) (raw Z))
  : Patient.row float64 (option Z) :=
  Patient.Row
    (Patient.patient_id r)
    (to_numeric parse_number (Patient.age r))
    (Some (standardize_gender (Patient.gender r)))
    (fill_unknown (Patient.race r))
    (Some (Str.prefix 5 (default "None"%string (Patient.zip_code r))))
    (fill_unknown (Patient.insurance_type r))
    (Patient.chronic_conditions r)
    (to_datetime parse_date (Patient.last_visit_date r)).

Definition age_is_reasonable (r : Patient.row float64 (option Z)) : bool :=
  fge (Patient.age r) (Fin 0) && fle (Patient.age r) (Fin 120).

(** [_clean_patients_data]. *)
Definition _clean_patients_data (df : list (Patient.row (raw float64) (raw Z)))
  : list (Patient.row float64 (option Z)) :=
  let df := drop_duplicates Patient.patient_id df in
  let df := coerce_patient <$> df in
  let df := filter (fun r => age_is_reasonable r) df in
  df.

Definition age_bins : list float64 := [Fin 0; Fin 18; Fin 35; Fin 50; Fin 65; Fin 100].
Definition age_labels : list Patient.age_label :=
  [Patient.Pediatric; Patient.YoungAdult; Patient.Adult; Patient.MiddleAge;
   Patient.Senior].

Definition risk_bins : list float64 := [Fin (-1); Fin 0; Fin 2; Fin 4; inf].
Definition risk_labels : list Patient.risk_label :=
  [Patient.RiskLow; Patient.RiskMedium; Patient.RiskHigh; Patient.RiskVeryHigh].

Definition age_category_of (r : Patient.row float64 (option Z)) : option Patient.age_label :=
  cut age_bins age_labels (Patient.age r).

(** The lambda of [patient_status]: both comparisons are false on a null. *)
Definition patient_status_of (x : option Z) : Patient.status_label :=
  if days_le x 90 then Patient.Active
  else if days_le x 365 then Patient.Inactive
  else Patient.Dormant.

(** [_engineer_patients_features]; [current_date] is [datetime.now()]. *)
Definition _engineer_patients_features (current_date : Z)
    (df : list (Patient.row float64 (option Z))) : list Patient.silver :=
  (fun r =>
     let days_since_last_visit :=
       dt_days (sub_datetime (Some current_date) (Patient.last_visit_date r)) in
     Patient.Silver r
       (age_category_of r)
       (cut risk_bins risk_labels (Patient.chronic_conditions r))
       days_since_last_visit
       (patient_status_of days_since_last_visit)) <$> df.

(** ** Providers *)

Definition strip_title (s : option string) : option string :=
  (fun s => Str.title (Str.strip s)) <$> s.

Definition coerce_provider (r : Provider.row (raw float64)) : Provider.row float64 :=
  Provider.Row
    (Provider.provider_id r)
    (strip_title (Provider.hospital_name r))
    (strip_title (Provider.provider_type r))
    ((fun s => Str.strip (Str.upper s)) <$> Provider.state r)
    (strip_title (Provider.city r))
    (to_numeric parse_number (Provider.beds r))
    (Some (default false (Provider.teaching_hospital r))).

(** [_clean_providers_data]. *)
Definition _clean_providers_data (df : list (Provider.row (raw float64)))
  : list (Provider.row float64) :=
  let df := drop_duplicates Provider.provider_id df in
  let df := coerce_provider <$> df in
  let df := filter (fun r => fgt (Provider.beds r) (Fin 0)) df in
  df.

Definition size_bins : list float64 := [Fin 0; Fin 100; Fin 300; Fin 600; inf].
Definition size_labels : list Provider.size_label :=
  [Provider.Small; Provider.MediumSize; Provider.Large; Provider.VeryLarge].

(** [_engineer_providers_features]. *)
Definition _engineer_providers_features (df : list (Provider.row float64))
  : list Provider.silver :=
  (fun r =>
     Provider.Silver r
       (cut size_bins size_labels (Provider.beds r))
       (match Provider.city r, Provider.state r with
        | Some c, Some s => Some (c ++ ", " ++ s)%string
        | _, _ => None
        end)
       (Fin 0) (Fin 0) 0) <$> df.

(** ** Prescriptions *)

Definition coerce_prescription (r : Rx.row (raw float64) (raw Z)) : Rx.row float64 (option Z) :=
  Rx.Row
    (Rx.prescription_id r)
    (Rx.patient_id r)
    (Rx.provider_id r)
    (strip_title (Rx.medication_name r))
    (to_datetime parse_date (Rx.prescription_date r))
    (to_numeric parse_number (Rx.days_supplied r))
    (to_numeric parse_number (Rx.days_prescribed r))
    (to_numeric parse_number (Rx.quantity r))
    (to_numeric parse_number (Rx.cost r)).

(** The loop over [numeric_columns]: one filter per column, in its order. *)
Definition numeric_columns : list (Rx.row float64 (option Z) -> float64) :=
  [Rx.days_supplied; Rx.days_prescribed; Rx.quantity; Rx.cost].

Definition keep_positive (df : list (Rx.row float64 (option Z)))
    (col : Rx.row float64 (option Z) -> float64) : list (Rx.row float64 (option Z)) :=
  filter (fun r => fgt (col r) (Fin 0)) df.

(** [_clean_prescriptions_data]. *)
Definition _clean_prescriptions_data (df : list (Rx.row (raw float64) (raw Z)))
  : list (Rx.row float64 (option Z)) :=
  let df := drop_duplicates Rx.prescription_id df in
  let df := coerce_prescription <$> df in
  foldl keep_positive df numeric_columns.

(** The literal [0.8] of the bins is the number of the format nearest to
    4/5, which lies a little above it. *)
Definition float_0_8 : Q := 3602879701896397 # 4503599627370496.

Definition adherence_bins : list float64 := [Fin 0; Fin 0.5; round64 0.8; Fin 1].
Definition adherence_labels : list Rx.adherence_label := [Rx.Poor; Rx.Fair; Rx.Good].

Definition medication_categories : gmap string string :=
  list_to_map
    [("Metformin", "Diabetes"); ("Lisinopril", "Cardiovascular");
     ("Atorvastatin", "Cardiovascular"); ("Metoprolol", "Cardiovascular");
     ("Omeprazole", "Gastrointestinal"); ("Amlodipine", "Cardiovascular");
     ("Hydrochlorothiazide", "Cardiovascular"); ("Simvastatin", "Cardiovascular");
     ("Losartan", "Cardiovascular"); ("Albuterol", "Respiratory")]%string.

Definition adherence_rate_of (r : Rx.row float64 (option Z)) : float64 :=
  calculate_medication_adherence (Rx.days_supplied r) (Rx.days_prescribed r).

(** [_engineer_prescriptions_features] (the calendar columns of the
    prescription date are left out). *)
Definition _engineer_prescriptions_features (df : list (Rx.row float64 (option Z)))
  : list Rx.silver :=
  (fun r =>
     let adherence_rate := adherence_rate_of r in
     Rx.Silver r
       adherence_rate
       (cut adherence_bins adherence_labels adherence_rate)
       (fdiv (Rx.cost r) (Rx.days_supplied r))
       (default "Other"%string
          (Rx.medication_name r ≫= fun n => medication_categories !! n))) <$> df.

(** The rows of [transform_prescriptions_data] and of
    [transform_patients_data]. *)
Definition transform_prescriptions_rows (df : list (Rx.row (raw float64) (raw Z)))
  : list Rx.silver :=
  _engineer_prescriptions_features (_clean_prescriptions_data df).

Definition transform_patients_rows (current_date : Z)
    (df : list (Patient.row (raw float64) (raw Z))) : list Patient.silver :=
  _engineer_patients_features current_date (_clean_patients_data df).

(** The rows of [transform_providers_data]. *)
Definition transform_providers_rows (df : list (Provider.row (raw float64)))
  : list Provider.silver :=
  _engineer_providers_features (_clean_providers_data df).

End Rows.

(** ** The transforms as steps of the pipeline *)

Section Transforms.

Context {G DB : Type}.
Variable parse_number : string -> option float64.
Variable parse_date : string -> option Z.

Definition save_silver_claims (df : frame Claim.silver) : M G DB unit :=
  s ← get_silver;
  set_silver (Layer (Some df) (patients s) (providers s)
                    (prescriptions s)).

Definition save_silver_patients (df : frame Patient.silver) : M G DB unit :=
  s ← get_silver;
  set_silver (Layer (claims s) (Some df) (providers s)
                    (prescriptions s)).

Definition save_silver_providers (df : frame Provider.silver) : M G DB unit :=
  s ← get_silver;
  set_silver (Layer (claims s) (patients s) (Some df)
                    (prescriptions s)).

Definition save_silver_prescriptions (df : frame Rx.silver) : M G DB unit :=
  s ← get_silver;
  set_silver (Layer (claims s) (patients s) (providers s)
                    (Some df)).

(** The metadata of a silver artifact. *)
Definition silver_metadata (metadata : list (string * meta))
  : M G DB (list (string * meta)) :=
  output_metadata ← generate_etl_metadata;
  now ← datetime_now;
  mret (dict_update output_metadata
          [("source_metadata", MDict metadata);
           ("transformation_timestamp", MTime now);
           ("pipeline_stage", MStr "silver");
           ("transformation_version", MStr "1.0.0")]%string).

(** *** Claims *)

(** [_clean_claims_data] on a frame: the columns it reads must exist (the
    three date columns are converted only when present). *)
Definition clean_claims_frame (df : frame (Claim.row (raw float64) (raw Z)))
  : M G DB (frame (Claim.row float64 (option Z))) :=
  _ ← require_columns (columns df)
        ["claim_id"; "diagnosis_code"; "procedure_code"; "insurance_type"; "cost";
         "length_of_stay"]%string;
  mret (Frame (columns df) (_clean_claims_data parse_number parse_date (rows df))
              (attrs df)).

Definition claims_features : list string :=
  ["readmission_flag"; "cost_per_day"; "cost_category"; "los_category";
   "admission_month"; "admission_quarter"; "admission_year"; "admission_dow"]%string.

(** [_engineer_claims_features] on a frame. *)
Definition engineer_claims_frame (df : frame (Claim.row float64 (option Z)))
  : M G DB (frame Claim.silver) :=
  _ ← require_columns (columns df)
        ["admission_date"; "discharge_date"; "cost"; "length_of_stay"]%string;
  mret (Frame (columns df ∪ list_to_set claims_features)
              (_engineer_claims_features parse_date (rows df))
              (attrs df)).

(** [_validate_claims_data]: a missing required column is fatal, the two
    checks of the cost range only warn. *)
Definition _validate_claims_data (df : frame Claim.silver) : M G DB unit :=
  let required_columns :=
    ["claim_id"; "patient_id"; "provider_id"; "diagnosis_code"; "cost"]%string in
  if negb (validate_dataframe (columns df) required_columns) then
    _ ← logger (Error "Missing required columns in claims");
    raise (ValueError "Claims data validation failed")
  else
    _ ← (if existsb (fun r => fle (Claim.cost (Claim.base r)) (Fin 0)) (rows df)
         then logger (Warning "Found non-positive costs in claims data")
         else mret tt);
    _ ← (if existsb (fun r => fgt (Claim.cost (Claim.base r)) (Fin 1000000)) (rows df)
         then logger (Warning "Found extremely high costs in claims data")
         else mret tt);
    logger (Info "Claims data validation completed").

(** [transform_claims_data]. *)
Definition transform_claims_data : M G DB (frame Claim.silver) :=
  _ ← logger (Started "transform" Claims);
  b ← get_bronze;
  '(df, metadata) ← load_parquet_with_metadata "claims_raw.parquet" (claims b);
  df ← clean_claims_frame df;
  df ← engineer_claims_frame df;
  _ ← _validate_claims_data df;
  output_metadata ← silver_metadata metadata;
  let df := with_metadata df output_metadata in
  _ ← save_silver_claims df;
  _ ← log_dataframe_info df "transform" Claims;
  mret df.

(** *** Patients *)

Definition clean_patients_frame (df : frame (Patient.row (raw float64) (raw Z)))
  : M G DB (frame (Patient.row float64 (option Z))) :=
  _ ← require_columns (columns df)
        ["patient_id"; "gender"; "age"; "zip_code"; "race"; "insurance_type";
         "last_visit_date"]%string;
  mret (Frame (columns df) (_clean_patients_data parse_number parse_date (rows df))
              (attrs df)).

Definition patients_features : list string :=
  ["age_category"; "risk_level"; "days_since_last_visit"; "patient_status"]%string.

Definition engineer_patients_frame (df : frame (Patient.row float64 (option Z)))
  : M G DB (frame Patient.silver) :=
  _ ← require_columns (columns df) ["age"; "chronic_conditions"]%string;
  current_date ← datetime_now;
  _ ← require_columns (columns df) ["last_visit_date"]%string;
  mret (Frame (columns df ∪ list_to_set patients_features)
              (_engineer_patients_features current_date (rows df))
              (attrs df)).

(** [_validate_patients_data]. *)
Definition _validate_patients_data (df : frame Patient.silver) : M G DB unit :=
  let required_columns := ["patient_id"; "age"; "gender"]%string in
  if negb (validate_dataframe (columns df) required_columns) then
    _ ← logger (Error "Missing required columns in patients");
    raise (ValueError "Patients data validation failed")
  else
    _ ← (if existsb (fun r => flt (Patient.age (Patient.base r)) (Fin 0)) (rows df)
            || existsb (fun r => fgt (Patient.age (Patient.base r)) (Fin 120)) (rows df)
         then logger (Warning "Found unreasonable ages in patients data")
         else mret tt);
    logger (Info "Patients data validation completed").

(** [transform_patients_data]. *)
Definition transform_patients_data : M G DB (frame Patient.silver) :=
  _ ← logger (Started "transform" Patients);
  b ← get_bronze;
  '(df, metadata) ← load_parquet_with_metadata "patients_raw.parquet"
                      (patients b);
  df ← clean_patients_frame df;
  df ← engineer_patients_frame df;
  _ ← _validate_patients_data df;
  output_metadata ← silver_metadata metadata;
  let df := with_metadata df output_metadata in
  _ ← save_silver_patients df;
  _ ← log_dataframe_info df "transform" Patients;
  mret df.

(** *** Providers *)

Definition clean_providers_frame (df : frame (Provider.row (raw float64)))
  : M G DB (frame (Provider.row float64)) :=
  _ ← require_columns (columns df)
        ["provider_id"; "hospital_name"; "provider_type"; "state"; "city"; "beds";
         "teaching_hospital"]%string;
  mret (Frame (columns df) (_clean_providers_data parse_number (rows df)) (attrs df)).

Definition providers_features : list string :=
  ["hospital_size"; "full_address"; "avg_cost"; "readmission_rate";
   "patient_volume"]%string.

Definition engineer_providers_frame (df : frame (Provider.row float64))
  : M G DB (frame Provider.silver) :=
  _ ← require_columns (columns df) ["beds"; "city"; "state"]%string;
  mret (Frame (columns df ∪ list_to_set providers_features)
              (_engineer_providers_features (rows df))
              (attrs df)).

(** [_validate_providers_data]. *)
Definition _validate_providers_data (df : frame Provider.silver) : M G DB unit :=
  let required_columns := ["provider_id"; "hospital_name"; "state"]%string in
  if negb (validate_dataframe (columns df) required_columns) then
    _ ← logger (Error "Missing required columns in providers");
    raise (ValueError "Providers data validation failed")
  else logger (Info "Providers data validation completed").

(** [transform_providers_data]. *)
Definition transform_providers_data : M G DB (frame Provider.silver) :=
  _ ← logger (Started "transform" Providers);
  b ← get_bronze;
  '(df, metadata) ← load_parquet_with_metadata "providers_raw.parquet"
                      (providers b);
  df ← clean_providers_frame df;
  df ← engineer_providers_frame df;
  _ ← _validate_providers_data df;
  output_metadata ← silver_metadata metadata;
  let df := with_metadata df output_metadata in
  _ ← save_silver_providers df;
  _ ← log_dataframe_info df "transform" Providers;
  mret df.

(** *** Prescriptions *)

Definition clean_prescriptions_frame (df : frame (Rx.row (raw float64) (raw Z)))
  : M G DB (frame (Rx.row float64 (option Z))) :=
  _ ← require_columns (columns df)
        ["prescription_id"; "medication_name"; "prescription_date"; "days_supplied";
         "days_prescribed"; "quantity"; "cost"]%string;
  mret (Frame (columns df) (_clean_prescriptions_data parse_number parse_date (rows df))
              (attrs df)).

Definition prescriptions_features : list string :=
  ["adherence_rate"; "adherence_category"; "cost_per_day"; "medication_category";
   "prescription_month"; "prescription_quarter"; "prescription_year"]%string.

Definition engineer_prescriptions_frame (df : frame (Rx.row float64 (option Z)))
  : M G DB (frame Rx.silver) :=
  _ ← require_columns (columns df)
        ["days_supplied"; "days_prescribed"; "cost"; "medication_name";
         "prescription_date"]%string;
  mret (Frame (columns df ∪ list_to_set prescriptions_features)
              (_engineer_prescriptions_features (rows df))
              (attrs df)).

(** [_validate_prescriptions_data]. *)
Definition _validate_prescriptions_data (df : frame Rx.silver) : M G DB unit :=
  let required_columns :=
    ["prescription_id"; "patient_id"; "medication_name"; "cost"]%string in
  if negb (validate_dataframe (columns df) required_columns) then
    _ ← logger (Error "Missing required columns in prescriptions");
    raise (ValueError "Prescriptions data validation failed")
  else logger (Info "Prescriptions data validation completed").

(** [transform_prescriptions_data]. *)
Definition transform_prescriptions_data : M G DB (frame Rx.silver) :=
  _ ← logger (Started "transform" Prescriptions);
  b ← get_bronze;
  '(df, metadata) ← load_parquet_with_metadata "prescriptions_raw.parquet"
                      (prescriptions b);
  df ← clean_prescriptions_frame df;
  df ← engineer_prescriptions_frame df;
  _ ← _validate_prescriptions_data df;
  output_metadata ← silver_metadata metadata;
  let df := with_metadata df output_metadata in
  _ ← save_silver_prescriptions df;
  _ ← log_dataframe_info df "transform" Prescriptions;
  mret df.

(** *** All four *)

(** [transform_all_data]: the four transforms one after the other, with no
    handler around any of them; the result is the dictionary of the four
    frames. *)
Definition transform_all_data : M G DB silver_layer :=
  _ ← logger (Info "Starting full data transformation...");
  claims_df ← transform_claims_data;
  patients_df ← transform_patients_data;
  providers_df ← transform_providers_data;
  prescriptions_df ← transform_prescriptions_data;
  _ ← logger (Info "Data transformation completed successfully");
  mret (Layer (Some claims_df) (Some patients_df) (Some providers_df)
              (Some prescriptions_df)).

(** The transform of one entity, without its result. *)
Definition transform_entity (e : entity) : M G DB unit :=
  match e with
  | Claims => _ ← transform_claims_data; mret tt
  | Patients => _ ← transform_patients_data; mret tt
  | Providers => _ ← transform_providers_data; mret tt
  | Prescriptions => _ ← transform_prescriptions_data; mret tt
  end.

(** The columns of the bronze frame that the transform of an entity cannot
    do without: those its cleaning and engineering steps read with
    [df[col]], and those its validation requires. *)
Definition needed_columns (e : entity) : list string :=
  match e with
  | Claims =>
      ["claim_id"; "diagnosis_code"; "procedure_code"; "insurance_type"; "cost";
       "length_of_stay"; "admission_date"; "discharge_date"; "patient_id";
       "provider_id"]
  | Patients =>
      ["patient_id"; "gender"; "age"; "zip_code"; "race"; "insurance_type";
       "last_visit_date"; "chronic_conditions"]
  | Providers =>
      ["provider_id"; "hospital_name"; "provider_type"; "state"; "city"; "beds";
       "teaching_hospital"]
  | Prescriptions =>
      ["prescription_id"; "medication_name"; "prescription_date"; "days_supplied";
       "days_prescribed"; "quantity"; "cost"; "patient_id"]
  end%string.

(** The order in which [transform_all_data] takes the entities. *)
Definition transform_order : list entity := [Claims; Patients; Providers; Prescriptions].

(** Whether the transform of [e], run on its own from [w], returns. *)
Definition transform_succeeds (e : entity) (w : world G DB) : bool :=
  is_ok (transform_entity e w).1.

End Transforms.

End HealthcareDataTransformer.

(* ===================================================================== *)
(** * What a computation reads and writes *)
(* ===================================================================== *)

Module Effects.

(** The entities a run reaches when it takes [l] in order and stops after
    the first one that is not [ok]. *)
Fixpoint attempted (ok : entity -> bool) (l : list entity) : list entity :=
  match l with
  | [] => []
  | e :: l' => e :: (if ok e then attempted ok l' else [])
  end.

Section Effects.

Context {G DB : Type}.

(** [m] leaves the bronze layer and the clock as they are. *)
Definition keeps_inputs {A} (m : M G DB A) : Prop :=
  forall w, bronze (m w).2 = bronze w /\ clock (m w).2 = clock w.

(** The outcome of [m] depends on the bronze layer and the clock only. *)
Definition determined_by_inputs {A} (m : M G DB A) : Prop :=
  forall w1 w2, bronze w1 = bronze w2 -> clock w1 = clock w2 -> (m w1).1 = (m w2).1.

(** [m] logs the start of no entity of [stage]. *)
Definition quiet (stage : string) {A} (m : M G DB A) : Prop :=
  forall w, started stage (log (m w).2) = started stage (log w).

(** [m] returns, whatever the world. *)
Definition never_raises {A} (m : M G DB A) : Prop :=
  forall w, is_ok (m w).1 = true.

(** A step of a transform: it reads the bronze layer and the clock, and
    writes the silver layer and log lines other than starts. *)
Definition transform_step {A} (m : M G DB A) : Prop :=
  keeps_inputs m /\ determined_by_inputs m /\ quiet "transform" m.

(** The transform of the entity [e]: like a step, but it logs its own
    start, once. *)
Definition transform_of {A} (e : entity) (m : M G DB A) : Prop :=
  keeps_inputs m /\ determined_by_inputs m
  /\ forall w, started "transform" (log (m w).2) = started "transform" (log w) ++ [e].

(** The load of the entity [e]: it never raises, and it logs its own
    start, once. *)
Definition load_of (e : entity) (m : M G DB bool) : Prop :=
  never_raises m
  /\ forall w, started "load" (log (m w).2) = started "load" (log w) ++ [e].

(** The outcome of [m] and the generator state it leaves depend on the
    generator state only. *)
Definition determined_by_rng {A} (m : M G DB A) : Prop :=
  forall w1 w2, rng w1 = rng w2 -> (m w1).1 = (m w2).1 /\ rng (m w1).2 = rng (m w2).2.

(** [m] returns, with a result that satisfies [P], and changes nothing but
    the state of the random generator. *)
Definition draws {A} (P : A -> Prop) (m : M G DB A) : Prop :=
  forall w, exists a g,
    m w = (Ok a, World (files w) g (clock w) (bronze w) (silver w) (db w) (log w))
    /\ P a.

End Effects.

End Effects.
Export Effects.

(* ===================================================================== *)
(** * [src/load.py] *)
(* ===================================================================== *)

Module HealthcareDataLoader.

Inductive if_exists := Replace | Append.

(** The warehouse as the loader sees it through SQLAlchemy and
    [DataFrame.to_sql]: every call may raise, and may change the state. *)
Class Engine (DB : Type) : Type := {
  (** [create_engine], [connect] and [SELECT 1]. *)
  connect_select_1 : DB -> result unit * DB;
  (** reading [schema.sql] and executing it. *)
  execute_schema : DB -> result unit * DB;
  to_sql : forall {R : Type}, string -> if_exists -> list R -> DB -> result unit * DB;
  (** [SELECT COUNT( * ) FROM table]. *)
  select_count : string -> DB -> result Z * DB;
  (** [SELECT medication_id, medication_name FROM healthcare.medications]. *)
  select_medications : DB -> result (list (Z * string)) * DB;
  (** the [UPDATE healthcare.providers ...] of the provider metrics. *)
  execute_update_metrics : DB -> result unit * DB;
  (** [engine.connect()] alone. *)
  connect : DB -> result unit * DB
}.

(** A prescription row as it is written to the warehouse. *)
Record rx_loaded : Type := RxLoaded {
  rx : Rx.silver;
  medication_id : option Z
}.

Section Loader.

Context {G DB : Type} `{Engine DB}.

(** [astype('int64')] on an identifier and on a numeric cell: a null (or an
    infinity) cannot be cast, a fraction is cut off towards zero, and a
    number beyond the range of [int64] becomes its least value (the result
    of the conversion instruction of x86-64, which numpy leaves as it is). *)
Definition astype_int64_id (x : option Z) : result (option Z) :=
  match x with
  | Some z => Ok (Some z)
  | None => Raise IntCastingNaNError
  end.

Definition Qtruncate (q : Q) : Z :=
  if Qle_bool 0 q then Qfloor q else Qceiling q.

Definition INT64_MIN : Z := - 2 ^ 63.

Definition astype_int64 (x : float64) : result float64 :=
  match x with
  | Fin q =>
      let z := Qtruncate q in
      Ok (of_Z (if (INT64_MIN <=? z) && (z <? 2 ^ 63) then z else INT64_MIN))
  | _ => Raise IntCastingNaNError
  end.

(** [pd.to_datetime(col).dt.date]: the day of the timestamp. *)
Definition dt_date (d : option Z) : option Z :=
  (fun ns => ns / NS_PER_DAY * NS_PER_DAY) <$> d.

(** The first required column the frame lacks, if any. *)
Definition first_missing (present : gset string) (required_columns : list string)
  : option string :=
  head (List.filter (fun c => negb (bool_decide (c ∈ present))) required_columns).

(** [df.get(col, default)] for a text column: the column itself, or the
    default on every row. *)
Definition get_or (present : gset string) (col : string) (v : option string)
    (default : string) : option string :=
  if bool_decide (col ∈ present) then v else Some default.

(** [df.get(col, scalar).astype(...)]: the scalar default has no [astype]. *)
Definition get_astype (present : gset string) (col : string) : M G DB unit :=
  if bool_decide (col ∈ present) then mret tt
  else raise (AttributeError col).

(** [df[col].astype('int64')] as a check of a whole column: the cast of the
    first cell that cannot be cast raises. *)
Definition astype_column {R A : Type} (cast : R -> result A) (df : list R) : M G DB unit :=
  _ ← lift_result (mapM cast df); mret tt.

(** ** Preparing the frames

    The casts are made column by column in the source; a row function below
    repeats them row by row once every column has passed its check. *)

Definition prepare_patient (present : gset string) (r : Patient.silver)
  : result Patient.silver :=
  let b := Patient.base r in
  patient_id ← astype_int64_id (Patient.patient_id b);
  age ← astype_int64 (Patient.age b);
  chronic_conditions ← astype_int64 (Patient.chronic_conditions b);
  mret (Patient.Silver
          (Patient.Row patient_id age (Patient.gender b)
             (get_or present "race" (Patient.race b) "Unknown")
             (get_or present "zip_code" (Patient.zip_code b) "00000")
             (get_or present "insurance_type" (Patient.insurance_type b) "Unknown")
             chronic_conditions
             (if bool_decide ("last_visit_date"%string ∈ present)
              then dt_date (Patient.last_visit_date b)
              else Patient.last_visit_date b))
          (Patient.age_category r) (Patient.risk_level r)
          (Patient.days_since_last_visit r) (Patient.patient_status r)).

(** [_prepare_patients_for_db]. *)
Definition _prepare_patients_for_db (df : frame Patient.silver)
  : M G DB (frame Patient.silver) :=
  match first_missing (columns df) ["patient_id"; "age"; "gender"]%string with
  | Some col => _ ← logger (Error ("Missing required column: " ++ col)); mret df
  | None =>
      _ ← astype_column (astype_int64_id ∘ Patient.patient_id ∘ Patient.base) (rows df);
      _ ← astype_column (astype_int64 ∘ Patient.age ∘ Patient.base) (rows df);
      _ ← get_astype (columns df) "chronic_conditions";
      rows' ← lift_result (mapM (prepare_patient (columns df)) (rows df));
      mret (Frame (columns df ∪ list_to_set ["race"; "zip_code"; "insurance_type"]%string)
                  rows' (attrs df))
  end.

Definition prepare_provider (present : gset string) (r : Provider.silver)
  : result Provider.silver :=
  let b := Provider.base r in
  provider_id ← astype_int64_id (Provider.provider_id b);
  beds ← astype_int64 (Provider.beds b);
  mret (Provider.Silver
          (Provider.Row provider_id (Provider.hospital_name b)
             (get_or present "provider_type" (Provider.provider_type b) "Hospital")
             (Provider.state b)
             (get_or present "city" (Provider.city b) "Unknown")
             beds
             (Provider.teaching_hospital b))
          (Provider.hospital_size r) (Provider.full_address r) (Provider.avg_cost r)
          (Provider.readmission_rate r) (Provider.patient_volume r)).

(** [_prepare_providers_for_db]. *)
Definition _prepare_providers_for_db (df : frame Provider.silver)
  : M G DB (frame Provider.silver) :=
  match first_missing (columns df) ["provider_id"; "hospital_name"; "state"]%string with
  | Some col => _ ← logger (Error ("Missing required column: " ++ col)); mret df
  | None =>
      _ ← astype_column (astype_int64_id ∘ Provider.provider_id ∘ Provider.base) (rows df);
      _ ← get_astype (columns df) "beds";
      rows' ← lift_result (mapM (prepare_provider (columns df)) (rows df));
      _ ← get_astype (columns df) "teaching_hospital";
      mret (Frame (columns df ∪ list_to_set ["provider_type"; "city"]%string)
                  rows' (attrs df))
  end.

Definition prepare_date (present : gset string) (col : string) (d : option Z)
  : option Z :=
  if bool_decide (col ∈ present) then dt_date d else d.

Definition prepare_claim (present : gset string) (r : Claim.silver)
  : result Claim.silver :=
  let b := Claim.base r in
  claim_id ← astype_int64_id (Claim.claim_id b);
  patient_id ← astype_int64_id (Claim.patient_id b);
  provider_id ← astype_int64_id (Claim.provider_id b);
  length_of_stay ← astype_int64 (Claim.length_of_stay b);
  mret (Claim.Silver
          (Claim.Row claim_id patient_id provider_id
             (prepare_date present "admission_date" (Claim.admission_date b))
             (prepare_date present "discharge_date" (Claim.discharge_date b))
             (if bool_decide ("readmission_date"%string ∈ present)
              then dt_date <$> Claim.readmission_date b
              else Claim.readmission_date b)
             (Claim.diagnosis_code b) (Claim.procedure_code b) (Claim.cost b)
             (get_or present "insurance_type" (Claim.insurance_type b) "Unknown")
             length_of_stay)
          (Claim.readmission_flag r) (Claim.cost_per_day r) (Claim.cost_category r)
          (Claim.los_category r)).

(** [_prepare_claims_for_db]. *)
Definition _prepare_claims_for_db (df : frame Claim.silver) : M G DB (frame Claim.silver) :=
  match first_missing (columns df)
          ["claim_id"; "patient_id"; "provider_id"; "cost"]%string with
  | Some col => _ ← logger (Error ("Missing required column: " ++ col)); mret df
  | None =>
      _ ← astype_column (astype_int64_id ∘ Claim.claim_id ∘ Claim.base) (rows df);
      _ ← astype_column (astype_int64_id ∘ Claim.patient_id ∘ Claim.base) (rows df);
      _ ← astype_column (astype_int64_id ∘ Claim.provider_id ∘ Claim.base) (rows df);
      _ ← get_astype (columns df) "readmission_flag";
      _ ← get_astype (columns df) "length_of_stay";
      rows' ← lift_result (mapM (prepare_claim (columns df)) (rows df));
      mret (Frame (columns df ∪ list_to_set ["insurance_type"]%string) rows' (attrs df))
  end.

(** ** The medication lookup *)

(** [{row[1]: row[0] for row in result}]: a later row of the table wins. *)
Definition medication_map_of (table : list (Z * string)) : gmap string Z :=
  foldl (fun m row => <[row.2 := row.1]> m) ∅ table.

(** [Series.map(medication_map)] on one name: null when the name is null or
    is no key of the dictionary. *)
Definition map_medication (medication_map : gmap string Z) (name : option string)
  : option Z :=
  name ≫= fun n => medication_map !! n.

(** The unmapped names, each once, in the order they first occur. *)
Definition unmapped_names (df : list rx_loaded) : list (option string) :=
  drop_duplicates id
    (Rx.medication_name ∘ Rx.base ∘ rx <$>
       filter (fun r => bool_decide (medication_id r = None)) df).


(** [_add_medication_ids]. *)
Definition _add_medication_ids (df : list Rx.silver) : M G DB (list rx_loaded) :=
  try_except
    (table ← with_db select_medications;
     let medication_map := medication_map_of table in
     let df :=
       (fun r => RxLoaded r
                   (map_medication medication_map (Rx.medication_name (Rx.base r))))
         <$> df in
     let unmapped := unmapped_names df in
     if (0 <? length unmapped)%nat then
       _ ← logger (UnmappedMedications (length unmapped) unmapped);
       mret ((fun r => RxLoaded (rx r) (Some (default 0 (medication_id r)))) <$> df)
     else mret df)
    (fun e =>
       _ ← logger (Failed "Failed to add medication IDs" e);
       mret ((fun r => RxLoaded r (Some 0)) <$> df)).

Definition prepare_prescription (present : gset string) (r : Rx.silver)
  : result Rx.silver :=
  let b := Rx.base r in
  prescription_id ← astype_int64_id (Rx.prescription_id b);
  patient_id ← astype_int64_id (Rx.patient_id b);
  provider_id ← astype_int64_id (Rx.provider_id b);
  days_supplied ← astype_int64 (Rx.days_supplied b);
  days_prescribed ← astype_int64 (Rx.days_prescribed b);
  quantity ← astype_int64 (Rx.quantity b);
  mret (Rx.Silver
          (Rx.Row prescription_id patient_id provider_id (Rx.medication_name b)
             (prepare_date present "prescription_date" (Rx.prescription_date b))
             days_supplied days_prescribed quantity (Rx.cost b))
          (Rx.adherence_rate r) (Rx.adherence_category r) (Rx.cost_per_day r)
          (Rx.medication_category r)).

(** [_prepare_prescriptions_for_db]. *)
Definition _prepare_prescriptions_for_db (df : frame Rx.silver)
  : M G DB (frame rx_loaded) :=
  match first_missing (columns df)
          ["prescription_id"; "patient_id"; "medication_name"; "cost"]%string with
  | Some col =>
      _ ← logger (Error ("Missing required column: " ++ col));
      mret (Frame (columns df) ((fun r => RxLoaded r None) <$> rows df) (attrs df))
  | None =>
      _ ← astype_column (astype_int64_id ∘ Rx.prescription_id ∘ Rx.base) (rows df);
      _ ← astype_column (astype_int64_id ∘ Rx.patient_id ∘ Rx.base) (rows df);
      _ ← require_columns (columns df) ["provider_id"]%string;
      _ ← astype_column (astype_int64_id ∘ Rx.provider_id ∘ Rx.base) (rows df);
      _ ← require_columns (columns df) ["days_supplied"]%string;
      _ ← astype_column (astype_int64 ∘ Rx.days_supplied ∘ Rx.base) (rows df);
      _ ← require_columns (columns df) ["days_prescribed"]%string;
      _ ← astype_column (astype_int64 ∘ Rx.days_prescribed ∘ Rx.base) (rows df);
      _ ← require_columns (columns df) ["quantity"]%string;
      rows' ← lift_result (mapM (prepare_prescription (columns df)) (rows df));
      rows' ← _add_medication_ids rows';
      mret (Frame (columns df ∪ list_to_set ["medication_id"]%string) rows' (attrs df))
  end.

(** ** Loading the entities *)

(** [connect_to_database]: only an [SQLAlchemyError] is handled. *)
Definition connect_to_database : M G DB bool :=
  try_except
    (_ ← with_db connect_select_1;
     _ ← logger (Info "Successfully connected to PostgreSQL database");
     mret true)
    (fun e =>
       match e with
       | SQLAlchemyError _ =>
           _ ← logger (Failed "Failed to connect to database" e); mret false
       | _ => raise e
       end).

(** [create_schema]. *)
Definition create_schema : M G DB bool :=
  try_except
    (_ ← with_db execute_schema;
     _ ← logger (Info "Database schema created successfully");
     mret true)
    (fun e => _ ← logger (Failed "Failed to create schema" e); mret false).

(** [load_patients_data]. *)
Definition load_patients_data : M G DB bool :=
  _ ← logger (Started "load" Patients);
  try_except
    (s ← get_silver;
     '(df, metadata) ← load_parquet_with_metadata "patients_clean.parquet"
                         (patients s);
     df ← _prepare_patients_for_db df;
     _ ← with_db (to_sql "patients" Replace (rows df));
     count ← with_db (select_count "healthcare.patients");
     _ ← logger (Loaded Patients count);
     mret true)
    (fun e => _ ← logger (Failed "Failed to load patients data" e); mret false).

(** [load_providers_data]. *)
Definition load_providers_data : M G DB bool :=
  _ ← logger (Started "load" Providers);
  try_except
    (s ← get_silver;
     '(df, metadata) ← load_parquet_with_metadata "providers_clean.parquet"
                         (providers s);
     df ← _prepare_providers_for_db df;
     _ ← with_db (to_sql "providers" Replace (rows df));
     count ← with_db (select_count "healthcare.providers");
     _ ← logger (Loaded Providers count);
     mret true)
    (fun e => _ ← logger (Failed "Failed to load providers data" e); mret false).

Definition chunk_size : nat := 1000.

(** [range(0, n, chunk_size)]. *)
Definition chunk_starts (n : nat) : list nat :=
  (fun k => k * chunk_size)%nat <$> seq 0 ((n + chunk_size - 1) / chunk_size)%nat.

(** The loop that writes a fact table in chunks: the first chunk replaces
    the table, the others are appended. *)
Fixpoint to_sql_chunks {R : Type} (table : string) (df : list R) (starts : list nat)
  : M G DB unit :=
  match starts with
  | [] => mret tt
  | i :: starts' =>
      let chunk := take chunk_size (drop i df) in
      let mode := if (i =? 0)%nat then Replace else Append in
      _ ← with_db (to_sql table mode chunk);
      to_sql_chunks table df starts'
  end.

(** [load_claims_data]. *)
Definition load_claims_data : M G DB bool :=
  _ ← logger (Started "load" Claims);
  try_except
    (s ← get_silver;
     '(df, metadata) ← load_parquet_with_metadata "claims_clean.parquet"
                         (claims s);
     df ← _prepare_claims_for_db df;
     _ ← to_sql_chunks "claims" (rows df) (chunk_starts (length (rows df)));
     count ← with_db (select_count "healthcare.claims");
     _ ← logger (Loaded Claims count);
     mret true)
    (fun e => _ ← logger (Failed "Failed to load claims data" e); mret false).

(** [load_prescriptions_data]. *)
Definition load_prescriptions_data : M G DB bool :=
  _ ← logger (Started "load" Prescriptions);
  try_except
    (s ← get_silver;
     '(df, metadata) ← load_parquet_with_metadata "prescriptions_clean.parquet"
                         (prescriptions s);
     df ← _prepare_prescriptions_for_db df;
     _ ← to_sql_chunks "prescriptions" (rows df) (chunk_starts (length (rows df)));
     count ← with_db (select_count "healthcare.prescriptions");
     _ ← logger (Loaded Prescriptions count);
     mret true)
    (fun e => _ ← logger (Failed "Failed to load prescriptions data" e); mret false).

(** [update_provider_metrics]. *)
Definition update_provider_metrics : M G DB bool :=
  _ ← logger (Info "Updating provider performance metrics...");
  try_except
    (_ ← with_db execute_update_metrics;
     _ ← logger (Info "Provider metrics updated successfully");
     mret true)
    (fun e => _ ← logger (Failed "Failed to update provider metrics" e); mret false).

(** [create_analytics_views]. *)
Definition create_analytics_views : M G DB bool :=
  _ ← logger (Info "Creating analytics views...");
  try_except
    (_ ← with_db connect;
     _ ← logger (Info "Analytics views are ready");
     mret true)
    (fun e => _ ← logger (Failed "Failed to create analytics views" e); mret false).

(** [load_all_data]: the connection and the schema come first and end the
    load when they fail; the four loads follow, dimensions first, and
    [success] is cleared by every load that returns false. *)
Definition load_all_data : M G DB bool :=
  _ ← logger (Info "Starting full data loading process...");
  connected ← connect_to_database;
  if negb connected then mret false
  else
    created ← create_schema;
    if negb created then mret false
    else
      let success := true in
      ok ← load_patients_data;
      let success := if negb ok then false else success in
      ok ← load_providers_data;
      let success := if negb ok then false else success in
      ok ← load_claims_data;
      let success := if negb ok then false else success in
      ok ← load_prescriptions_data;
      let success := if negb ok then false else success in
      _ ← (if success then
             _ ← update_provider_metrics;
             _ ← create_analytics_views;
             mret tt
           else mret tt);
      _ ← (if success then logger (Info "All data loaded successfully to database")
           else logger (Error "Some data loading operations failed"));
      mret success.

(** The two steps that open [load_all_data], with its first log line: true
    when the warehouse is connected and its schema is in place. *)
Definition connect_and_create_schema : M G DB bool :=
  _ ← logger (Info "Starting full data loading process...");
  connected ← connect_to_database;
  if negb connected then mret false else create_schema.

(** [verify_data_integrity]: the counts read so far are dropped when a
    query fails. *)
Definition verify_data_integrity : M G DB (list (entity * Z)) :=
  _ ← logger (Info "Verifying data integrity...");
  try_except
    (mapM (fun e =>
             count ← with_db (select_count ("healthcare." ++ entity_name e));
             _ ← logger (Loaded e count);
             mret (e, count))
          [Patients; Providers; Claims; Prescriptions])
    (fun e => _ ← logger (Failed "Failed to verify data integrity" e); mret []).

(** The calls of [to_sql] that the chunk loop makes for a frame, in order:
    the mode and the rows of each call. *)
Definition chunks {R : Type} (df : list R) : list (if_exists * list R) :=
  (fun i => (if (i =? 0)%nat then Replace else Append, take chunk_size (drop i df)))
    <$> chunk_starts (length df).

Fixpoint write_chunks {R : Type} (table : string) (calls : list (if_exists * list R))
  : M G DB unit :=
  match calls with
  | [] => mret tt
  | (mode, chunk) :: calls' =>
      _ ← with_db (to_sql table mode chunk);
      write_chunks table calls'
  end.

(** The load of one entity. *)
Definition load_entity (e : entity) : M G DB bool :=
  match e with
  | Claims => load_claims_data
  | Patients => load_patients_data
  | Providers => load_providers_data
  | Prescriptions => load_prescriptions_data
  end.

End Loader.

End HealthcareDataLoader.

(* ===================================================================== *)
(** * [src/extract.py] *)
(* ===================================================================== *)

Module HealthcareDataExtractor.

(** numpy's global random generator.  [seed s] is the state that
    [np.random.seed(s)] installs, whatever the state was before; a draw
    returns its values and the next state. *)
Class NumpyRandom (G : Type) : Type := {
  seed : Z -> G;
  randint : Z -> Z -> nat -> G -> list Z * G;
  randint_scalar : Z -> Z -> G -> Z * G;
  choice : forall {A : Type}, list A -> nat -> G -> list A * G;
  choice_without_replacement : nat -> nat -> G -> list nat * G;
  exponential : Q -> nat -> G -> list Q * G;
  poisson : Q -> nat -> G -> list Z * G
}.

(** [pd.read_csv] for the four kinds of file: the frame a text parses to,
    or the exception it raises. *)
Class CsvReader : Type := {
  read_csv_claims : string -> result (frame (Claim.row (raw float64) (raw Z)));
  read_csv_patients : string -> result (frame (Patient.row (raw float64) (raw Z)));
  read_csv_providers : string -> result (frame (Provider.row (raw float64)));
  read_csv_prescriptions : string -> result (frame (Rx.row (raw float64) (raw Z)))
}.

Section Extractor.

Context {G DB : Type} `{NumpyRandom G} `{CsvReader}.

(** The days 2020-01-01, 2020-01-02, 2023-12-31 and 2024-01-01, counted
    from 1970-01-01. *)
Definition d_2020_01_01 : Z := day 18262.
Definition d_2020_01_02 : Z := day 18263.
Definition d_2023_12_31 : Z := day 19722.
Definition d_2024_01_01 : Z := day 19723.

(** [np.linspace(0, stop, num, dtype='int64')]: the step [stop / (num - 1)]
    and its multiples are computed in binary64 and rounded down to whole
    numbers; the last value is [stop] itself. *)
Definition linspace_int64 (stop : Z) (num : nat) : list Z :=
  let div := Z.of_nat num - 1 in
  let delta := float_of_int stop in
  let step := if 0 <? div then fdiv delta (float_of_int div) else delta in
  (fun i =>
     if (0 <? div) && (Z.of_nat i =? div) then floor_to_int delta
     else floor_to_int (fmul (float_of_int (Z.of_nat i)) step))
    <$> seq 0 num.

(** [pd.date_range(start, end, periods=n)]: [n] timestamps from [start] to
    [end], spaced by [np.linspace] over the nanoseconds between the two. *)
Definition date_range (start stop : Z) (periods : nat) : list Z :=
  (fun v => start + v) <$> linspace_int64 (stop - start) periods.

(** The cell [col[i]] of a generated column; numpy returns as many values
    as were asked for, so the default is never read. *)
Definition cell {A} (d : A) (col : list A) (i : nat) : A := nth i col d.

(** [file_path and os.path.exists(file_path)]: the text of the file when a
    path is given, is not empty, and names a file. *)
Definition source_of (files : gmap string string) (file_path : option string)
  : option string :=
  match file_path with
  | Some p => if bool_decide (p = ""%string) then None else files !! p
  | None => None
  end.

Definition source_text (file_path : option string) : M G DB (option string) :=
  files ← get_files;
  mret (source_of files file_path).

(** The metadata of a bronze artifact; [file_path or "generated"]. *)
Definition bronze_metadata (file_path : option string) : M G DB (list (string * meta)) :=
  metadata ← generate_etl_metadata;
  now ← datetime_now;
  let source :=
    match file_path with
    | Some p => if bool_decide (p = ""%string) then "generated"%string else p
    | None => "generated"%string
    end in
  mret (dict_update metadata
          [("source", MStr source); ("extraction_timestamp", MTime now);
           ("pipeline_stage", MStr "bronze")]%string).

(** ** Claims *)

Definition claims_columns : gset string :=
  list_to_set
    ["claim_id"; "patient_id"; "provider_id"; "admission_date"; "discharge_date";
     "diagnosis_code"; "procedure_code"; "cost"; "insurance_type"; "length_of_stay";
     "readmission_date"]%string.

(** [_generate_sample_claims_data]. *)
Definition _generate_sample_claims_data : M G DB (frame (Claim.row (raw float64) (raw Z))) :=
  _ ← set_rng (seed 42);
  let n_records := Z.to_nat 10000 in
  patient_id ← with_rng (randint 1 5001 n_records);
  provider_id ← with_rng (randint 1 101 n_records);
  let admission_date := date_range d_2020_01_01 d_2023_12_31 n_records in
  let discharge_date := date_range d_2020_01_02 d_2024_01_01 n_records in
  diagnosis_code ← with_rng (choice
    ["E11.9"; "I25.10"; "F32.9"; "M79.3"; "K21.9"; "G43.909"; "M25.561";
     "R06.02"; "Z87.891"; "I10"; "E78.5"; "M54.5"; "R50.9"; "K59.00"]%string n_records);
  procedure_code ← with_rng (choice
    ["99213"; "99214"; "99215"; "99281"; "99282"; "99283"; "99284"; "99285"]%string
    n_records);
  cost ← with_rng (exponential 5000 n_records);
  insurance_type ← with_rng (choice
    ["Medicare"; "Medicaid"; "Private"; "Self-Pay"]%string n_records);
  length_of_stay ← with_rng (poisson 3 n_records);
  readmission_indices ← with_rng (choice_without_replacement n_records 1500);
  days ← with_rng (randint_scalar 1 30);
  mret (Frame claims_columns
          ((fun i =>
              Claim.Row (Some (Z.of_nat i + 1))
                (Some (cell 0 patient_id i))
                (Some (cell 0 provider_id i))
                (Val (cell 0 admission_date i))
                (Val (cell 0 discharge_date i))
                (Some (if bool_decide (i ∈ readmission_indices)
                       then Val (cell 0 discharge_date i + day days)
                       else Null))
                (Some (cell ""%string diagnosis_code i))
                (Some (cell ""%string procedure_code i))
                (Val (Fin (cell 0%Q cost i)))
                (Some (cell ""%string insurance_type i))
                (Val (of_Z (cell 0 length_of_stay i)))) <$> seq 0 n_records)
          []).

(** [extract_claims_data]. *)
Definition extract_claims_data (file_path : option string)
  : M G DB (frame (Claim.row (raw float64) (raw Z))) :=
  _ ← logger (Started "extract" Claims);
  text ← source_text file_path;
  df ← match text with
       | Some t =>
           df ← lift_result (read_csv_claims t);
           _ ← logger (Info "Loaded claims data"); mret df
       | None =>
           df ← _generate_sample_claims_data;
           _ ← logger (Info "Generated sample claims data"); mret df
       end;
  metadata ← bronze_metadata file_path;
  let df := with_metadata df metadata in
  b ← get_bronze;
  _ ← set_bronze (Layer (Some df) (patients b) (providers b)
                        (prescriptions b));
  _ ← log_dataframe_info df "extract" Claims;
  mret df.

(** ** Patients *)

Definition patients_columns : gset string :=
  list_to_set
    ["patient_id"; "age"; "gender"; "race"; "zip_code"; "insurance_type";
     "chronic_conditions"; "last_visit_date"]%string.

(** [_generate_sample_patients_data]. *)
Definition _generate_sample_patients_data
  : M G DB (frame (Patient.row (raw float64) (raw Z))) :=
  _ ← set_rng (seed 42);
  let n_patients := Z.to_nat 5000 in
  age ← with_rng (randint 18 100 n_patients);
  gender ← with_rng (choice ["Male"; "Female"]%string n_patients);
  race ← with_rng (choice ["White"; "Black"; "Hispanic"; "Asian"; "Other"]%string
                     n_patients);
  zip_code ← with_rng (randint 10000 99999 n_patients);
  insurance_type ← with_rng (choice
    ["Medicare"; "Medicaid"; "Private"; "Self-Pay"]%string n_patients);
  chronic_conditions ← with_rng (choice [0; 1; 2; 3; 4; 5] n_patients);
  let last_visit_date := date_range d_2020_01_01 d_2023_12_31 n_patients in
  mret (Frame patients_columns
          ((fun i =>
              Patient.Row (Some (Z.of_nat i + 1))
                (Val (of_Z (cell 0 age i)))
                (Some (cell ""%string gender i))
                (Some (cell ""%string race i))
                (Some (pretty (cell 0 zip_code i)))
                (Some (cell ""%string insurance_type i))
                (of_Z (cell 0 chronic_conditions i))
                (Val (cell 0 last_visit_date i))) <$> seq 0 n_patients)
          []).

(** [extract_patients_data]. *)
Definition extract_patients_data (file_path : option string)
  : M G DB (frame (Patient.row (raw float64) (raw Z))) :=
  _ ← logger (Started "extract" Patients);
  text ← source_text file_path;
  df ← match text with
       | Some t =>
           df ← lift_result (read_csv_patients t);
           _ ← logger (Info "Loaded patients data"); mret df
       | None =>
           df ← _generate_sample_patients_data;
           _ ← logger (Info "Generated sample patients data"); mret df
       end;
  metadata ← bronze_metadata file_path;
  let df := with_metadata df metadata in
  b ← get_bronze;
  _ ← set_bronze (Layer (claims b) (Some df) (providers b)
                        (prescriptions b));
  _ ← log_dataframe_info df "extract" Patients;
  mret df.

(** ** Providers *)

Definition providers_columns : gset string :=
  list_to_set
    ["provider_id"; "hospital_name"; "provider_type"; "state"; "city"; "beds";
     "teaching_hospital"]%string.

Definition apostrophe : string := String (ascii_of_nat 39) EmptyString.

Definition hospital_names : list string :=
  ["General Hospital"; "City Medical Center"; "Regional Health System";
   "University Hospital"; "Community Health Center"; "Metro General";
   "St. Mary" ++ apostrophe ++ "s Hospital"; "Children" ++ apostrophe ++ "s Hospital";
   "Memorial Medical"; "Valley Regional Hospital"]%string.

Definition states : list string :=
  ["CA"; "NY"; "TX"; "FL"; "IL"; "PA"; "OH"; "GA"; "NC"; "MI"]%string.

(** [_generate_sample_providers_data]. *)
Definition _generate_sample_providers_data : M G DB (frame (Provider.row (raw float64))) :=
  _ ← set_rng (seed 42);
  let n_providers := 100%nat in
  hospital_name ← with_rng (choice hospital_names n_providers);
  provider_type ← with_rng (choice
    ["Hospital"; "Clinic"; "Emergency"; "Specialty"]%string n_providers);
  state ← with_rng (choice states n_providers);
  beds ← with_rng (randint 50 1000 n_providers);
  teaching_hospital ← with_rng (choice [true; false] n_providers);
  mret (Frame providers_columns
          ((fun i =>
              Provider.Row (Some (Z.of_nat i + 1))
                (Some (cell ""%string hospital_name i))
                (Some (cell ""%string provider_type i))
                (Some (cell ""%string state i))
                (Some ("City_" ++ pretty (Z.of_nat i + 1))%string)
                (Val (of_Z (cell 0 beds i)))
                (Some (cell false teaching_hospital i))) <$> seq 0 n_providers)
          []).

(** [extract_providers_data]. *)
Definition extract_providers_data (file_path : option string)
  : M G DB (frame (Provider.row (raw float64))) :=
  _ ← logger (Started "extract" Providers);
  text ← source_text file_path;
  df ← match text with
       | Some t =>
           df ← lift_result (read_csv_providers t);
           _ ← logger (Info "Loaded providers data"); mret df
       | None =>
           df ← _generate_sample_providers_data;
           _ ← logger (Info "Generated sample providers data"); mret df
       end;
  metadata ← bronze_metadata file_path;
  let df := with_metadata df metadata in
  b ← get_bronze;
  _ ← set_bronze (Layer (claims b) (patients b) (Some df)
                        (prescriptions b));
  _ ← log_dataframe_info df "extract" Providers;
  mret df.

(** ** Prescriptions *)

Definition prescriptions_columns : gset string :=
  list_to_set
    ["prescription_id"; "patient_id"; "provider_id"; "medication_name";
     "prescription_date"; "days_supplied"; "days_prescribed"; "quantity";
     "cost"]%string.

Definition medications : list string :=
  ["Metformin"; "Lisinopril"; "Atorvastatin"; "Metoprolol"; "Omeprazole";
   "Amlodipine"; "Hydrochlorothiazide"; "Simvastatin"; "Losartan";
   "Albuterol"]%string.

(** [_generate_sample_prescriptions_data]. *)
Definition _generate_sample_prescriptions_data
  : M G DB (frame (Rx.row (raw float64) (raw Z))) :=
  _ ← set_rng (seed 42);
  let n_prescriptions := Z.to_nat 15000 in
  patient_id ← with_rng (randint 1 5001 n_prescriptions);
  provider_id ← with_rng (randint 1 101 n_prescriptions);
  medication_name ← with_rng (choice medications n_prescriptions);
  let prescription_date := date_range d_2020_01_01 d_2023_12_31 n_prescriptions in
  days_supplied ← with_rng (randint 7 90 n_prescriptions);
  days_prescribed ← with_rng (randint 7 90 n_prescriptions);
  quantity ← with_rng (randint 30 500 n_prescriptions);
  cost ← with_rng (exponential 50 n_prescriptions);
  mret (Frame prescriptions_columns
          ((fun i =>
              Rx.Row (Some (Z.of_nat i + 1))
                (Some (cell 0 patient_id i))
                (Some (cell 0 provider_id i))
                (Some (cell ""%string medication_name i))
                (Val (cell 0 prescription_date i))
                (Val (of_Z (cell 0 days_supplied i)))
                (Val (of_Z (cell 0 days_prescribed i)))
                (Val (of_Z (cell 0 quantity i)))
                (Val (Fin (cell 0%Q cost i)))) <$> seq 0 n_prescriptions)
          []).

(** [extract_prescriptions_data]. *)
Definition extract_prescriptions_data (file_path : option string)
  : M G DB (frame (Rx.row (raw float64) (raw Z))) :=
  _ ← logger (Started "extract" Prescriptions);
  text ← source_text file_path;
  df ← match text with
       | Some t =>
           df ← lift_result (read_csv_prescriptions t);
           _ ← logger (Info "Loaded prescriptions data"); mret df
       | None =>
           df ← _generate_sample_prescriptions_data;
           _ ← logger (Info "Generated sample prescriptions data"); mret df
       end;
  metadata ← bronze_metadata file_path;
  let df := with_metadata df metadata in
  b ← get_bronze;
  _ ← set_bronze (Layer (claims b) (patients b) (providers b)
                        (Some df));
  _ ← log_dataframe_info df "extract" Prescriptions;
  mret df.

(** ** All four *)

(** [extract_all_data]; [data_sources] maps an entity name to a path. *)
Definition extract_all_data (data_sources : option (gmap string string))
  : M G DB bronze_layer :=
  _ ← logger (Info "Starting full data extraction...");
  let data_sources := default ∅ data_sources in
  claims_df ← extract_claims_data (data_sources !! "claims"%string);
  patients_df ← extract_patients_data (data_sources !! "patients"%string);
  providers_df ← extract_providers_data (data_sources !! "providers"%string);
  prescriptions_df ← extract_prescriptions_data (data_sources !! "prescriptions"%string);
  _ ← logger (Info "Data extraction completed successfully");
  mret (Layer (Some claims_df) (Some patients_df) (Some providers_df)
              (Some prescriptions_df)).

End Extractor.

(** The table of a frame, columns and rows, by entity; the metadata stamped
    on the frame is no part of it. *)
Inductive dataset : Type :=
| ClaimsTable (columns : gset string) (rows : list (Claim.row (raw float64) (raw Z)))
| PatientsTable (columns : gset string) (rows : list (Patient.row (raw float64) (raw Z)))
| ProvidersTable (columns : gset string) (rows : list (Provider.row (raw float64)))
| PrescriptionsTable (columns : gset string) (rows : list (Rx.row (raw float64) (raw Z))).

Definition table {R} (make : gset string -> list R -> dataset) (r : result (frame R))
  : result dataset :=
  match r with
  | Ok df => Ok (make (columns df) (rows df))
  | Raise e => Raise e
  end.

Section Tables.

Context {G DB : Type} `{NumpyRandom G} `{CsvReader}.

(** What [extract_<entity>_data] returns, as a table. *)
Definition extracted (e : entity) (file_path : option string) (w : world G DB)
  : result dataset :=
  match e with
  | Claims => table ClaimsTable (extract_claims_data file_path w).1
  | Patients => table PatientsTable (extract_patients_data file_path w).1
  | Providers => table ProvidersTable (extract_providers_data file_path w).1
  | Prescriptions => table PrescriptionsTable (extract_prescriptions_data file_path w).1
  end.

(** What [pd.read_csv] makes of the text of a source file. *)
Definition parsed (e : entity) (text : string) : result dataset :=
  match e with
  | Claims => table ClaimsTable (read_csv_claims text)
  | Patients => table PatientsTable (read_csv_patients text)
  | Providers => table ProvidersTable (read_csv_providers text)
  | Prescriptions => table PrescriptionsTable (read_csv_prescriptions text)
  end.

(** What [_generate_sample_<entity>_data] returns. *)
Definition generated (e : entity) (w : world G DB) : result dataset :=
  match e with
  | Claims => table ClaimsTable (_generate_sample_claims_data w).1
  | Patients => table PatientsTable (_generate_sample_patients_data w).1
  | Providers => table ProvidersTable (_generate_sample_providers_data w).1
  | Prescriptions => table PrescriptionsTable (_generate_sample_prescriptions_data w).1
  end.

(** The extraction of one entity, without its result. *)
Definition extract_entity (e : entity) (file_path : option string) : M G DB unit :=
  match e with
  | Claims => _ ← extract_claims_data file_path; mret tt
  | Patients => _ ← extract_patients_data file_path; mret tt
  | Providers => _ ← extract_providers_data file_path; mret tt
  | Prescriptions => _ ← extract_prescriptions_data file_path; mret tt
  end.

(** Whether the source of an entity can be extracted: a source fails only
    when a path is given, names a file, and the file does not parse. *)
Definition readable (e : entity) (data_sources : option (gmap string string))
    (w : world G DB) : bool :=
  match source_of (files w) (default ∅ data_sources !! entity_name e) with
  | Some text => is_ok (parsed e text)
  | None => true
  end.

(** The columns of the generated sample of an entity. *)
Definition sample_columns (e : entity) : gset string :=
  match e with
  | Claims => claims_columns
  | Patients => patients_columns
  | Providers => providers_columns
  | Prescriptions => prescriptions_columns
  end.

End Tables.

End HealthcareDataExtractor.

(* ===================================================================== *)
(** * Sample data *)
(* ===================================================================== *)

Module Samples.

Import HealthcareDataTransformer.

(** Parsers that accept no text at all. *)
Definition no_number (s : string) : option float64 := None.
Definition no_date (s : string) : option Z := None.

(** Days 19723, 19727, 19742 and 19763 are 2024-01-01, 2024-01-05,
    2024-01-20 and 2024-02-10. *)

(** Discharged 2024-01-05, readmitted 2024-01-20: 15 days later. *)
Definition claim_readmitted_soon : Claim.row (raw float64) (raw Z) :=
  Claim.Row (Some 1) (Some 10) (Some 7) (Val (day 19723)) (Val (day 19727))
    (Some (Val (day 19742))) (Some "e119") (Some " 99213 ") (Val (Fin 1200))
    (Some "Medicare") (Val (Fin 4)).

(** Discharged 2024-01-05, readmitted 2024-02-10: 36 days later. *)
Definition claim_readmitted_late : Claim.row (raw float64) (raw Z) :=
  Claim.Row (Some 2) (Some 11) (Some 7) (Val (day 19723)) (Val (day 19727))
    (Some (Val (day 19763))) (Some "I25.10") (Some "99214") (Val (Fin 800))
    None (Val (Fin 4)).

(** A negative cost. *)
Definition claim_negative_cost : Claim.row (raw float64) (raw Z) :=
  Claim.Row (Some 3) (Some 12) (Some 8) (Val (day 19723)) (Val (day 19725))
    (Some Null) (Some "F32.9") (Some "99215") (Val (Fin (-50))) (Some "Private") (Val (Fin 2)).

(** A cost that is no number. *)
Definition claim_unparsed_cost : Claim.row (raw float64) (raw Z) :=
  Claim.Row (Some 4) (Some 13) (Some 8) (Val (day 19723)) (Val (day 19725))
    (Some Null) (Some "F32.9") (Some "99215") (Text "n/a") (Some "Private") (Val (Fin 2)).

(** Admitted and discharged on the same day: a length of stay of 0. *)
Definition claim_same_day : Claim.row (raw float64) (raw Z) :=
  Claim.Row (Some 5) (Some 14) (Some 9) (Val (day 19723)) (Val (day 19723))
    (Some Null) (Some "M79.3") (Some "99281") (Val (Fin 100)) (Some "Self-Pay") (Val (Fin 0)).

(** A claim whose cost is the least number above 0 of binary64,
    [2 ^ -1074], for a stay of one day. *)
Definition claim_of_least_cost : Claim.row (raw float64) (raw Z) :=
  Claim.Row (Some 7) (Some 15) (Some 9) (Val (day 19723)) (Val (day 19724))
    (Some Null) (Some "I10") (Some "99283") (Val (Fin (pow2 (-1074)))) (Some "Medicare")
    (Val (Fin 1)).

Definition bronze_claims : list (Claim.row (raw float64) (raw Z)) :=
  [claim_readmitted_soon; claim_readmitted_late; claim_negative_cost;
   claim_unparsed_cost; claim_same_day].

(** The silver row of a bronze claim that passes the cleaning step. *)
Definition silver_claim (x : Claim.row (raw float64) (raw Z)) : Claim.silver :=
  let b := coerce_claim no_number no_date x in
  Claim.Silver b (readmission_flag_of no_date b) (cost_per_day_of b)
    (cost_category_of b) (los_category_of b).

(** A patient in the first year of life, and one of 110 years. *)
Definition patient_newborn : Patient.row (raw float64) (raw Z) :=
  Patient.Row (Some 1) (Val (Fin 0)) (Some "F") (Some "White") (Some "94110") (Some "Private")
    (Fin 0) (Val (day 19723)).

Definition patient_of_110 : Patient.row (raw float64) (raw Z) :=
  Patient.Row (Some 2) (Val (Fin 110)) (Some "male") None (Some "10001-1234") (Some "Medicare")
    (Fin 3) (Val (day 19000)).

Definition patient_of_40 : Patient.row (raw float64) (raw Z) :=
  Patient.Row (Some 3) (Val (Fin 40)) (Some "1") (Some "Asian") None (Some "Medicaid")
    (Fin 1) Null.

Definition bronze_patients : list (Patient.row (raw float64) (raw Z)) :=
  [patient_newborn; patient_of_110; patient_of_40].

(** 90 days supplied for 30 prescribed, and 15 for 30. *)
Definition prescription_oversupplied : Rx.row (raw float64) (raw Z) :=
  Rx.Row (Some 1) (Some 10) (Some 7) (Some " metformin ") (Val (day 19723))
    (Val (Fin 90)) (Val (Fin 30)) (Val (Fin 60)) (Val (Fin 25)).

Definition prescription_half_supplied : Rx.row (raw float64) (raw Z) :=
  Rx.Row (Some 2) (Some 11) (Some 7) (Some "Aspirin") (Val (day 19723))
    (Val (Fin 15)) (Val (Fin 30)) (Val (Fin 30)) (Val (Fin 12)).

(** A prescription without an end: the days supplied and the days
    prescribed are both infinite. *)
Definition prescription_without_end : Rx.row (raw float64) (raw Z) :=
  Rx.Row (Some 3) (Some 12) (Some 7) (Some "Insulin") (Val (day 19723))
    (Val PosInf) (Val PosInf) (Val (Fin 30)) (Val (Fin 12)).

Definition bronze_prescriptions : list (Rx.row (raw float64) (raw Z)) :=
  [prescription_oversupplied; prescription_half_supplied].

Definition silver_prescription (x : Rx.row (raw float64) (raw Z)) : Rx.silver :=
  let b := coerce_prescription no_number no_date x in
  let adherence_rate := adherence_rate_of b in
  Rx.Silver b adherence_rate (cut adherence_bins adherence_labels adherence_rate)
    (fdiv (Rx.cost b) (Rx.days_supplied b))
    (default "Other"%string (Rx.medication_name b ≫= fun n => medication_categories !! n)).

(** A hospital of 80 beds whose name and place are loosely typed, and a
    provider without a bed. *)
Definition provider_of_80_beds : Provider.row (raw float64) :=
  Provider.Row (Some 1) (Some " general hospital ") (Some "hospital") (Some "ca ")
    (Some "city_1") (Val (Fin 80)) None.

Definition provider_without_beds : Provider.row (raw float64) :=
  Provider.Row (Some 2) (Some "Metro General") (Some "Clinic") (Some "NY")
    (Some "City_2") (Val (Fin 0)) (Some true).

Definition bronze_providers : list (Provider.row (raw float64)) :=
  [provider_of_80_beds; provider_without_beds].

(** A claim that passes the cleaning step without a patient. *)
Definition claim_without_patient : Claim.row (raw float64) (raw Z) :=
  Claim.Row (Some 6) None (Some 9) (Val (day 19723)) (Val (day 19725))
    (Some Null) (Some "K21.9") (Some "99282") (Val (Fin 300)) (Some "Private") (Val (Fin 2)).

(** A bronze layer whose claims frame has lost its [patient_id] column; the
    other three frames are complete. *)
Definition claims_frame_without_patient_id : frame (Claim.row (raw float64) (raw Z)) :=
  Frame (HealthcareDataExtractor.claims_columns ∖ {["patient_id"%string]})
        bronze_claims [].

Definition bronze_without_patient_id : bronze_layer :=
  Layer (Some claims_frame_without_patient_id)
        (Some (Frame HealthcareDataExtractor.patients_columns bronze_patients []))
        (Some (Frame HealthcareDataExtractor.providers_columns [] []))
        (Some (Frame HealthcareDataExtractor.prescriptions_columns
                     bronze_prescriptions [])).

(** A world with no generator and no warehouse to speak of. *)
Definition world_of (b : bronze_layer) (s : silver_layer) : world unit unit :=
  World ∅ tt (day 19800) b s tt [].

Definition world_without_patient_id : world unit unit :=
  world_of bronze_without_patient_id empty_layer.

(** A bronze layer with four complete frames, and the world that holds it. *)
Definition bronze_complete : bronze_layer :=
  Layer (Some (Frame HealthcareDataExtractor.claims_columns bronze_claims []))
        (Some (Frame HealthcareDataExtractor.patients_columns bronze_patients []))
        (Some (Frame HealthcareDataExtractor.providers_columns [] []))
        (Some (Frame HealthcareDataExtractor.prescriptions_columns
                     bronze_prescriptions [])).

(** A small warehouse: the number of rows of every table written so far,
    and the medications table. *)
Record warehouse : Type := Warehouse {
  row_counts : gmap string nat;
  medications_table : list (Z * string)
}.

Definition write_rows (table : string) (mode : HealthcareDataLoader.if_exists)
    (n : nat) (d : warehouse) : warehouse :=
  Warehouse
    (match mode with
     | HealthcareDataLoader.Replace => <[table := n]> (row_counts d)
     | HealthcareDataLoader.Append =>
         <[table := (default 0%nat (row_counts d !! table) + n)%nat]> (row_counts d)
     end)
    (medications_table d).

(** The name of a table without its schema, [healthcare.]. *)
Definition bare (table : string) : string := Str.suffix 11 table.

(** An engine on which every write to [broken] fails and everything else
    works. *)
Definition engine_failing_on (broken : string) : HealthcareDataLoader.Engine warehouse :=
  {| HealthcareDataLoader.connect_select_1 := fun d => (Ok tt, d);
     HealthcareDataLoader.execute_schema := fun d => (Ok tt, d);
     HealthcareDataLoader.to_sql := fun R table mode df d =>
       if bool_decide (table = broken)
       then (Raise (SQLAlchemyError "write failed"), d)
       else (Ok tt, write_rows table mode (length df) d);
     HealthcareDataLoader.select_count := fun table d =>
       (Ok (Z.of_nat (default 0%nat (row_counts d !! bare table))), d);
     HealthcareDataLoader.select_medications := fun d => (Ok (medications_table d), d);
     HealthcareDataLoader.execute_update_metrics := fun d => (Ok tt, d);
     HealthcareDataLoader.connect := fun d => (Ok tt, d) |}.

(** An engine on which the medications table cannot be read. *)
Definition engine_without_medications : HealthcareDataLoader.Engine warehouse :=
  {| HealthcareDataLoader.connect_select_1 := fun d => (Ok tt, d);
     HealthcareDataLoader.execute_schema := fun d => (Ok tt, d);
     HealthcareDataLoader.to_sql := fun R table mode df d =>
       (Ok tt, write_rows table mode (length df) d);
     HealthcareDataLoader.select_count := fun table d =>
       (Ok (Z.of_nat (default 0%nat (row_counts d !! bare table))), d);
     HealthcareDataLoader.select_medications := fun d =>
       (Raise (SQLAlchemyError "relation healthcare.medications does not exist"), d);
     HealthcareDataLoader.execute_update_metrics := fun d => (Ok tt, d);
     HealthcareDataLoader.connect := fun d => (Ok tt, d) |}.

Definition warehouse_with_medications : warehouse :=
  Warehouse ∅ [(1, "Metformin"); (2, "Lisinopril")]%string.

(** The world in front of the small warehouse, before and after the
    transform of the complete bronze layer. *)
Definition world_at_warehouse : world unit warehouse :=
  World ∅ tt (day 19800) bronze_complete empty_layer warehouse_with_medications [].

Definition world_to_load : world unit warehouse :=
  (transform_all_data no_number no_date world_at_warehouse).2.

(** The silver rows of a bronze patient and of a bronze provider that pass
    the cleaning step. *)
Definition silver_patient (current_date : Z) (x : Patient.row (raw float64) (raw Z))
  : Patient.silver :=
  let b := coerce_patient no_number no_date x in
  let days :=
    Utils.dt_days (Utils.sub_datetime (Some current_date) (Patient.last_visit_date b)) in
  Patient.Silver b (age_category_of b)
    (cut risk_bins risk_labels (Patient.chronic_conditions b))
    days (patient_status_of days).

Definition silver_provider (x : Provider.row (raw float64)) : Provider.silver :=
  let b := coerce_provider no_number x in
  Provider.Silver b (cut size_bins size_labels (Provider.beds b))
    (match Provider.city b, Provider.state b with
     | Some c, Some s => Some (c ++ ", " ++ s)%string
     | _, _ => None
     end)
    (Fin 0) (Fin 0) 0.

(** A silver layer whose claims frame holds a claim without a patient, in
    front of the small warehouse. *)
Definition silver_claims_with_null_patient : frame Claim.silver :=
  Frame (HealthcareDataExtractor.claims_columns ∪ list_to_set claims_features)
        (transform_claims_rows no_number no_date
           [claim_readmitted_soon; claim_without_patient])
        [].

Definition world_with_null_patient : world unit warehouse :=
  World ∅ tt (day 19800) bronze_complete
        (Layer (Some silver_claims_with_null_patient) None None None)
        warehouse_with_medications [].

(** A toy random generator: a linear congruential sequence. *)
Definition lcg_next (g : Z) : Z := (g * 1103515245 + 12345) mod 2147483648.

Fixpoint lcg_draws (n : nat) (g : Z) : list Z * Z :=
  match n with
  | O => ([], g)
  | S n' =>
      let g' := lcg_next g in
      let '(l, g'') := lcg_draws n' g' in
      (g' :: l, g'')
  end.

Definition lcg_map {A} (f : Z -> option A) (n : nat) (g : Z) : list A * Z :=
  let '(l, g') := lcg_draws n g in (omap f l, g').

Definition lcg : HealthcareDataExtractor.NumpyRandom Z :=
  {| HealthcareDataExtractor.seed := fun s => s;
     HealthcareDataExtractor.randint := fun lo hi =>
       lcg_map (fun x => Some (lo + x mod (hi - lo)));
     HealthcareDataExtractor.randint_scalar := fun lo hi g =>
       (lo + lcg_next g mod (hi - lo), lcg_next g);
     HealthcareDataExtractor.choice := fun A l =>
       lcg_map (fun x => l !! Z.to_nat (x mod Z.of_nat (length l)));
     HealthcareDataExtractor.choice_without_replacement := fun n k g =>
       (seq (Z.to_nat (g mod 2)) k, lcg_next g);
     HealthcareDataExtractor.exponential := fun scale =>
       lcg_map (fun x => Some (scale * inject_Z (x mod 100 + 1) / 50)%Q);
     HealthcareDataExtractor.poisson := fun lam =>
       lcg_map (fun x => Some (x mod 7)) |}.

(** A reader that knows one claims file and refuses every other text. *)
Definition one_file_reader : HealthcareDataExtractor.CsvReader :=
  {| HealthcareDataExtractor.read_csv_claims := fun text =>
       if bool_decide (text = "claims"%string)
       then Ok (Frame HealthcareDataExtractor.claims_columns bronze_claims [])
       else Raise (ParserError text);
     HealthcareDataExtractor.read_csv_patients := fun text => Raise (ParserError text);
     HealthcareDataExtractor.read_csv_providers := fun text => Raise (ParserError text);
     HealthcareDataExtractor.read_csv_prescriptions := fun text =>
       Raise (ParserError text) |}.

(** Two worlds that differ in the state of the generator, in the clock and
    in the files they hold. *)
Definition world_monday : world Z unit :=
  World ∅ 7 (day 19800) empty_layer empty_layer tt [].


End Samples.

(* ===================================================================== *)
(** * Properties *)
(* ===================================================================== *)

Import Utils HealthcareDataTransformer.

(** ** Rounding to binary64 *)

Lemma pow2_pos (k : Z) : (0 < pow2 k)%Q.
Proof. apply Qpower_0_lt. reflexivity. Qed.

Lemma pow2_add (a b : Z) : (pow2 (a + b) == pow2 a * pow2 b)%Q.
Proof. apply Qpower_plus. discriminate. Qed.

Lemma pow2_le (a b : Z) : a <= b -> (pow2 a <= pow2 b)%Q.
Proof. intros Hab. apply Qpower_le_compat_l; [exact Hab|discriminate]. Qed.

Lemma pow2_le_inv (a b : Z) : (pow2 a <= pow2 b)%Q -> a <= b.
Proof. intros Hab. apply (Qpower_le_compat_l_inv 2); [exact Hab|reflexivity]. Qed.

Lemma pow2_lt_inv (a b : Z) : (pow2 a < pow2 b)%Q -> a < b.
Proof. intros Hab. apply (Qpower_lt_compat_l_inv 2); [exact Hab|reflexivity]. Qed.

Lemma pow2_inject (k : Z) : 0 <= k -> (pow2 k == inject_Z (2 ^ k))%Q.
Proof. intros Hk. unfold pow2. now rewrite Zpower_Qpower. Qed.

Lemma inject_Z_pos (z : Z) : 0 < z -> (0 < inject_Z z)%Q.
Proof. intros Hz. unfold Qlt. simpl. lia. Qed.

(** [round_half_even] stays within every pair of integer bounds. *)
Lemma round_half_even_ge (q : Q) (a : Z) :
  (inject_Z a <= q)%Q -> a <= round_half_even q.
Proof.
  intros Ha. unfold round_half_even. cbv zeta.
  assert (Hf : a <= Qfloor q).
  { rewrite <- (Qfloor_Z a). now apply Qfloor_resp_le. }
  destruct (q - inject_Z (Qfloor q) ?= 1 # 2)%Q; [destruct (Z.even _)|..]; lia.
Qed.

Lemma round_half_even_le (q : Q) (b : Z) :
  (q <= inject_Z b)%Q -> round_half_even q <= b.
Proof.
  intros Hb. unfold round_half_even. cbv zeta.
  assert (Hf : Qfloor q <= b).
  { rewrite <- (Qfloor_Z b). now apply Qfloor_resp_le. }
  assert (Hlt : (inject_Z (Qfloor q) < q)%Q -> Qfloor q + 1 <= b).
  { intros Hlt. assert (H : (inject_Z (Qfloor q) < inject_Z b)%Q) by lra.
    rewrite <- Zlt_Qlt in H. lia. }
  destruct (q - inject_Z (Qfloor q) ?= 1 # 2)%Q eqn:E.
  - apply Qeq_alt in E. destruct (Z.even _); [lia|]. apply Hlt. lra.
  - lia.
  - apply Qgt_alt in E. apply Hlt. lra.
Qed.

(** The exponent that [ilog2] returns is the binary exponent of [q]. *)
Lemma ilog2_spec (q : Q) :
  (0 < q)%Q -> (pow2 (ilog2 q) <= q)%Q /\ (q < pow2 (ilog2 q + 1))%Q.
Proof.
  intros Hq. destruct q as [n d]. unfold ilog2. cbn [Qnum Qden].
  assert (Hn : 0 < n).
  { unfold Qlt in Hq. cbn in Hq. lia. }
  pose proof (Z.log2_spec n Hn) as [Hn1 Hn2].
  pose proof (Z.log2_spec (Zpos d) (Pos2Z.is_pos d)) as [Hd1 Hd2].
  pose proof (Z.log2_nonneg n) as Ha.
  pose proof (Z.log2_nonneg (Zpos d)) as Hb.
  set (a := Z.log2 n) in *. set (b := Z.log2 (Zpos d)) in *.
  assert (Hq' : (n # d == inject_Z n / inject_Z (Zpos d))%Q) by apply Qmake_Qdiv.
  assert (Hdpos : (0 < inject_Z (Zpos d))%Q) by (apply inject_Z_pos; lia).
  assert (Hpa : forall j, 0 <= j -> (0 < inject_Z (2 ^ j))%Q).
  { intros j Hj. apply inject_Z_pos. now apply Z.pow_pos_nonneg. }
  (* the two bounds that the logarithms give *)
  assert (Hlow : (pow2 (a - b - 1) <= n # d)%Q).
  { replace (a - b - 1) with (a + - (b + 1)) by lia.
    rewrite pow2_add. unfold pow2 at 2. rewrite Qpower_opp.
    fold (pow2 (b + 1)). rewrite (pow2_inject a) by lia.
    rewrite (pow2_inject (b + 1)) by lia. rewrite Hq'.
    apply Qle_shift_div_l; [exact Hdpos|].
    unfold Qdiv. rewrite <- Qmult_assoc, (Qmult_comm (/ _)), Qmult_assoc.
    apply Qle_shift_div_r; [apply Hpa; lia|].
    rewrite <- !inject_Z_mult, <- Zle_Qle.
    replace (b + 1) with (Z.succ b) by lia. nia. }
  assert (Hhigh : (n # d < pow2 (a - b + 1))%Q).
  { replace (a - b + 1) with ((a + 1) + - b) by lia.
    rewrite pow2_add. unfold pow2 at 2. rewrite Qpower_opp.
    fold (pow2 b). rewrite (pow2_inject (a + 1)) by lia.
    rewrite (pow2_inject b) by lia. rewrite Hq'.
    apply Qlt_shift_div_r; [exact Hdpos|].
    unfold Qdiv. rewrite <- Qmult_assoc, (Qmult_comm (/ _)), Qmult_assoc.
    apply Qlt_shift_div_l; [apply Hpa; lia|].
    rewrite <- !inject_Z_mult, <- Zlt_Qlt.
    replace (a + 1) with (Z.succ a) by lia. nia. }
  destruct (Qle_bool (pow2 (a - b)) (n # d)) eqn:E.
  - apply Qle_bool_iff in E. split; [exact E|exact Hhigh].
  - split; [exact Hlow|].
    replace (a - b - 1 + 1) with (a - b) by lia.
    apply Qnot_le_lt. intros Hle. apply Qle_bool_iff in Hle. congruence.
Qed.

Lemma pow2_sub (a b : Z) : (pow2 a / pow2 b == pow2 (a - b))%Q.
Proof.
  replace (a - b) with (a + - b) by lia. rewrite pow2_add.
  unfold pow2 at 4. now rewrite Qpower_opp.
Qed.

(** Rounding to the multiples of [2 ^ t] does not cross a power of two
    that is such a multiple. *)
Lemma round_on_grid_le (q : Q) (t k : Z) :
  t <= k -> (q <= pow2 k)%Q ->
  (inject_Z (round_half_even (q / pow2 t)) * pow2 t <= pow2 k)%Q.
Proof.
  intros Htk Hq. pose proof (pow2_pos t) as Ht.
  assert (Hm : round_half_even (q / pow2 t) <= 2 ^ (k - t)).
  { apply round_half_even_le. rewrite <- pow2_inject by lia.
    rewrite <- pow2_sub. apply Qle_shift_div_l; [exact Ht|].
    unfold Qdiv. rewrite <- Qmult_assoc, (Qmult_comm (/ _)), Qmult_inv_r, Qmult_1_r;
      [exact Hq|lra]. }
  apply (Qle_trans _ (inject_Z (2 ^ (k - t)) * pow2 t)).
  - apply Qmult_le_compat_r; [now rewrite <- Zle_Qle|lra].
  - rewrite <- pow2_inject by lia. rewrite <- pow2_add.
    replace (k - t + t) with k by lia. apply Qle_refl.
Qed.

Lemma round_on_grid_ge (q : Q) (t k : Z) :
  t <= k -> (pow2 k <= q)%Q ->
  (pow2 k <= inject_Z (round_half_even (q / pow2 t)) * pow2 t)%Q.
Proof.
  intros Htk Hq. pose proof (pow2_pos t) as Ht.
  assert (Hm : 2 ^ (k - t) <= round_half_even (q / pow2 t)).
  { apply round_half_even_ge. rewrite <- pow2_inject by lia.
    rewrite <- pow2_sub. apply Qle_shift_div_r; [exact Ht|].
    unfold Qdiv. rewrite <- Qmult_assoc, (Qmult_comm (/ _)), Qmult_inv_r, Qmult_1_r;
      [exact Hq|lra]. }
  apply (Qle_trans _ (inject_Z (2 ^ (k - t)) * pow2 t)).
  - rewrite <- pow2_inject by lia. rewrite <- pow2_add.
    replace (k - t + t) with k by lia. apply Qle_refl.
  - apply Qmult_le_compat_r; [now rewrite <- Zle_Qle|lra].
Qed.

Lemma round_on_grid_nonneg (q : Q) (t : Z) :
  (0 <= q)%Q -> (0 <= inject_Z (round_half_even (q / pow2 t)) * pow2 t)%Q.
Proof.
  intros Hq. pose proof (pow2_pos t) as Ht.
  apply Qmult_le_0_compat; [|lra].
  change 0%Q with (inject_Z 0). rewrite <- Zle_Qle.
  apply round_half_even_ge. change (inject_Z 0) with 0%Q.
  apply Qle_shift_div_l; [exact Ht|lra].
Qed.

(** A positive number at most [2 ^ k] rounds to a number at most [2 ^ k],
    and one at least [2 ^ k] to a number at least [2 ^ k] or, beyond the
    format, to the infinity. *)
Lemma round64_pos_le (q : Q) (k : Z) :
  -1074 <= k <= 1023 -> (0 < q)%Q -> (q <= pow2 k)%Q ->
  exists r, round64_pos q = Fin r /\ (0 <= r)%Q /\ (r <= pow2 k)%Q.
Proof.
  intros Hk Hq Hle. unfold round64_pos, ulp. cbv zeta.
  destruct (ilog2_spec q Hq) as [Hlo _].
  assert (He : ilog2 q <= k) by (apply pow2_le_inv; lra).
  set (t := Z.max (ilog2 q) (-1022) - 52).
  assert (Ht : t <= k) by lia.
  pose proof (round_on_grid_le q t k Ht Hle) as Hr.
  pose proof (round_on_grid_nonneg q t (Qlt_le_weak _ _ Hq)) as Hr0.
  set (r := (inject_Z (round_half_even (q / pow2 t)) * pow2 t)%Q) in *.
  assert (Hfin : Qle_bool (pow2 1024) r = false).
  { destruct (Qle_bool (pow2 1024) r) eqn:E; [|reflexivity].
    apply Qle_bool_iff in E.
    assert (H : (pow2 1024 <= pow2 k)%Q) by lra.
    apply pow2_le_inv in H. lia. }
  rewrite Hfin. exists (Qred r). pose proof (Qred_correct r).
  split; [reflexivity|]. split; lra.
Qed.

Lemma round64_pos_ge (q : Q) (k : Z) :
  -1074 <= k -> (pow2 k <= q)%Q ->
  round64_pos q = PosInf
  \/ exists r, round64_pos q = Fin r /\ (pow2 k <= r)%Q.
Proof.
  intros Hk Hge. pose proof (pow2_pos k) as Hkpos.
  assert (Hq : (0 < q)%Q) by lra.
  unfold round64_pos, ulp. cbv zeta.
  destruct (ilog2_spec q Hq) as [Hlo _].
  set (t := Z.max (ilog2 q) (-1022) - 52).
  assert (Hr : (pow2 k <= inject_Z (round_half_even (q / pow2 t)) * pow2 t)%Q).
  { destruct (Z.le_gt_cases t k) as [Ht|Ht].
    - now apply round_on_grid_ge.
    - apply (Qle_trans _ (pow2 (ilog2 q))).
      + apply pow2_le. lia.
      + apply round_on_grid_ge; [lia|exact Hlo]. }
  set (r := (inject_Z (round_half_even (q / pow2 t)) * pow2 t)%Q) in *.
  destruct (Qle_bool (pow2 1024) r); [now left|right].
  exists (Qred r). pose proof (Qred_correct r). split; [reflexivity|lra].
Qed.

Lemma round64_pos_nonneg (q : Q) :
  (0 < q)%Q ->
  round64_pos q = PosInf \/ exists r, round64_pos q = Fin r /\ (0 <= r)%Q.
Proof.
  intros Hq. unfold round64_pos, ulp. cbv zeta.
  set (t := Z.max (ilog2 q) (-1022) - 52).
  pose proof (round_on_grid_nonneg q t (Qlt_le_weak _ _ Hq)) as Hr0.
  set (r := (inject_Z (round_half_even (q / pow2 t)) * pow2 t)%Q) in *.
  destruct (Qle_bool (pow2 1024) r); [now left|right].
  exists (Qred r). pose proof (Qred_correct r). split; [reflexivity|lra].
Qed.

Lemma round64_of_positive (q : Q) : (0 < q)%Q -> round64 q = round64_pos q.
Proof. intros Hq. unfold round64. apply Qgt_alt in Hq. now rewrite Hq. Qed.

Lemma round64_le (q : Q) (k : Z) :
  -1074 <= k <= 1023 -> (0 <= q)%Q -> (q <= pow2 k)%Q ->
  exists r, round64 q = Fin r /\ (0 <= r)%Q /\ (r <= pow2 k)%Q.
Proof.
  intros Hk Hq Hle. destruct (Qlt_le_dec 0 q) as [Hpos|Hzero].
  - rewrite round64_of_positive by exact Hpos. now apply round64_pos_le.
  - assert (E : (q == 0)%Q) by lra. apply Qeq_alt in E.
    unfold round64. rewrite E. exists 0%Q.
    pose proof (pow2_pos k). repeat split; lra.
Qed.

Lemma round64_ge (q : Q) (k : Z) :
  -1074 <= k -> (pow2 k <= q)%Q ->
  round64 q = PosInf \/ exists r, round64 q = Fin r /\ (pow2 k <= r)%Q.
Proof.
  intros Hk Hge. pose proof (pow2_pos k).
  rewrite round64_of_positive by lra. now apply round64_pos_ge.
Qed.

Lemma round64_nonneg (q : Q) :
  (0 <= q)%Q ->
  round64 q = PosInf \/ exists r, round64 q = Fin r /\ (0 <= r)%Q.
Proof.
  intros Hq. destruct (Qlt_le_dec 0 q) as [Hpos|Hzero].
  - rewrite round64_of_positive by exact Hpos. now apply round64_pos_nonneg.
  - assert (E : (q == 0)%Q) by lra. apply Qeq_alt in E.
    unfold round64. rewrite E. right. exists 0%Q. split; [reflexivity|lra].
Qed.

(** [round64] against the Standard Library's specification of IEEE 754: the
    quotients, sums and products of sample operands, among them the halves
    of the three smallest numbers of the format, a sum beyond [2 ^ 53] and
    a sum beyond the format, are the same. *)
Lemma round64_agrees_with_the_specification :
  Forall (fun '(m1, e1, (m2, e2)) =>
            let x := binary64 m1 e1 in
            let y := binary64 m2 e2 in
            let a := (inject_Z m1 * pow2 e1)%Q in
            let b := (inject_Z m2 * pow2 e2)%Q in
            round64 (a / b) = of_spec_float (SFdiv 53 1024 x y)
            /\ round64 (a + b) = of_spec_float (SFadd 53 1024 x y)
            /\ round64 (a * b) = of_spec_float (SFmul 53 1024 x y))
    [(1, 0, (3, 0)); (1, 0, (10, 0)); (25, 0, (90, 0)); (2, 0, (3, 0));
     (-7, 0, (3, 0)); (1200, 0, (5, 0)); (15, 0, (30, 0)); (90, 0, (30, 0));
     (1, -1074, (2, 0)); (3, -1074, (2, 0)); (5, -1074, (2, 0));
     (1, -1074, (3, 0)); (4503599627370497, -1074, (3, 0));
     (9007199254740991, 0, (3, 0)); (9007199254740992, 0, (3, 0));
     (9007199254740991, 971, (9007199254740991, 971));
     (9007199254740991, 971, (1, 918)); (9007199254740991, 971, (1, 917));
     (126144000000000000, 0, (9999, 0)); (1, -30, (1, 30)); (3, 100, (7, -100))].
Proof.
  repeat (apply List.Forall_cons; [vm_compute; repeat split|]). apply List.Forall_nil.
Qed.

(** ** Comparisons of numeric cells *)

Lemma Qlt_bool_iff (a b : Q) : Qlt_bool a b = true <-> (a < b)%Q.
Proof.
  unfold Qlt_bool. rewrite negb_true_iff. split.
  - intros Hle. apply Qnot_le_lt. intros Hba.
    apply Qle_bool_iff in Hba. congruence.
  - intros Hlt. destruct (Qle_bool b a) eqn:E; [|reflexivity].
    apply Qle_bool_iff in E. apply Qlt_not_le in Hlt. contradiction.
Qed.

Lemma fgt_Fin (x : float64) (k : Q) :
  fgt x (Fin k) = true -> x = PosInf \/ exists q, x = Fin q /\ (k < q)%Q.
Proof.
  destruct x as [| |q|]; simpl; try discriminate; [|now left].
  intros Hlt%Qlt_bool_iff. right. eauto.
Qed.

Lemma fge_Fin (x : float64) (k : Q) :
  fge x (Fin k) = true -> x = PosInf \/ exists q, x = Fin q /\ (k <= q)%Q.
Proof.
  destruct x as [| |q|]; simpl; try discriminate; [|now left].
  intros Hle%Qle_bool_iff. right. eauto.
Qed.

Lemma fle_Fin (x : float64) (k : Q) :
  fle x (Fin k) = true -> x = NegInf \/ exists q, x = Fin q /\ (q <= k)%Q.
Proof.
  destruct x as [| |q|]; simpl; try discriminate; [now left|].
  intros Hle%Qle_bool_iff. right. eauto.
Qed.

Lemma Qlt_bool_false (a b : Q) : Qlt_bool a b = false -> (b <= a)%Q.
Proof. unfold Qlt_bool. intros E%negb_false_iff. now apply Qle_bool_iff. Qed.

(** [clip(0, 1)] of a cell that is not null is a number from 0 to 1. *)
Lemma clip_unit_interval (x : float64) :
  isna x = false ->
  exists a, clip (Fin 0) (Fin 1) x = Fin a /\ (0 <= a)%Q /\ (a <= 1)%Q.
Proof.
  destruct x as [| |q|]; [discriminate| | |]; intros _; unfold clip;
    cbn [isna flt fgt].
  - exists 0%Q. repeat split; lra.
  - destruct (Qlt_bool q 0) eqn:E0; [exists 0%Q; repeat split; lra|].
    apply Qlt_bool_false in E0.
    destruct (Qlt_bool 1 q) eqn:E1; [exists 1%Q; repeat split; lra|].
    apply Qlt_bool_false in E1. exists q. repeat split; assumption.
  - exists 1%Q. repeat split; lra.
Qed.

(** The quotient of two finite cells, the divisor above 0. *)
Lemma fdiv_Fin (x y : Q) : (0 < y)%Q -> fdiv (Fin x) (Fin y) = round64 (x / y).
Proof.
  intros Hy. cbn [fdiv]. destruct (Qeq_bool y 0) eqn:E; [|reflexivity].
  apply Qeq_bool_iff in E. lra.
Qed.

(** A cell divided by a finite cell above 0 keeps its sign: the quotient of
    a cell above 0 is above 0 or, when it is too small for the format, 0. *)
Lemma fdiv_positive (x : float64) (y : Q) :
  fgt x (Fin 0) = true -> (0 < y)%Q ->
  fdiv x (Fin y) = PosInf
  \/ exists z, fdiv x (Fin y) = Fin z /\ (0 <= z)%Q.
Proof.
  intros Hx Hy. destruct (fgt_Fin _ _ Hx) as [->|(q & -> & Hq)].
  - left. cbn [fdiv]. destruct (Qlt_bool y 0) eqn:E; [|reflexivity].
    apply Qlt_bool_iff in E. lra.
  - rewrite fdiv_Fin by exact Hy. apply round64_nonneg.
    apply Qlt_le_weak, Qlt_shift_div_l; lra.
Qed.

(** ** Duplicates *)

Lemma drop_duplicates_from_sublist {A K : Type} `{EqDecision K}
    (key : A -> K) (df : list A) :
  forall seen, drop_duplicates_from key seen df `sublist_of` df.
Proof.
  induction df as [|r rest IH]; intros seen; simpl.
  - constructor.
  - case_bool_decide.
    + apply sublist_cons, IH.
    + apply sublist_skip, IH.
Qed.

Lemma drop_duplicates_sublist {A K : Type} `{EqDecision K} (key : A -> K) (df : list A) :
  drop_duplicates key df `sublist_of` df.
Proof. apply drop_duplicates_from_sublist. Qed.

Lemma elem_of_drop_duplicates {A K : Type} `{EqDecision K}
    (key : A -> K) (df : list A) (r : A) :
  r ∈ drop_duplicates key df -> r ∈ df.
Proof. intros Hr. eapply elem_of_sublist; [exact Hr|apply drop_duplicates_sublist]. Qed.

(** Filtering a list of which a sublist is taken first removes at least as
    much as filtering the list itself. *)
Lemma length_filter_sublist {A} (P : A -> Prop) `{!forall x, Decision (P x)}
    (l1 l2 : list A) :
  l1 `sublist_of` l2 -> (length (filter P l1) <= length (filter P l2))%nat.
Proof.
  induction 1 as [|x l1 l2 _ IH|x l1 l2 _ IH]; [done|..];
    rewrite ?filter_cons; repeat case_decide; simpl; lia.
Qed.

Lemma fmap_sublist {A B} (f : A -> B) (l1 l2 : list A) :
  l1 `sublist_of` l2 -> (f <$> l1) `sublist_of` (f <$> l2).
Proof. induction 1; simpl; by constructor. Qed.

(** ** The claims transform *)

Section ClaimsProperties.

Variable parse_number : string -> option float64.
Variable parse_date : string -> option Z.

Local Abbreviation clean := (_clean_claims_data parse_number parse_date).
Local Abbreviation coerce := (coerce_claim parse_number parse_date).

Lemma elem_of_clean (df : list (Claim.row (raw float64) (raw Z))) r :
  r ∈ clean df <->
  exists x, x ∈ drop_duplicates Claim.claim_id df /\ r = coerce x
            /\ acceptable r = true.
Proof.
  unfold _clean_claims_data, acceptable. cbv zeta.
  rewrite !list_elem_of_filter, list_elem_of_fmap.
  split.
  - intros (Hl%Is_true_true & Hc%Is_true_true & x & -> & Hx).
    exists x. rewrite Hl, Hc. auto.
  - intros (x & Hx & -> & (Hc & Hl)%andb_true_iff).
    rewrite !Is_true_true. eauto.
Qed.

(** A row that passes the two filters: its cost is above 0, the infinity
    included, and its length of stay is a number from 0 to 365. *)
Lemma acceptable_bounds (r : Claim.row float64 (option Z)) :
  acceptable r = true ->
  fgt (Claim.cost r) (Fin 0) = true
  /\ (Claim.cost r = PosInf \/ exists c, Claim.cost r = Fin c /\ (0 < c)%Q)
  /\ exists l, Claim.length_of_stay r = Fin l /\ (0 <= l)%Q /\ (l <= 365)%Q.
Proof.
  unfold acceptable, cost_is_positive, los_is_reasonable.
  rewrite !andb_true_iff. intros (Hc & Hl0 & Hl365).
  split; [exact Hc|]. split; [exact (fgt_Fin _ _ Hc)|].
  destruct (fle_Fin _ _ Hl365) as [Hinf|(l & El & Hle)].
  - rewrite Hinf in Hl0. discriminate.
  - exists l. repeat split; try assumption.
    rewrite El in Hl0. now apply Qle_bool_iff in Hl0.
Qed.

Lemma clean_as_one_filter (df : list (Claim.row (raw float64) (raw Z))) :
  clean df
  = filter (fun r => los_is_reasonable r /\ cost_is_positive r)
      (coerce <$> drop_duplicates Claim.claim_id df).
Proof. unfold _clean_claims_data. cbv zeta. apply list_filter_filter. Qed.

Lemma not_acceptable (r : Claim.row float64 (option Z)) :
  acceptable r = false -> ~ (los_is_reasonable r /\ cost_is_positive r).
Proof.
  unfold acceptable. intros Hacc [Hl%Is_true_true Hc%Is_true_true].
  rewrite Hl, Hc in Hacc. discriminate.
Qed.

Lemma length_clean_le (df : list (Claim.row (raw float64) (raw Z))) :
  (length (clean df)
   <= length (filter (fun r => los_is_reasonable r /\ cost_is_positive r)
                (coerce <$> df)))%nat.
Proof.
  rewrite clean_as_one_filter. apply length_filter_sublist.
  apply fmap_sublist, drop_duplicates_sublist.
Qed.

(** C4.  After [_clean_claims_data] every remaining claim row has a cost
    above 0, a number or the infinity, and a length of stay between 0 and
    365; a row of the input that breaks one of the two constraints, as
    every row does whose cost or length of stay failed to parse, makes the
    output strictly shorter than the input. *)
Theorem clean_claims_enforces_cost_and_stay (df : list (Claim.row (raw float64) (raw Z))) :
  (forall r, r ∈ clean df ->
     fgt (Claim.cost r) (Fin 0) = true
     /\ (Claim.cost r = PosInf \/ exists c, Claim.cost r = Fin c /\ (0 < c)%Q)
     /\ exists l, Claim.length_of_stay r = Fin l /\ (0 <= l)%Q /\ (l <= 365)%Q)
  /\ (forall x, x ∈ df -> acceptable (coerce x) = false ->
       (length (clean df) < length df)%nat)
  /\ (forall x, to_numeric parse_number (Claim.cost x) = NaN
                \/ to_numeric parse_number (Claim.length_of_stay x) = NaN ->
       acceptable (coerce x) = false).
Proof.
  split; [|split].
  - intros r (x & _ & -> & Hacc)%elem_of_clean. now apply acceptable_bounds.
  - intros x Hx Hbad%not_acceptable.
    pose proof (length_clean_le df) as Hle.
    assert (Hlt : (length (filter (fun r => los_is_reasonable r /\ cost_is_positive r)
                             (coerce <$> df)) < length (coerce <$> df))%nat).
    { eapply length_filter_lt; [|exact Hbad]. now apply list_elem_of_fmap_2. }
    rewrite length_fmap in Hlt. lia.
  - intros x [E|E]; unfold acceptable, cost_is_positive, los_is_reasonable; simpl;
      rewrite E; simpl; [reflexivity|apply andb_false_r].
Qed.

Lemma elem_of_transform_claims_rows (df : list (Claim.row (raw float64) (raw Z))) r :
  r ∈ transform_claims_rows parse_number parse_date df <->
  exists b, b ∈ clean df
            /\ r = Claim.Silver b (readmission_flag_of parse_date b) (cost_per_day_of b)
                      (cost_category_of b) (los_category_of b).
Proof.
  unfold transform_claims_rows, _engineer_claims_features.
  rewrite list_elem_of_fmap. split.
  - intros (b & -> & Hb). eauto.
  - intros (b & Hb & ->). eauto.
Qed.

(** The days between discharge and readmission, as the flag reads them. *)
Lemma readmission_flag_of_spec (b : Claim.row float64 (option Z)) :
  readmission_flag_of parse_date b
  = match Claim.readmission_date b, Claim.discharge_date b with
    | Some (Some rd), Some dd =>
        if ((rd - dd) / NS_PER_DAY <=? 30) && ((rd - dd) / NS_PER_DAY >? 0)
        then 1 else 0
    | _, _ => 0
    end.
Proof.
  unfold readmission_flag_of, calculate_readmission_flag, get_readmission_date,
    default_days_threshold.
  destruct (Claim.readmission_date b) as [[rd|]|], (Claim.discharge_date b) as [dd|];
    reflexivity.
Qed.

(** C1.  For every row of the claims transform, [readmission_flag] is 1
    exactly when the readmission date is present and the days from discharge
    to readmission are more than 0 and at most 30; the flag is 0 or 1, and
    it is 0 when the readmission date is null or the column is absent. *)
Theorem readmission_flag_within_30_days (df : list (Claim.row (raw float64) (raw Z))) r :
  r ∈ transform_claims_rows parse_number parse_date df ->
  let discharge := Claim.discharge_date (Claim.base r) in
  let readmission := Claim.readmission_date (Claim.base r) in
  (Claim.readmission_flag r = 1 <->
     exists rd dd, readmission = Some (Some rd) /\ discharge = Some dd
                   /\ 0 < (rd - dd) / NS_PER_DAY <= 30)
  /\ (Claim.readmission_flag r = 0 \/ Claim.readmission_flag r = 1)
  /\ (readmission = None \/ readmission = Some None -> Claim.readmission_flag r = 0).
Proof.
  intros (b & _ & ->)%elem_of_transform_claims_rows. simpl.
  rewrite readmission_flag_of_spec.
  destruct (Claim.readmission_date b) as [[rd|]|] eqn:Er;
    [destruct (Claim.discharge_date b) as [dd|] eqn:Ed|..].
  - destruct ((rd - dd) / NS_PER_DAY <=? 30) eqn:Hle;
      destruct ((rd - dd) / NS_PER_DAY >? 0) eqn:Hgt; simpl;
      (split; [split|split; [auto|intros [?|?]; discriminate]]);
      try discriminate; try (intros _; exists rd, dd; repeat split; lia);
      intros (rd' & dd' & [= <-] & [= <-] & Hrange); lia.
  - split; [split|split; [auto|intros [?|?]; discriminate]]; [discriminate|].
    intros (rd' & dd' & _ & [=] & _).
  - split; [split|auto]; [discriminate|]. intros (rd' & dd' & [=] & _).
  - split; [split|auto]; [discriminate|]. intros (rd' & dd' & [=] & _).
Qed.

(** The divisor of [cost_per_day]: a length of stay from 0 to 365, plus 1,
    is a number from 1 to 512 (to 366, before its rounding). *)
Lemma stay_plus_one (l : Q) :
  (0 <= l)%Q -> (l <= 365)%Q ->
  exists d, fadd (Fin l) (Fin 1) = Fin d /\ (1 <= d)%Q /\ (d <= pow2 9)%Q.
Proof.
  intros Hl0 Hl365. cbn [fadd].
  assert (H9 : (pow2 9 == 512)%Q) by reflexivity.
  destruct (round64_le (l + 1) 9) as (d & Ed & _ & Hd9); [lia|lra|lra|].
  destruct (round64_ge (l + 1) 0) as [Einf|(d' & Ed' & Hd1)];
    [lia|change (pow2 0) with 1%Q; lra|congruence|].
  exists d. split; [exact Ed|]. split; [|exact Hd9].
  rewrite Ed in Ed'. injection Ed' as <-. exact Hd1.
Qed.

(** C10, as the code has it.  For every row of the claims transform,
    [cost_per_day] is the cost divided by the length of stay plus 1, both
    operations in binary64; the divisor is a number that is at least 1, so
    that no division is by zero; the quotient is never null and never below
    0, and it is above 0 whenever the cost is at least [2 ^ -1065]: only a
    cost smaller than that can be lost by the rounding. *)
Theorem cost_per_day_divides_by_stay_plus_one
    (df : list (Claim.row (raw float64) (raw Z))) r :
  r ∈ transform_claims_rows parse_number parse_date df ->
  exists l d,
    Claim.length_of_stay (Claim.base r) = Fin l
    /\ fadd (Fin l) (Fin 1) = Fin d
    /\ (1 <= d)%Q
    /\ Claim.cost_per_day r = fdiv (Claim.cost (Claim.base r)) (Fin d)
    /\ (Claim.cost_per_day r = PosInf
        \/ exists x, Claim.cost_per_day r = Fin x /\ (0 <= x)%Q)
    /\ (fge (Claim.cost (Claim.base r)) (Fin (pow2 (-1065))) = true ->
        fgt (Claim.cost_per_day r) (Fin 0) = true).
Proof.
  intros (b & (x & _ & -> & Hacc)%elem_of_clean & ->)%elem_of_transform_claims_rows.
  destruct (acceptable_bounds _ Hacc) as (Hc & _ & l & El & Hl0 & Hl365).
  destruct (stay_plus_one l Hl0 Hl365) as (d & Ed & Hd1 & Hd9).
  exists l, d. cbn [Claim.base Claim.cost_per_day]. unfold cost_per_day_of.
  rewrite El, Ed.
  assert (Hd : (0 < d)%Q) by lra.
  repeat split; try assumption.
  - now apply fdiv_positive.
  - intros Hbig. destruct (fge_Fin _ _ Hbig) as [->|(c & -> & Hcbig)].
    + cbn [fdiv]. destruct (Qlt_bool d 0) eqn:E; [|reflexivity].
      apply Qlt_bool_iff in E. lra.
    + rewrite fdiv_Fin by exact Hd.
      pose proof (pow2_pos (-1074)) as Hleast.
      assert (Hq : (pow2 (-1074) <= c / d)%Q).
      { apply Qle_shift_div_l; [exact Hd|].
        apply (Qle_trans _ (pow2 (-1074) * pow2 9)).
        - apply Qmult_le_l; [exact Hleast|exact Hd9].
        - rewrite <- pow2_add. exact Hcbig. }
      destruct (round64_ge (c / d) (-1074)) as [->|(z & -> & Hz)];
        [lia|exact Hq|reflexivity|].
      cbn [fgt flt]. apply Qlt_bool_iff. lra.
Qed.

End ClaimsProperties.

Import Samples.

Lemma silver_claim_readmitted_soon_in_transform :
  silver_claim claim_readmitted_soon
  ∈ transform_claims_rows no_number no_date bronze_claims.
Proof. vm_compute. repeat constructor. Qed.

(** The claim readmitted 15 days after its discharge is flagged. *)
Lemma readmission_flag_within_30_days_witness :
  Claim.readmission_flag (silver_claim claim_readmitted_soon) = 1
  /\ exists rd dd,
       Claim.readmission_date (Claim.base (silver_claim claim_readmitted_soon))
       = Some (Some rd)
       /\ Claim.discharge_date (Claim.base (silver_claim claim_readmitted_soon))
          = Some dd
       /\ 0 < (rd - dd) / NS_PER_DAY <= 30.
Proof.
  pose proof (readmission_flag_within_30_days no_number no_date bronze_claims
                (silver_claim claim_readmitted_soon)
                silver_claim_readmitted_soon_in_transform) as [Hiff _].
  split; [reflexivity|]. apply Hiff. reflexivity.
Defined.

(** The sample frame loses the row with the negative cost, and its rows
    that remain are within the bounds. *)
Lemma clean_claims_enforces_cost_and_stay_witness :
  (length (_clean_claims_data no_number no_date bronze_claims) < length bronze_claims)%nat
  /\ fgt (Claim.cost (coerce_claim no_number no_date claim_readmitted_soon)) (Fin 0) = true
  /\ exists l,
       Claim.length_of_stay (coerce_claim no_number no_date claim_readmitted_soon)
       = Fin l
       /\ (0 <= l)%Q /\ (l <= 365)%Q.
Proof.
  pose proof (clean_claims_enforces_cost_and_stay no_number no_date bronze_claims)
    as (Hkept & Hfewer & _).
  split.
  - apply (Hfewer claim_negative_cost); [|reflexivity].
    unfold bronze_claims. repeat constructor.
  - destruct (Hkept (coerce_claim no_number no_date claim_readmitted_soon))
      as (Hcost & _ & Hstay); [vm_compute; repeat constructor|].
    split; [exact Hcost|exact Hstay].
Defined.

(** The cost per day of the sample claim of 1200 over 4 days: 240. *)
Lemma cost_per_day_divides_by_stay_plus_one_witness :
  Claim.cost_per_day (silver_claim claim_readmitted_soon) = Fin 240
  /\ fgt (Claim.cost_per_day (silver_claim claim_readmitted_soon)) (Fin 0) = true.
Proof.
  destruct (cost_per_day_divides_by_stay_plus_one no_number no_date bronze_claims
              (silver_claim claim_readmitted_soon)
              silver_claim_readmitted_soon_in_transform)
    as (l & d & _ & _ & _ & _ & _ & Hpositive).
  split; [vm_compute; reflexivity|]. apply Hpositive. vm_compute. reflexivity.
Defined.

(** C10, as stated, fails: the claim whose cost is the least number above 0
    passes the cleaning step with a stay of one day; its cost divided by 2
    lies halfway between 0 and the cost and is rounded to 0, so that its
    [cost_per_day] is 0 and not above 0. *)
Lemma cost_per_day_of_the_least_cost_is_0 :
  silver_claim claim_of_least_cost
  ∈ transform_claims_rows no_number no_date [claim_of_least_cost]
  /\ fgt (Claim.cost (Claim.base (silver_claim claim_of_least_cost))) (Fin 0) = true
  /\ Claim.length_of_stay (Claim.base (silver_claim claim_of_least_cost)) = Fin 1
  /\ fadd (Fin 1) (Fin 1) = Fin 2
  /\ Claim.cost_per_day (silver_claim claim_of_least_cost) = Fin 0.
Proof.
  split; [vm_compute; repeat constructor|].
  repeat split; vm_compute; reflexivity.
Qed.

(** C7, at the input where the code leaves the claim: a cleaned claim with a
    length of stay of 0 gets no [los_category] at all, where the buckets of
    the claim put it in Same Day. *)
Lemma los_category_of_same_day_stay_is_null :
  silver_claim claim_same_day ∈ transform_claims_rows no_number no_date bronze_claims
  /\ Claim.length_of_stay (Claim.base (silver_claim claim_same_day)) = Fin 0
  /\ Claim.los_category (silver_claim claim_same_day) = None.
Proof. split; [vm_compute; repeat constructor|split; reflexivity]. Qed.

(** ** The prescriptions transform *)

Section PrescriptionsProperties.

Variable parse_number : string -> option float64.
Variable parse_date : string -> option Z.

Lemma elem_of_keep_positive_all (cols : list (Rx.row float64 (option Z) -> float64)) :
  forall (df : list (Rx.row float64 (option Z))) r,
    r ∈ foldl keep_positive df cols <->
    r ∈ df /\ forall col, col ∈ cols -> fgt (col r) (Fin 0) = true.
Proof.
  induction cols as [|col cols IH]; intros df r; simpl.
  - split; [intros Hr; split; [exact Hr|]|tauto].
    intros col Hcol. inversion Hcol.
  - rewrite IH. unfold keep_positive at 1. rewrite list_elem_of_filter, Is_true_true.
    split.
    + intros [[Hcol Hr] Hall]. split; [exact Hr|].
      intros col' Hin. apply elem_of_cons in Hin as [->|Hin]; [exact Hcol|].
      now apply Hall.
    + intros [Hr Hall]. split; [split; [|exact Hr]|].
      * apply Hall, elem_of_cons. now left.
      * intros col' Hin. apply Hall, elem_of_cons. now right.
Qed.

(** A cleaned prescription has its four numeric columns above 0. *)
Lemma clean_prescription_positive (df : list (Rx.row (raw float64) (raw Z))) b :
  b ∈ _clean_prescriptions_data parse_number parse_date df ->
  fgt (Rx.days_supplied b) (Fin 0) = true /\ fgt (Rx.days_prescribed b) (Fin 0) = true
  /\ fgt (Rx.quantity b) (Fin 0) = true /\ fgt (Rx.cost b) (Fin 0) = true.
Proof.
  unfold _clean_prescriptions_data. cbv zeta.
  rewrite elem_of_keep_positive_all. intros [_ Hall].
  unfold numeric_columns in Hall.
  repeat split; apply Hall; rewrite !elem_of_cons; auto.
Qed.

(** The adherence of days supplied that are at least the days prescribed,
    both above 0: the rate is 1, unless both are infinite. *)
Lemma adherence_of_full_supply (s p : float64) :
  fgt s (Fin 0) = true -> fgt p (Fin 0) = true -> fge s p = true ->
  feq (calculate_medication_adherence s p) (Fin 1)
  \/ (s = PosInf /\ p = PosInf /\ calculate_medication_adherence s p = Fin 0).
Proof.
  intros Hs Hp Hge.
  destruct (fgt_Fin _ _ Hs) as [->|(x & -> & Hx)],
           (fgt_Fin _ _ Hp) as [->|(y & -> & Hy)].
  - right. repeat split; reflexivity.
  - left. unfold calculate_medication_adherence. cbn [fdiv].
    destruct (Qlt_bool y 0) eqn:E; [apply Qlt_bool_iff in E; lra|].
    cbn. reflexivity.
  - discriminate Hge.
  - left. cbn [fge fle] in Hge. apply Qle_bool_iff in Hge.
    unfold calculate_medication_adherence. rewrite fdiv_Fin by exact Hy.
    assert (Hq : (pow2 0 <= x / y)%Q).
    { change (pow2 0) with 1%Q. apply Qle_shift_div_l; lra. }
    destruct (round64_ge (x / y) 0) as [->|(r & -> & Hr)]; [lia|exact Hq|..].
    + cbn. reflexivity.
    + change (pow2 0) with 1%Q in Hr.
      unfold fillna, clip. cbn [isna flt fgt].
      destruct (Qlt_bool r 0) eqn:E0; [apply Qlt_bool_iff in E0; lra|].
      destruct (Qlt_bool 1 r) eqn:E1; [reflexivity|].
      apply Qlt_bool_false in E1. cbn [feq]. lra.
Qed.

(** C3, as the code has it.  For every row of the prescriptions transform,
    [adherence_rate] is the quotient of the days supplied by the days
    prescribed, a null quotient replaced by 0, clipped to the range from 0
    to 1; it lies between 0 and 1; and when the days supplied are at least
    the days prescribed it is 1, unless both are infinite: the quotient of
    two infinities is null, and the rate is 0. *)
Theorem adherence_rate_is_clipped_quotient (df : list (Rx.row (raw float64) (raw Z))) r :
  r ∈ transform_prescriptions_rows parse_number parse_date df ->
  let supplied := Rx.days_supplied (Rx.base r) in
  let prescribed := Rx.days_prescribed (Rx.base r) in
  Rx.adherence_rate r = clip (Fin 0) (Fin 1) (fillna (Fin 0) (fdiv supplied prescribed))
  /\ (exists a, Rx.adherence_rate r = Fin a /\ (0 <= a)%Q /\ (a <= 1)%Q)
  /\ (fge supplied prescribed = true ->
      feq (Rx.adherence_rate r) (Fin 1)
      \/ (supplied = PosInf /\ prescribed = PosInf /\ Rx.adherence_rate r = Fin 0)).
Proof.
  unfold transform_prescriptions_rows, _engineer_prescriptions_features.
  intros (b & -> & Hb)%list_elem_of_fmap.
  destruct (clean_prescription_positive df b Hb) as (Hs & Hp & _ & _).
  cbn [Rx.base Rx.adherence_rate]. unfold adherence_rate_of.
  split; [reflexivity|]. split.
  - apply clip_unit_interval. unfold fillna.
    destruct (isna (fdiv _ _)) eqn:E; [reflexivity|exact E].
  - now apply adherence_of_full_supply.
Qed.

End PrescriptionsProperties.

Lemma silver_prescription_oversupplied_in_transform :
  silver_prescription prescription_oversupplied
  ∈ transform_prescriptions_rows no_number no_date bronze_prescriptions.
Proof. vm_compute. repeat constructor. Qed.

(** 90 days supplied for 30 prescribed: the rate is 1. *)
Lemma adherence_rate_is_clipped_quotient_witness :
  (exists a, Rx.adherence_rate (silver_prescription prescription_oversupplied) = Fin a
             /\ (0 <= a)%Q /\ (a <= 1)%Q)
  /\ feq (Rx.adherence_rate (silver_prescription prescription_oversupplied)) (Fin 1).
Proof.
  pose proof (adherence_rate_is_clipped_quotient no_number no_date bronze_prescriptions
                (silver_prescription prescription_oversupplied)
                silver_prescription_oversupplied_in_transform) as (_ & Hrange & Hfull).
  split; [exact Hrange|].
  destruct (Hfull eq_refl) as [Hone|(Hinf & _)]; [exact Hone|discriminate Hinf].
Defined.

(** C3, as stated, fails: the prescription without an end passes the
    cleaning step, since an infinity is above 0; its days supplied are at
    least its days prescribed, the quotient of the two infinities is null,
    and its [adherence_rate] is 0 and not 1. *)
Lemma adherence_rate_of_prescription_without_end_is_0 :
  silver_prescription prescription_without_end
  ∈ transform_prescriptions_rows no_number no_date [prescription_without_end]
  /\ fge (Rx.days_supplied (Rx.base (silver_prescription prescription_without_end)))
         (Rx.days_prescribed (Rx.base (silver_prescription prescription_without_end)))
     = true
  /\ fdiv PosInf PosInf = NaN
  /\ Rx.adherence_rate (silver_prescription prescription_without_end) = Fin 0.
Proof.
  split; [vm_compute; repeat constructor|].
  repeat split; vm_compute; reflexivity.
Qed.

(** ** Steps of a transform *)

Section TransformSteps.

Context {G DB : Type}.

Lemma bind_run {A B} (m : M G DB A) (k : A -> M G DB B) (w : world G DB) :
  (m ≫= k) w
  = match m w with
    | (Ok a, w') => k a w'
    | (Raise e, w') => (Raise e, w')
    end.
Proof. reflexivity. Qed.

Lemma transform_step_ret {A} (a : A) : transform_step (mret a : M G DB A).
Proof. repeat split; reflexivity. Qed.

Lemma transform_step_raise {A} (e : exception) : transform_step (raise e : M G DB A).
Proof. repeat split; reflexivity. Qed.

Lemma transform_step_lift_result {A} (r : result A) :
  transform_step (lift_result r : M G DB A).
Proof. repeat split; reflexivity. Qed.

Lemma transform_step_datetime_now : transform_step (datetime_now : M G DB Z).
Proof.
  split; [|split]; try (intros w; split; reflexivity); try (intros w; reflexivity).
  intros w1 w2 _ Hclock. unfold datetime_now. simpl. now rewrite Hclock.
Qed.

Lemma transform_step_get_bronze : transform_step (get_bronze : M G DB bronze_layer).
Proof.
  split; [|split]; try (intros w; split; reflexivity); try (intros w; reflexivity).
  intros w1 w2 Hbronze _. unfold get_bronze. simpl. now rewrite Hbronze.
Qed.

Lemma transform_step_set_silver (s : silver_layer) :
  transform_step (set_silver s : M G DB unit).
Proof. repeat split; reflexivity. Qed.

(** A log line that is no start of a transform. *)
Lemma transform_step_logger (ev : event) :
  started "transform" [ev] = [] -> transform_step (logger ev : M G DB unit).
Proof.
  intros Hev. split; [|split]; try (intros w; split; reflexivity);
    try (intros w1 w2 _ _; reflexivity).
  intros w. unfold logger, started in *. simpl. rewrite omap_app, Hev. apply app_nil_r.
Qed.

Lemma transform_step_bind {A B} (m : M G DB A) (k : A -> M G DB B) :
  transform_step m -> (forall a, transform_step (k a)) -> transform_step (m ≫= k).
Proof.
  intros (Hkeep & Hdet & Hquiet) Hk. split; [|split].
  - intros w. rewrite bind_run. specialize (Hkeep w).
    destruct (m w) as [[a|e] w']; simpl in *; [|exact Hkeep].
    destruct (Hk a) as (Hkeep' & _ & _). destruct (Hkeep' w') as [-> ->]. exact Hkeep.
  - intros w1 w2 Hb Hc. rewrite !bind_run.
    pose proof (Hdet w1 w2 Hb Hc) as Hfst.
    pose proof (Hkeep w1) as [Hb1 Hc1]. pose proof (Hkeep w2) as [Hb2 Hc2].
    destruct (m w1) as [r1 w1'], (m w2) as [r2 w2']; simpl in *. subst r2.
    destruct r1 as [a|e]; [|reflexivity].
    destruct (Hk a) as (_ & Hdet' & _). apply Hdet'; congruence.
  - intros w. rewrite bind_run. specialize (Hquiet w).
    destruct (m w) as [[a|e] w']; simpl in *; [|exact Hquiet].
    destruct (Hk a) as (_ & _ & Hquiet'). now rewrite Hquiet'.
Qed.

Lemma transform_step_require_columns (present : gset string) (cols : list string) :
  transform_step (require_columns present cols : M G DB unit).
Proof.
  induction cols as [|c cols IH]; simpl.
  - apply transform_step_ret.
  - case_bool_decide; [exact IH|apply transform_step_raise].
Qed.

Lemma transform_step_load_parquet {R} (name : string) (file : option (frame R)) :
  transform_step (load_parquet_with_metadata name file : M G DB _).
Proof.
  destruct file; [apply transform_step_ret|apply transform_step_raise].
Qed.

Lemma transform_step_get_silver_set (k : silver_layer -> silver_layer) :
  transform_step (get_silver ≫= fun s => set_silver (k s) : M G DB unit).
Proof. repeat split; reflexivity. Qed.

End TransformSteps.

(** The steps of a transform are closed under sequencing, so a transform is
    taken apart one bind at a time. *)
Ltac transform_step :=
  repeat first
    [ apply transform_step_ret
    | apply transform_step_raise
    | apply transform_step_lift_result
    | apply transform_step_datetime_now
    | apply transform_step_get_bronze
    | apply transform_step_set_silver
    | apply transform_step_get_silver_set
    | apply transform_step_require_columns
    | apply transform_step_load_parquet
    | (apply transform_step_logger; reflexivity)
    | (apply transform_step_bind; [|intros ?])
    | match goal with
      | |- transform_step (let '(_, _) := ?p in _) => destruct p
      | |- transform_step (if ?b then _ else _) => destruct b
      | |- transform_step (match ?x with _ => _ end) => destruct x
      end ].

Section TransformAll.

Context {G DB : Type}.
Variable parse_number : string -> option float64.
Variable parse_date : string -> option Z.

Local Abbreviation transform_claims_data :=
  (@transform_claims_data G DB parse_number parse_date).
Local Abbreviation transform_patients_data :=
  (@transform_patients_data G DB parse_number parse_date).
Local Abbreviation transform_providers_data :=
  (@transform_providers_data G DB parse_number).
Local Abbreviation transform_prescriptions_data :=
  (@transform_prescriptions_data G DB parse_number parse_date).
Local Abbreviation transform_all_data :=
  (@transform_all_data G DB parse_number parse_date).
Local Abbreviation transform_entity :=
  (@transform_entity G DB parse_number parse_date).
Local Abbreviation transform_succeeds :=
  (@transform_succeeds G DB parse_number parse_date).

Lemma transform_of_started {A} (e : entity) (body : M G DB A) :
  transform_step body ->
  transform_of e (logger (Started "transform" e) ≫= fun _ => body).
Proof.
  intros (Hkeep & Hdet & Hquiet). split; [|split].
  - intros w. rewrite bind_run. simpl.
    match goal with |- context [body ?w'] => exact (Hkeep w') end.
  - intros w1 w2 Hb Hc. rewrite !bind_run. simpl. now apply Hdet.
  - intros w. rewrite bind_run. simpl. rewrite Hquiet. simpl.
    unfold started. rewrite omap_app. reflexivity.
Qed.

Lemma transform_claims_data_effects : transform_of Claims transform_claims_data.
Proof.
  apply transform_of_started.
  unfold clean_claims_frame, engineer_claims_frame, _validate_claims_data,
    silver_metadata, generate_etl_metadata, save_silver_claims, log_dataframe_info.
  transform_step.
Qed.

Lemma transform_patients_data_effects : transform_of Patients transform_patients_data.
Proof.
  apply transform_of_started.
  unfold clean_patients_frame, engineer_patients_frame, _validate_patients_data,
    silver_metadata, generate_etl_metadata, save_silver_patients, log_dataframe_info.
  transform_step.
Qed.

Lemma transform_providers_data_effects : transform_of Providers transform_providers_data.
Proof.
  apply transform_of_started.
  unfold clean_providers_frame, engineer_providers_frame, _validate_providers_data,
    silver_metadata, generate_etl_metadata, save_silver_providers, log_dataframe_info.
  transform_step.
Qed.

Lemma transform_prescriptions_data_effects :
  transform_of Prescriptions transform_prescriptions_data.
Proof.
  apply transform_of_started.
  unfold clean_prescriptions_frame, engineer_prescriptions_frame,
    _validate_prescriptions_data, silver_metadata, generate_etl_metadata,
    save_silver_prescriptions, log_dataframe_info.
  transform_step.
Qed.

(** One transform inside [transform_all_data]: run from a world [w0] that
    has the inputs of [w], it ends as it would from [w], leaves the inputs
    alone and logs its start. *)
Lemma transform_of_run {A} (e : entity) (m : M G DB A) (w0 w : world G DB) :
  transform_of e m -> bronze w0 = bronze w -> clock w0 = clock w ->
  exists w1, m w0 = ((m w).1, w1)
             /\ bronze w1 = bronze w /\ clock w1 = clock w
             /\ started "transform" (log w1) = started "transform" (log w0) ++ [e].
Proof.
  intros (Hkeep & Hdet & Hlog) Hb Hc. exists (m w0).2.
  destruct (Hkeep w0) as [Hb1 Hc1]. rewrite <- (Hdet w0 w Hb Hc).
  split; [now destruct (m w0)|].
  split; [congruence|]. split; [congruence|]. apply Hlog.
Qed.

Lemma transform_succeeds_claims (w : world G DB) :
  (transform_entity Claims w).1
  = match (transform_claims_data w).1 with Ok _ => Ok tt | Raise e => Raise e end.
Proof.
  unfold HealthcareDataTransformer.transform_entity. rewrite bind_run.
  now destruct (transform_claims_data w) as [[?|?] ?].
Qed.

Lemma transform_succeeds_patients (w : world G DB) :
  (transform_entity Patients w).1
  = match (transform_patients_data w).1 with Ok _ => Ok tt | Raise e => Raise e end.
Proof.
  unfold HealthcareDataTransformer.transform_entity. rewrite bind_run.
  now destruct (transform_patients_data w) as [[?|?] ?].
Qed.

Lemma transform_succeeds_providers (w : world G DB) :
  (transform_entity Providers w).1
  = match (transform_providers_data w).1 with Ok _ => Ok tt | Raise e => Raise e end.
Proof.
  unfold HealthcareDataTransformer.transform_entity. rewrite bind_run.
  now destruct (transform_providers_data w) as [[?|?] ?].
Qed.

Lemma transform_succeeds_prescriptions (w : world G DB) :
  (transform_entity Prescriptions w).1
  = match (transform_prescriptions_data w).1 with Ok _ => Ok tt | Raise e => Raise e end.
Proof.
  unfold HealthcareDataTransformer.transform_entity. rewrite bind_run.
  now destruct (transform_prescriptions_data w) as [[?|?] ?].
Qed.

(** C5, as the code has it.  [transform_all_data] takes the entities in the
    order claims, patients, providers, prescriptions and stops at the first
    transform that raises: the transforms after it are not run, and its
    exception is what the caller gets.  It returns only when each of the
    four transforms returns. *)
Theorem transform_all_data_stops_at_first_failure (w : world G DB) :
  started "transform" (log (transform_all_data w).2)
  = started "transform" (log w)
    ++ attempted (fun e => transform_succeeds e w) transform_order
  /\ match List.find (fun e => negb (transform_succeeds e w)) transform_order with
     | Some e => exists exc, (transform_entity e w).1 = Raise exc
                             /\ (transform_all_data w).1 = Raise exc
     | None => is_ok (transform_all_data w).1 = true
     end.
Proof.
  unfold HealthcareDataTransformer.transform_all_data,
    HealthcareDataTransformer.transform_succeeds, transform_order.
  cbn [List.find attempted].
  rewrite transform_succeeds_claims, transform_succeeds_patients,
    transform_succeeds_providers, transform_succeeds_prescriptions.
  rewrite bind_run. cbn [logger].
  set (w0 := World _ _ _ _ _ _ (log w ++ _)).
  assert (Hb0 : bronze w0 = bronze w) by reflexivity.
  assert (Hc0 : clock w0 = clock w) by reflexivity.
  assert (Hl0 : started "transform" (log w0) = started "transform" (log w)).
  { unfold w0, started. simpl. rewrite omap_app. apply app_nil_r. }
  destruct (transform_of_run Claims _ w0 w transform_claims_data_effects Hb0 Hc0)
    as (w1 & E1 & Hb1 & Hc1 & Hl1).
  rewrite bind_run, E1.
  destruct (transform_claims_data w).1 as [c|exc] eqn:R1; cbv beta iota;
    cbn [is_ok negb fst snd].
  2: { rewrite Hl1, Hl0. split; [reflexivity|]. exists exc.
       now rewrite transform_succeeds_claims, R1. }
  destruct (transform_of_run Patients _ w1 w transform_patients_data_effects Hb1 Hc1)
    as (w2 & E2 & Hb2 & Hc2 & Hl2).
  rewrite bind_run, E2.
  destruct (transform_patients_data w).1 as [p|exc] eqn:R2; cbv beta iota;
    cbn [is_ok negb fst snd].
  2: { rewrite Hl2, Hl1, Hl0, <- app_assoc. split; [reflexivity|]. exists exc.
       now rewrite transform_succeeds_patients, R2. }
  destruct (transform_of_run Providers _ w2 w transform_providers_data_effects Hb2 Hc2)
    as (w3 & E3 & Hb3 & Hc3 & Hl3).
  rewrite bind_run, E3.
  destruct (transform_providers_data w).1 as [v|exc] eqn:R3; cbv beta iota;
    cbn [is_ok negb fst snd].
  2: { rewrite Hl3, Hl2, Hl1, Hl0, <- !app_assoc. split; [reflexivity|]. exists exc.
       now rewrite transform_succeeds_providers, R3. }
  destruct (transform_of_run Prescriptions _ w3 w
              transform_prescriptions_data_effects Hb3 Hc3)
    as (w4 & E4 & Hb4 & Hc4 & Hl4).
  rewrite bind_run, E4.
  destruct (transform_prescriptions_data w).1 as [x|exc] eqn:R4; cbv beta iota;
    cbn [is_ok negb fst snd].
  2: { rewrite Hl4, Hl3, Hl2, Hl1, Hl0, <- !app_assoc. split; [reflexivity|]. exists exc.
       now rewrite transform_succeeds_prescriptions, R4. }
  rewrite bind_run. cbn [logger]. cbv beta iota.
  split; [|reflexivity]. simpl.
  unfold started at 1. rewrite omap_app. cbn [omap]. rewrite app_nil_r.
  fold (started "transform" (log w4)).
  rewrite Hl4, Hl3, Hl2, Hl1, Hl0, <- !app_assoc. reflexivity.
Qed.

End TransformAll.

(** C5, as stated, fails: with a claims frame that lacks its [patient_id]
    column, the transforms of patients, providers and prescriptions would
    each return when run on their own, yet [transform_all_data] raises the
    validation error of the claims at once, starts no other transform and
    writes no silver artifact. *)
Lemma transform_all_data_skips_the_entities_after_a_failure :
  transform_succeeds no_number no_date Patients world_without_patient_id = true
  /\ transform_succeeds no_number no_date Providers world_without_patient_id = true
  /\ transform_succeeds no_number no_date Prescriptions world_without_patient_id = true
  /\ (transform_all_data no_number no_date world_without_patient_id).1
     = Raise (ValueError "Claims data validation failed")
  /\ started "transform"
       (log (transform_all_data no_number no_date world_without_patient_id).2)
     = [Claims]
  /\ silver (transform_all_data no_number no_date world_without_patient_id).2
     = empty_layer.
Proof. vm_compute. repeat split. Qed.

(** ** Buckets *)

Lemma Qle_bool_false (a b : Q) : Qle_bool a b = false -> (b < a)%Q.
Proof.
  intros E. apply Qnot_le_lt. intros Hle%Qle_bool_iff. congruence.
Qed.

(** Case analysis on every comparison of a goal about buckets, closed by
    linear arithmetic over the rationals. *)
Ltac bucket_cases :=
  repeat match goal with
    | |- context [Qle_bool ?a ?b] =>
        let E := fresh "E" in
        destruct (Qle_bool a b) eqn:E;
        [apply Qle_bool_iff in E|apply Qle_bool_false in E]
    end;
  simpl; try reflexivity; try (exfalso; lra).

(** The age buckets as [pd.cut] has them: open at the left end, closed at
    the right end, and nothing at 0 and below or above 100. *)
Lemma age_category_buckets (a : Q) :
  cut age_bins age_labels (Fin a)
  = if Qle_bool a 0 then None
    else if Qle_bool a 18 then Some Patient.Pediatric
    else if Qle_bool a 35 then Some Patient.YoungAdult
    else if Qle_bool a 50 then Some Patient.Adult
    else if Qle_bool a 65 then Some Patient.MiddleAge
    else if Qle_bool a 100 then Some Patient.Senior
    else None.
Proof.
  unfold cut, searchsorted_left, age_bins, age_labels. cbn [List.filter flt isna].
  unfold Qlt_bool. bucket_cases.
Qed.

(** The buckets of the length of stay as [pd.cut] has them. *)
Lemma los_category_buckets (l : Q) :
  cut los_bins los_labels (Fin l)
  = if Qle_bool l 0 then None
    else if Qle_bool l 1 then Some Claim.SameDay
    else if Qle_bool l 3 then Some Claim.Short
    else if Qle_bool l 7 then Some Claim.Medium
    else Some Claim.Long.
Proof.
  unfold cut, searchsorted_left, los_bins, los_labels, inf.
  cbn [List.filter flt isna]. unfold Qlt_bool. bucket_cases.
Qed.

(** C2, as stated, fails: the patients of age 0 and of age 110 pass the
    cleaning step, whose range is 0 to 120, and get no [age_category]; the
    patient of 40 is an Adult. *)
Lemma age_category_of_newborn_and_of_110_is_null :
  (fun r => (Patient.age (Patient.base r), Patient.age_category r))
    <$> transform_patients_rows no_number no_date (day 19800) bronze_patients
  = [(Fin 0, None); (Fin 110, None); (Fin 40, Some Patient.Adult)].
Proof. reflexivity. Qed.

(** ** Steps of the loader *)

Section LoaderSteps.

Context {G DB : Type}.

Lemma quiet_ret stage {A} (a : A) : quiet stage (mret a : M G DB A).
Proof. intros w. reflexivity. Qed.

Lemma quiet_raise stage {A} (e : exception) : quiet stage (raise e : M G DB A).
Proof. intros w. reflexivity. Qed.

Lemma quiet_lift_result stage {A} (r : result A) : quiet stage (lift_result r : M G DB A).
Proof. intros w. reflexivity. Qed.

Lemma quiet_get_silver stage : quiet stage (get_silver : M G DB silver_layer).
Proof. intros w. reflexivity. Qed.

Lemma quiet_with_db stage {A} (f : DB -> result A * DB) :
  quiet stage (with_db f : M G DB A).
Proof. intros w. unfold with_db. now destruct (f (db w)). Qed.

Lemma quiet_logger stage (ev : event) :
  started stage [ev] = [] -> quiet stage (logger ev : M G DB unit).
Proof.
  intros Hev w. unfold logger, started in *. simpl. rewrite omap_app, Hev.
  apply app_nil_r.
Qed.

Lemma quiet_bind stage {A B} (m : M G DB A) (k : A -> M G DB B) :
  quiet stage m -> (forall a, quiet stage (k a)) -> quiet stage (m ≫= k).
Proof.
  intros Hm Hk w. rewrite bind_run. specialize (Hm w).
  destruct (m w) as [[a|e] w']; simpl in *; [|exact Hm]. now rewrite Hk.
Qed.

Lemma quiet_try_except stage {A} (body : M G DB A) (handler : exception -> M G DB A) :
  quiet stage body -> (forall e, quiet stage (handler e)) ->
  quiet stage (try_except body handler).
Proof.
  intros Hbody Hhandler w. unfold try_except. specialize (Hbody w).
  destruct (body w) as [[a|e] w']; simpl in *; [exact Hbody|]. now rewrite Hhandler.
Qed.

Lemma quiet_require_columns stage (present : gset string) (cols : list string) :
  quiet stage (require_columns present cols : M G DB unit).
Proof.
  induction cols as [|c cols IH]; simpl; [apply quiet_ret|].
  case_bool_decide; [exact IH|apply quiet_raise].
Qed.

Lemma quiet_load_parquet stage {R} (name : string) (file : option (frame R)) :
  quiet stage (load_parquet_with_metadata name file : M G DB _).
Proof. destruct file; [apply quiet_ret|apply quiet_raise]. Qed.

Lemma never_raises_ret {A} (a : A) : never_raises (mret a : M G DB A).
Proof. intros w. reflexivity. Qed.

Lemma never_raises_logger (ev : event) : never_raises (logger ev : M G DB unit).
Proof. intros w. reflexivity. Qed.

Lemma never_raises_bind {A B} (m : M G DB A) (k : A -> M G DB B) :
  never_raises m -> (forall a, never_raises (k a)) -> never_raises (m ≫= k).
Proof.
  intros Hm Hk w. rewrite bind_run. specialize (Hm w).
  destruct (m w) as [[a|e] w']; simpl in *; [apply Hk|discriminate].
Qed.

Lemma never_raises_try_except {A} (body : M G DB A) (handler : exception -> M G DB A) :
  (forall e, never_raises (handler e)) -> never_raises (try_except body handler).
Proof.
  intros Hhandler w. unfold try_except.
  destruct (body w) as [[a|e] w']; simpl; [reflexivity|apply Hhandler].
Qed.

(** A computation that never raises returns a value and a world. *)
Lemma never_raises_run {A} (m : M G DB A) (w : world G DB) :
  never_raises m -> exists a w', m w = (Ok a, w').
Proof.
  intros Hm. specialize (Hm w). destruct (m w) as [[a|e] w']; [eauto|discriminate].
Qed.

End LoaderSteps.

(** Lemmas about loops and helpers of the loader are added to this
    database as they are proved. *)
Create HintDb quiet.

Ltac quiet_step :=
  repeat first
    [ solve [auto 1 with quiet nocore]
    | apply quiet_ret
    | apply quiet_raise
    | apply quiet_lift_result
    | apply quiet_get_silver
    | apply quiet_with_db
    | apply quiet_require_columns
    | apply quiet_load_parquet
    | (apply quiet_logger; reflexivity)
    | (apply quiet_bind; [|intros ?])
    | (apply quiet_try_except; [|intros ?])
    | match goal with
      | |- quiet _ (let '(_, _) := ?p in _) => destruct p
      | |- quiet _ (let _ := _ in _) => cbv zeta
      | |- quiet _ (if ?b then _ else _) => destruct b
      | |- quiet _ (match ?x with _ => _ end) => destruct x
      end ].

Ltac never_raises_step :=
  repeat first
    [ apply never_raises_ret
    | apply never_raises_logger
    | (apply never_raises_try_except; intros ?)
    | (apply never_raises_bind; [|intros ?]) ].

(** ** The loader *)

Section LoadAll.

Import HealthcareDataLoader.

Context {G DB : Type} `{Engine DB}.

Lemma quiet_to_sql_chunks stage {R} (table : string) (df : list R) (starts : list nat) :
  quiet stage (to_sql_chunks table df starts : M G DB unit).
Proof.
  induction starts as [|i starts IH]; simpl; [apply quiet_ret|].
  apply quiet_bind; [apply quiet_with_db|intros _; exact IH].
Qed.

Lemma quiet_add_medication_ids (df : list Rx.silver) :
  quiet "load" (_add_medication_ids df : M G DB _).
Proof. unfold _add_medication_ids. quiet_step. Qed.

Hint Resolve quiet_to_sql_chunks quiet_add_medication_ids : quiet.

Lemma load_of_started (e : entity) (body : M G DB bool) :
  never_raises body -> quiet "load" body ->
  load_of e (logger (Started "load" e) ≫= fun _ => body).
Proof.
  intros Hnever Hquiet. split.
  - apply never_raises_bind; [apply never_raises_logger|intros _; exact Hnever].
  - intros w. rewrite bind_run. simpl. rewrite Hquiet. simpl.
    unfold started. rewrite omap_app. reflexivity.
Qed.

Lemma load_patients_data_effects : load_of Patients (load_patients_data : M G DB bool).
Proof.
  apply load_of_started; [never_raises_step|].
  unfold _prepare_patients_for_db, astype_column, get_astype. quiet_step.
Qed.

Lemma load_providers_data_effects : load_of Providers (load_providers_data : M G DB bool).
Proof.
  apply load_of_started; [never_raises_step|].
  unfold _prepare_providers_for_db, astype_column, get_astype. quiet_step.
Qed.

Lemma load_claims_data_effects : load_of Claims (load_claims_data : M G DB bool).
Proof.
  apply load_of_started; [never_raises_step|].
  unfold _prepare_claims_for_db, astype_column, get_astype. quiet_step.
Qed.

Lemma load_prescriptions_data_effects :
  load_of Prescriptions (load_prescriptions_data : M G DB bool).
Proof.
  apply load_of_started; [never_raises_step|].
  unfold _prepare_prescriptions_for_db, astype_column, get_astype. quiet_step.
Qed.

Lemma load_of_run (e : entity) (m : M G DB bool) (w : world G DB) :
  load_of e m ->
  exists ok w', m w = (Ok ok, w')
                /\ started "load" (log w') = started "load" (log w) ++ [e].
Proof.
  intros [Hnever Hlog]. destruct (never_raises_run m w Hnever) as (ok & w' & E).
  exists ok, w'. split; [exact E|]. specialize (Hlog w). now rewrite E in Hlog.
Qed.

Lemma connect_and_create_schema_quiet :
  quiet "load" (connect_and_create_schema : M G DB bool).
Proof.
  unfold connect_and_create_schema, connect_to_database, create_schema. quiet_step.
Qed.

(** C6.  Once the warehouse is connected and its schema is in place, the
    four loads run one after the other, patients, providers, claims and
    prescriptions, each from the world the one before it left and whatever
    the one before it returned; each returns true or false and none raises.
    [load_all_data] returns the conjunction of the four results; it runs the
    update of the provider metrics exactly when that conjunction is true,
    and otherwise it only logs an error after the fourth load.  When the
    connection or the schema fails, no load is attempted and the result is
    not true. *)
Theorem load_all_data_attempts_every_load (w : world G DB) :
  match connect_and_create_schema w with
  | (Ok true, w0) =>
      exists p v c x w1 w2 w3 w4,
        load_patients_data w0 = (Ok p, w1)
        /\ load_providers_data w1 = (Ok v, w2)
        /\ load_claims_data w2 = (Ok c, w3)
        /\ load_prescriptions_data w3 = (Ok x, w4)
        /\ started "load" (log w4)
           = started "load" (log w) ++ [Patients; Providers; Claims; Prescriptions]
        /\ (load_all_data w).1 = Ok (p && v && c && x)
        /\ load_all_data w
           = if p && v && c && x then
               (_ ← update_provider_metrics;
                _ ← create_analytics_views;
                _ ← logger (Info "All data loaded successfully to database");
                mret true) w4
             else
               (_ ← logger (Error "Some data loading operations failed");
                mret false) w4
  | (r, w0) =>
      load_all_data w = (r, w0)
      /\ r <> Ok true
      /\ started "load" (log w0) = started "load" (log w)
  end.
Proof.
  pose proof (connect_and_create_schema_quiet w) as Hquiet.
  unfold load_all_data.
  unfold connect_and_create_schema in *. rewrite !bind_run in *. cbn [logger] in *.
  cbv beta iota in *.
  set (wl := World _ _ _ _ _ _ _) in *.
  rewrite !bind_run in *.
  destruct (connect_to_database wl) as [[[|]|e] w0] eqn:Econn; cbn [negb] in *;
    cbv beta iota in *; cbn [snd] in Hquiet;
    [| split; [reflexivity|split; [discriminate|exact Hquiet]]
     | split; [reflexivity|split; [discriminate|exact Hquiet]]].
  rewrite bind_run.
  destruct (create_schema w0) as [[[|]|e] w1] eqn:Eschema; cbn [negb snd] in *;
    cbv beta iota;
    [| split; [reflexivity|split; [discriminate|exact Hquiet]]
     | split; [reflexivity|split; [discriminate|exact Hquiet]]].
  destruct (load_of_run Patients _ w1 load_patients_data_effects) as (p & w2 & Ep & Hp).
  destruct (load_of_run Providers _ w2 load_providers_data_effects) as (v & w3 & Ev & Hv).
  destruct (load_of_run Claims _ w3 load_claims_data_effects) as (c & w4 & Ec & Hc).
  destruct (load_of_run Prescriptions _ w4 load_prescriptions_data_effects)
    as (x & w5 & Ex & Hx).
  exists p, v, c, x, w2, w3, w4, w5.
  rewrite !bind_run, Ep. cbv beta iota. rewrite !bind_run, Ev. cbv beta iota.
  rewrite !bind_run, Ec. cbv beta iota. rewrite !bind_run, Ex. cbv beta iota.
  repeat (split; [reflexivity|]).
  split; [rewrite Hx, Hc, Hv, Hp, Hquiet, <- !app_assoc; reflexivity|].
  replace (if negb x then false
           else if negb c then false
           else if negb v then false else if negb p then false else true)
    with (p && v && c && x) by (now destruct p, v, c, x).
  destruct (p && v && c && x); [|split; reflexivity].
  destruct (never_raises_run update_provider_metrics w5 ltac:(never_raises_step))
    as (u & w6 & Eu).
  destruct (never_raises_run create_analytics_views w6 ltac:(never_raises_step))
    as (a & w7 & Ea).
  rewrite !bind_run, Eu. cbv beta iota. rewrite !bind_run, Ea. cbv beta iota.
  split; reflexivity.
Qed.

End LoadAll.

(** ** The medication lookup *)

Section MedicationIds.

Import HealthcareDataLoader.

Context {G DB : Type} `{Engine DB}.





(** X3.  When the table cannot be read, every row is kept as well, with the
    identifier 0, and the failure is logged in place of the names. *)
Lemma add_medication_ids_without_table
    (df : list Rx.silver) (w : world G DB) (e : exception) (d : DB) :
  select_medications (db w) = (Raise e, d) ->
  (_add_medication_ids df w).1 = Ok ((fun r => RxLoaded r (Some 0)) <$> df)
  /\ log (_add_medication_ids df w).2 = log w ++ [Failed "Failed to add medication IDs" e].
Proof.
  intros Hselect. unfold _add_medication_ids, try_except.
  rewrite bind_run. unfold with_db. rewrite Hselect. split; reflexivity.
Qed.

End MedicationIds.

(** ** The extractor *)

Section ExtractorSteps.

Context {G DB : Type}.

Lemma determined_by_rng_ret {A} (a : A) : determined_by_rng (mret a : M G DB A).
Proof. intros w1 w2 Hrng. split; [reflexivity|exact Hrng]. Qed.

Lemma determined_by_rng_with_rng {A} (f : G -> A * G) :
  determined_by_rng (with_rng f : M G DB A).
Proof.
  intros w1 w2 Hrng. unfold with_rng. rewrite Hrng.
  destruct (f (rng w2)) as [a g]. split; reflexivity.
Qed.

Lemma determined_by_rng_bind {A B} (m : M G DB A) (k : A -> M G DB B) :
  determined_by_rng m -> (forall a, determined_by_rng (k a)) ->
  determined_by_rng (m ≫= k).
Proof.
  intros Hm Hk w1 w2 Hrng. rewrite !bind_run.
  destruct (Hm w1 w2 Hrng) as [Hfst Hnext].
  destruct (m w1) as [r1 w1'], (m w2) as [r2 w2']; simpl in *. subst r2.
  destruct r1 as [a|e]; [now apply Hk|]. split; [reflexivity|exact Hnext].
Qed.

(** After [np.random.seed], what follows no longer depends on the world it
    started in. *)
Lemma seeded_outcome {A} (g : G) (body : M G DB A) (w1 w2 : world G DB) :
  determined_by_rng body ->
  ((set_rng g ≫= fun _ => body) w1).1 = ((set_rng g ≫= fun _ => body) w2).1.
Proof. intros Hbody. rewrite !bind_run. simpl. now apply Hbody. Qed.

Lemma never_raises_with_rng {A} (f : G -> A * G) : never_raises (with_rng f : M G DB A).
Proof. intros w. unfold with_rng. now destruct (f (rng w)). Qed.

Lemma never_raises_set_rng (g : G) : never_raises (set_rng g : M G DB unit).
Proof. intros w. reflexivity. Qed.

End ExtractorSteps.

Ltac rng_step :=
  repeat first
    [ apply determined_by_rng_ret
    | apply determined_by_rng_with_rng
    | (apply determined_by_rng_bind; [|intros ?])
    | match goal with |- determined_by_rng (let _ := _ in _) => cbv zeta end ].

Ltac generator_returns :=
  repeat first
    [ apply never_raises_ret
    | apply never_raises_with_rng
    | apply never_raises_set_rng
    | (apply never_raises_bind; [|intros ?])
    | match goal with |- never_raises (let _ := _ in _) => cbv zeta end ].

Section ExtractorProperties.

Import HealthcareDataExtractor.

Context {G DB : Type} `{NumpyRandom G} `{CsvReader}.

Lemma generate_sample_claims_seeded (w1 w2 : world G DB) :
  (_generate_sample_claims_data w1).1 = (_generate_sample_claims_data w2).1
  /\ is_ok (_generate_sample_claims_data w1).1 = true.
Proof.
  split.
  - unfold _generate_sample_claims_data. apply seeded_outcome. rng_step.
  - revert w1. change (never_raises (_generate_sample_claims_data : M G DB _)).
    unfold _generate_sample_claims_data. generator_returns.
Qed.

Lemma generate_sample_patients_seeded (w1 w2 : world G DB) :
  (_generate_sample_patients_data w1).1 = (_generate_sample_patients_data w2).1
  /\ is_ok (_generate_sample_patients_data w1).1 = true.
Proof.
  split.
  - unfold _generate_sample_patients_data. apply seeded_outcome. rng_step.
  - revert w1. change (never_raises (_generate_sample_patients_data : M G DB _)).
    unfold _generate_sample_patients_data. generator_returns.
Qed.

Lemma generate_sample_providers_seeded (w1 w2 : world G DB) :
  (_generate_sample_providers_data w1).1 = (_generate_sample_providers_data w2).1
  /\ is_ok (_generate_sample_providers_data w1).1 = true.
Proof.
  split.
  - unfold _generate_sample_providers_data. apply seeded_outcome. rng_step.
  - revert w1. change (never_raises (_generate_sample_providers_data : M G DB _)).
    unfold _generate_sample_providers_data. generator_returns.
Qed.

Lemma generate_sample_prescriptions_seeded (w1 w2 : world G DB) :
  (_generate_sample_prescriptions_data w1).1 = (_generate_sample_prescriptions_data w2).1
  /\ is_ok (_generate_sample_prescriptions_data w1).1 = true.
Proof.
  split.
  - unfold _generate_sample_prescriptions_data. apply seeded_outcome. rng_step.
  - revert w1. change (never_raises (_generate_sample_prescriptions_data : M G DB _)).
    unfold _generate_sample_prescriptions_data. generator_returns.
Qed.

(** The table [extract_claims_data] returns: the parsed source when there
    is one, the generated sample otherwise. *)
Lemma extract_claims_table (file_path : option string) (w : world G DB) :
  table ClaimsTable (extract_claims_data file_path w).1
  = match source_of (files w) file_path with
    | Some text => table ClaimsTable (read_csv_claims text)
    | None => table ClaimsTable (_generate_sample_claims_data w).1
    end.
Proof.
  unfold extract_claims_data, source_text.
  rewrite bind_run. cbn [logger]. cbv beta iota.
  rewrite bind_run. rewrite bind_run. cbn [get_files files]. cbv beta iota.
  cbn [mret M_ret ret_M]. cbv beta iota.
  destruct (source_of (files w) file_path) as [text|].
  - rewrite !bind_run. unfold lift_result.
    destruct (read_csv_claims text) as [df|e]; cbv beta iota; reflexivity.
  - rewrite !bind_run.
    match goal with
    | |- context [_generate_sample_claims_data ?w'] =>
        destruct (generate_sample_claims_seeded w' w) as [Hsame _];
        destruct (_generate_sample_claims_data w') as [[df|e] w'']
    end; cbn [fst] in Hsame; rewrite <- Hsame; reflexivity.
Qed.

(** The table [extract_patients_data] returns: the parsed source when there
    is one, the generated sample otherwise. *)
Lemma extract_patients_table (file_path : option string) (w : world G DB) :
  table PatientsTable (extract_patients_data file_path w).1
  = match source_of (files w) file_path with
    | Some text => table PatientsTable (read_csv_patients text)
    | None => table PatientsTable (_generate_sample_patients_data w).1
    end.
Proof.
  unfold extract_patients_data, source_text.
  rewrite bind_run. cbn [logger]. cbv beta iota.
  rewrite bind_run. rewrite bind_run. cbn [get_files files]. cbv beta iota.
  cbn [mret M_ret ret_M]. cbv beta iota.
  destruct (source_of (files w) file_path) as [text|].
  - rewrite !bind_run. unfold lift_result.
    destruct (read_csv_patients text) as [df|e]; cbv beta iota; reflexivity.
  - rewrite !bind_run.
    match goal with
    | |- context [_generate_sample_patients_data ?w'] =>
        destruct (generate_sample_patients_seeded w' w) as [Hsame _];
        destruct (_generate_sample_patients_data w') as [[df|e] w'']
    end; cbn [fst] in Hsame; rewrite <- Hsame; reflexivity.
Qed.

(** The table [extract_providers_data] returns: the parsed source when there
    is one, the generated sample otherwise. *)
Lemma extract_providers_table (file_path : option string) (w : world G DB) :
  table ProvidersTable (extract_providers_data file_path w).1
  = match source_of (files w) file_path with
    | Some text => table ProvidersTable (read_csv_providers text)
    | None => table ProvidersTable (_generate_sample_providers_data w).1
    end.
Proof.
  unfold extract_providers_data, source_text.
  rewrite bind_run. cbn [logger]. cbv beta iota.
  rewrite bind_run. rewrite bind_run. cbn [get_files files]. cbv beta iota.
  cbn [mret M_ret ret_M]. cbv beta iota.
  destruct (source_of (files w) file_path) as [text|].
  - rewrite !bind_run. unfold lift_result.
    destruct (read_csv_providers text) as [df|e]; cbv beta iota; reflexivity.
  - rewrite !bind_run.
    match goal with
    | |- context [_generate_sample_providers_data ?w'] =>
        destruct (generate_sample_providers_seeded w' w) as [Hsame _];
        destruct (_generate_sample_providers_data w') as [[df|e] w'']
    end; cbn [fst] in Hsame; rewrite <- Hsame; reflexivity.
Qed.

(** The table [extract_prescriptions_data] returns: the parsed source when there
    is one, the generated sample otherwise. *)
Lemma extract_prescriptions_table (file_path : option string) (w : world G DB) :
  table PrescriptionsTable (extract_prescriptions_data file_path w).1
  = match source_of (files w) file_path with
    | Some text => table PrescriptionsTable (read_csv_prescriptions text)
    | None => table PrescriptionsTable (_generate_sample_prescriptions_data w).1
    end.
Proof.
  unfold extract_prescriptions_data, source_text.
  rewrite bind_run. cbn [logger]. cbv beta iota.
  rewrite bind_run. rewrite bind_run. cbn [get_files files]. cbv beta iota.
  cbn [mret M_ret ret_M]. cbv beta iota.
  destruct (source_of (files w) file_path) as [text|].
  - rewrite !bind_run. unfold lift_result.
    destruct (read_csv_prescriptions text) as [df|e]; cbv beta iota; reflexivity.
  - rewrite !bind_run.
    match goal with
    | |- context [_generate_sample_prescriptions_data ?w'] =>
        destruct (generate_sample_prescriptions_seeded w' w) as [Hsame _];
        destruct (_generate_sample_prescriptions_data w') as [[df|e] w'']
    end; cbn [fst] in Hsame; rewrite <- Hsame; reflexivity.
Qed.



End ExtractorProperties.



(** The scenario of a failing prescriptions load: the other three entities
    are loaded, all four loads are attempted, the result is false, and the
    provider metrics are not updated. *)
Lemma load_all_data_with_a_failing_prescriptions_load :
  let run := @HealthcareDataLoader.load_all_data unit warehouse
               (engine_failing_on "prescriptions") world_to_load in
  run.1 = Ok false
  /\ started "load" (log run.2) = [Patients; Providers; Claims; Prescriptions]
  /\ row_counts (db run.2) !! "patients"%string = Some 3%nat
  /\ row_counts (db run.2) !! "claims"%string = Some 3%nat
  /\ row_counts (db run.2) !! "prescriptions"%string = None
  /\ Info "Updating provider performance metrics..." ∉ log run.2.
Proof.
  vm_compute. repeat split. intros Hin.
  repeat (apply elem_of_cons in Hin as [Hin|Hin]; [discriminate|]).
  inversion Hin.
Qed.

(** With every write working, the result is true and the metrics are
    updated after the fourth load. *)
Lemma load_all_data_with_every_load_working :
  let run := @HealthcareDataLoader.load_all_data unit warehouse
               (engine_failing_on "none") world_to_load in
  run.1 = Ok true
  /\ started "load" (log run.2) = [Patients; Providers; Claims; Prescriptions]
  /\ row_counts (db run.2) !! "prescriptions"%string = Some 2%nat
  /\ Info "Updating provider performance metrics..." ∈ log run.2.
Proof.
  vm_compute. repeat split. apply list_elem_of_In. simpl. tauto.
Qed.

(** ** The rows behind the frames *)

Section FramesAndRows.

Context {G DB : Type}.
Variable parse_number : string -> option float64.
Variable parse_date : string -> option Z.

Lemma require_columns_run (present : gset string) (cols : list string) (w : world G DB) :
  require_columns present cols w = ((require_columns present cols w).1, w).
Proof.
  induction cols as [|c cols IH]; simpl; [reflexivity|].
  case_bool_decide; [exact IH|reflexivity].
Qed.

(** A [bind] whose first computation is a column check. *)
Lemma bind_require_columns {A} (present : gset string) (cols : list string)
    (k : unit -> M G DB A) (w : world G DB) :
  (require_columns present cols ≫= k) w
  = match (require_columns present cols w).1 with
    | Ok a => k a w
    | Raise e => (Raise e, w)
    end.
Proof. rewrite bind_run, require_columns_run. reflexivity. Qed.

(** When [transform_claims_data] returns, the rows of its frame are the
    rows of the bronze frame, cleaned and engineered, and the frame is the
    silver artifact of the claims. *)
Lemma transform_claims_data_rows (w : world G DB) (df : frame Claim.silver) :
  (transform_claims_data parse_number parse_date w).1 = Ok df ->
  exists raw, claims (bronze w) = Some raw
              /\ rows df = transform_claims_rows parse_number parse_date (rows raw)
              /\ claims (silver (transform_claims_data parse_number parse_date w).2)
                 = Some df.
Proof.
  unfold transform_claims_data.
  rewrite bind_run. cbn [logger]. cbv beta iota.
  rewrite bind_run. cbn [get_bronze bronze]. cbv beta iota.
  destruct (claims (bronze w)) as [raw|]; [|discriminate].
  rewrite bind_run. cbn [load_parquet_with_metadata mret M_ret ret_M]. cbv beta iota.
  unfold clean_claims_frame. rewrite bind_run, bind_require_columns.
  destruct (require_columns _ _ _).1; [|discriminate].
  cbn [mret M_ret ret_M]. cbv beta iota.
  unfold engineer_claims_frame. rewrite bind_run, bind_require_columns.
  destruct (require_columns _ _ _).1; [|discriminate].
  cbn [mret M_ret ret_M columns rows attrs]. cbv beta iota.
  unfold _validate_claims_data. rewrite bind_run. cbv zeta.
  destruct (negb (validate_dataframe _ _)); [discriminate|].
  destruct (existsb _ _), (existsb _ _); simpl;
    intros [= <-]; exists raw; repeat split; reflexivity.
Qed.

Lemma transform_prescriptions_data_rows (w : world G DB) (df : frame Rx.silver) :
  (transform_prescriptions_data parse_number parse_date w).1 = Ok df ->
  exists raw, prescriptions (bronze w) = Some raw
              /\ rows df = transform_prescriptions_rows parse_number parse_date (rows raw)
              /\ prescriptions
                   (silver (transform_prescriptions_data parse_number parse_date w).2)
                 = Some df.
Proof.
  unfold transform_prescriptions_data.
  rewrite bind_run. cbn [logger]. cbv beta iota.
  rewrite bind_run. cbn [get_bronze bronze]. cbv beta iota.
  destruct (prescriptions (bronze w)) as [raw|]; [|discriminate].
  rewrite bind_run. cbn [load_parquet_with_metadata mret M_ret ret_M]. cbv beta iota.
  unfold clean_prescriptions_frame. rewrite bind_run, bind_require_columns.
  destruct (require_columns _ _ _).1; [|discriminate].
  cbn [mret M_ret ret_M]. cbv beta iota.
  unfold engineer_prescriptions_frame. rewrite bind_run, bind_require_columns.
  destruct (require_columns _ _ _).1; [|discriminate].
  cbn [mret M_ret ret_M columns rows attrs]. cbv beta iota.
  unfold _validate_prescriptions_data. rewrite bind_run. cbv zeta.
  destruct (negb (validate_dataframe _ _)); [discriminate|].
  simpl. intros [= <-]. exists raw. repeat split; reflexivity.
Qed.

Lemma transform_patients_data_rows (w : world G DB) (df : frame Patient.silver) :
  (transform_patients_data parse_number parse_date w).1 = Ok df ->
  exists raw, patients (bronze w) = Some raw
              /\ rows df
                 = transform_patients_rows parse_number parse_date (clock w) (rows raw)
              /\ patients (silver (transform_patients_data parse_number parse_date w).2)
                 = Some df.
Proof.
  unfold transform_patients_data.
  rewrite bind_run. cbn [logger]. cbv beta iota.
  rewrite bind_run. cbn [get_bronze bronze]. cbv beta iota.
  destruct (patients (bronze w)) as [raw|]; [|discriminate].
  rewrite bind_run. cbn [load_parquet_with_metadata mret M_ret ret_M]. cbv beta iota.
  unfold clean_patients_frame. rewrite bind_run, bind_require_columns.
  destruct (require_columns _ _ _).1; [|discriminate].
  cbn [mret M_ret ret_M]. cbv beta iota.
  unfold engineer_patients_frame. rewrite bind_run, bind_require_columns.
  destruct (require_columns _ _ _).1; [|discriminate].
  rewrite bind_run. cbn [datetime_now clock]. cbv beta iota.
  rewrite bind_require_columns.
  destruct (require_columns _ _ _).1; [|discriminate].
  cbn [mret M_ret ret_M columns rows attrs]. cbv beta iota.
  unfold _validate_patients_data. rewrite bind_run. cbv zeta.
  destruct (negb (validate_dataframe _ _)); [discriminate|].
  destruct (existsb _ _ || existsb _ _); simpl;
    intros [= <-]; exists raw; repeat split; reflexivity.
Qed.

End FramesAndRows.

(** ** The buckets on the rows of the transforms *)

Section BucketsOnRows.

Variable parse_number : string -> option float64.
Variable parse_date : string -> option Z.

(** X1.  The length of stay of a row of the claims transform lies between 0
    and 365; its [los_category] is Same Day from above 0 to 1, Short from above 1
    to 3, Medium from above 3 to 7, Long above 7, and null at 0. *)
Theorem los_category_of_transformed_claims (df : list (Claim.row (raw float64) (raw Z))) r :
  r ∈ transform_claims_rows parse_number parse_date df ->
  exists l, Claim.length_of_stay (Claim.base r) = Fin l
            /\ (0 <= l)%Q /\ (l <= 365)%Q
            /\ Claim.los_category r
               = if Qle_bool l 0 then None
                 else if Qle_bool l 1 then Some Claim.SameDay
                 else if Qle_bool l 3 then Some Claim.Short
                 else if Qle_bool l 7 then Some Claim.Medium
                 else Some Claim.Long.
Proof.
  intros (b & (x & _ & -> & Hacc)%elem_of_clean & ->)%elem_of_transform_claims_rows.
  destruct (acceptable_bounds _ Hacc) as (_ & _ & l & El & Hl0 & Hl365).
  exists l. cbn [Claim.base Claim.los_category]. unfold los_category_of.
  rewrite El. repeat split; try assumption. apply los_category_buckets.
Qed.

(** The age of a row of the patients transform lies between 0 and 120; its
    [age_category] is the one bucket among (0,18], (18,35], (35,50], (50,65]
    and (65,100] that holds the age, and null at 0 and above 100. *)
Lemma age_category_of_transformed_patients_rows (current_date : Z)
    (df : list (Patient.row (raw float64) (raw Z))) r :
  r ∈ transform_patients_rows parse_number parse_date current_date df ->
  exists a, Patient.age (Patient.base r) = Fin a
            /\ (0 <= a)%Q /\ (a <= 120)%Q
            /\ Patient.age_category r
               = if Qle_bool a 0 then None
                 else if Qle_bool a 18 then Some Patient.Pediatric
                 else if Qle_bool a 35 then Some Patient.YoungAdult
                 else if Qle_bool a 50 then Some Patient.Adult
                 else if Qle_bool a 65 then Some Patient.MiddleAge
                 else if Qle_bool a 100 then Some Patient.Senior
                 else None.
Proof.
  unfold transform_patients_rows, _engineer_patients_features, _clean_patients_data.
  cbv zeta. intros (b & -> & Hb)%list_elem_of_fmap.
  apply list_elem_of_filter in Hb as [Hage (x & -> & _)%list_elem_of_fmap].
  apply Is_true_true in Hage. unfold age_is_reasonable in Hage.
  apply andb_true_iff in Hage as [Hlo Hhi].
  destruct (fle_Fin _ _ Hhi) as [Hinf|(a & Ea & Ha120)];
    [rewrite Hinf in Hlo; discriminate|].
  exists a. cbn [Patient.base Patient.age_category]. unfold age_category_of.
  rewrite Ea in *. repeat split; try assumption.
  - now apply Qle_bool_iff in Hlo.
  - apply age_category_buckets.
Qed.

(** X2.  The age of a row of the patients transform lies between 0 and 120;
    its [age_category] is the one bucket among (0,18], (18,35], (35,50],
    (50,65] and (65,100] that holds the age, and null at 0 and above 100. *)
Theorem age_category_of_transformed_patients (current_date : Z)
    (df : list (Patient.row (raw float64) (raw Z))) r :
  r ∈ transform_patients_rows parse_number parse_date current_date df ->
  exists a, Patient.age (Patient.base r) = Fin a
            /\ (0 <= a)%Q /\ (a <= 120)%Q
            /\ Patient.age_category r
               = if Qle_bool a 0 then None
                 else if Qle_bool a 18 then Some Patient.Pediatric
                 else if Qle_bool a 35 then Some Patient.YoungAdult
                 else if Qle_bool a 50 then Some Patient.Adult
                 else if Qle_bool a 65 then Some Patient.MiddleAge
                 else if Qle_bool a 100 then Some Patient.Senior
                 else None.
Proof. apply age_category_of_transformed_patients_rows. Qed.

(** C2, on the ages the buckets cover.  Every row of the patients transform
    whose age is above 0 and at most 100 gets exactly one [age_category]:
    Pediatric on (0,18], Young Adult on (18,35], Adult on (35,50], Middle Age
    on (50,65] and Senior on (65,100]. *)
Theorem age_category_is_total_on_0_to_100 (current_date : Z)
    (df : list (Patient.row (raw float64) (raw Z))) r :
  r ∈ transform_patients_rows parse_number parse_date current_date df ->
  exists a, Patient.age (Patient.base r) = Fin a
            /\ ((0 < a)%Q -> (a <= 100)%Q ->
                Patient.age_category r
                = Some (if Qle_bool a 18 then Patient.Pediatric
                        else if Qle_bool a 35 then Patient.YoungAdult
                        else if Qle_bool a 50 then Patient.Adult
                        else if Qle_bool a 65 then Patient.MiddleAge
                        else Patient.Senior)).
Proof.
  intros Hr.
  destruct (age_category_of_transformed_patients_rows current_date df r Hr)
    as (a & Ea & _ & _ & Hcat).
  exists a. split; [exact Ea|]. intros Hpos Hle. rewrite Hcat.
  destruct (Qle_bool a 0) eqn:E0; [apply Qle_bool_iff in E0; lra|].
  destruct (Qle_bool a 100) eqn:E100;
    [|apply Qle_bool_false in E100; lra].
  now destruct (Qle_bool a 18), (Qle_bool a 35), (Qle_bool a 50), (Qle_bool a 65).
Qed.

End BucketsOnRows.

(** The sample claim with a stay of 0 days: within the bounds of the
    cleaning step, and without a category. *)
Lemma los_category_of_transformed_claims_witness :
  exists l, Claim.length_of_stay (Claim.base (silver_claim claim_same_day)) = Fin l
            /\ (0 <= l)%Q /\ (l <= 365)%Q
            /\ Claim.los_category (silver_claim claim_same_day)
               = if Qle_bool l 0 then None
                 else if Qle_bool l 1 then Some Claim.SameDay
                 else if Qle_bool l 3 then Some Claim.Short
                 else if Qle_bool l 7 then Some Claim.Medium
                 else Some Claim.Long.
Proof.
  apply (los_category_of_transformed_claims no_number no_date bronze_claims).
  vm_compute. repeat constructor.
Defined.

(** The sample patient of 40: an Adult. *)
Lemma age_category_of_transformed_patients_witness :
  exists r, r ∈ transform_patients_rows no_number no_date (day 19800) bronze_patients
            /\ Patient.age (Patient.base r) = Fin 40
            /\ Patient.age_category r = Some Patient.Adult.
Proof.
  pose (r := nth 2 (transform_patients_rows no_number no_date (day 19800) bronze_patients)
               (Patient.Silver (coerce_patient no_number no_date patient_of_40)
                  None None None Patient.Dormant)).
  assert (Hr : r ∈ transform_patients_rows no_number no_date (day 19800) bronze_patients)
    by (vm_compute; repeat constructor).
  destruct (age_category_of_transformed_patients no_number no_date (day 19800)
              bronze_patients r Hr) as (a & Ea & _ & _ & Hcat).
  exists r. split; [exact Hr|]. split; [reflexivity|].
  rewrite Hcat. vm_compute in Ea. injection Ea as <-. reflexivity.
Defined.

(** Without the medications table both sample prescriptions are kept, with
    the identifier 0. *)
Lemma add_medication_ids_without_table_witness :
  HealthcareDataLoader.medication_id
    <$> match (@HealthcareDataLoader._add_medication_ids unit warehouse
                 engine_without_medications
                 (transform_prescriptions_rows no_number no_date bronze_prescriptions)
                 world_at_warehouse).1 with
        | Ok df' => df'
        | Raise _ => []
        end
  = [Some 0; Some 0].
Proof.
  destruct (add_medication_ids_without_table (H := engine_without_medications)
              (transform_prescriptions_rows no_number no_date bronze_prescriptions)
              world_at_warehouse
              (SQLAlchemyError "relation healthcare.medications does not exist")
              warehouse_with_medications eq_refl) as [-> _].
  reflexivity.
Defined.

(** The sample patient of 40 years is an Adult. *)
Lemma age_category_is_total_on_0_to_100_witness :
  exists r, r ∈ transform_patients_rows no_number no_date (day 19800) bronze_patients
            /\ Patient.age (Patient.base r) = Fin 40
            /\ Patient.age_category r = Some Patient.Adult.
Proof.
  pose (r := nth 2 (transform_patients_rows no_number no_date (day 19800) bronze_patients)
               (Patient.Silver (coerce_patient no_number no_date patient_of_40)
                  None None None Patient.Dormant)).
  assert (Hr : r ∈ transform_patients_rows no_number no_date (day 19800) bronze_patients)
    by (vm_compute; repeat constructor).
  destruct (age_category_is_total_on_0_to_100 no_number no_date (day 19800)
              bronze_patients r Hr) as (a & Ea & Hcat).
  exists r. split; [exact Hr|]. split; [reflexivity|].
  vm_compute in Ea. injection Ea as <-. apply Hcat; lra.
Defined.

(* ===================================================================== *)
(** ** Text cells: diagnosis codes and genders *)
(* ===================================================================== *)

Section TextCells.

(** The characters [clean_icd_code] keeps, and the characters of a cleaned
    code: upper-case letters, digits and the dot. *)
Local Abbreviation keep := (fun c => Str.isalnum c || Ascii.eqb c dot).
Local Abbreviation icd_char := (fun c => Str.is_upper c || Str.is_digit c || Ascii.eqb c dot).
Local Abbreviation not_lower := (fun c => negb (Str.is_lower c)).

Lemma is_lower_upper_char (c : ascii) : Str.is_lower (Str.upper_char c) = false.
Proof. destruct c as [[] [] [] [] [] [] [] []]; reflexivity. Qed.

Lemma upper_char_idempotent (c : ascii) :
  Str.upper_char (Str.upper_char c) = Str.upper_char c.
Proof. unfold Str.upper_char at 1. now rewrite is_lower_upper_char. Qed.

Lemma upper_idempotent (s : string) : Str.upper (Str.upper s) = Str.upper s.
Proof.
  unfold Str.upper.
  induction s as [|c s IH]; cbn [Str.map_chars]; [reflexivity|].
  now rewrite upper_char_idempotent, IH.
Qed.

Lemma icd_char_not_lower (c : ascii) : icd_char c = true -> Str.is_lower c = false.
Proof. destruct c as [[] [] [] [] [] [] [] []]; vm_compute; congruence. Qed.

Lemma icd_char_not_space (c : ascii) : icd_char c = true -> Str.isspace c = false.
Proof. destruct c as [[] [] [] [] [] [] [] []]; vm_compute; congruence. Qed.

Lemma icd_char_kept (c : ascii) : icd_char c = true -> keep c = true.
Proof.
  unfold Str.isalnum, Str.isalpha.
  destruct (Str.is_lower c), (Str.is_upper c), (Str.is_digit c), (Ascii.eqb c dot);
    simpl; congruence.
Qed.

Lemma kept_not_lower_icd_char (c : ascii) :
  not_lower c = true -> keep c = true -> icd_char c = true.
Proof.
  unfold Str.isalnum, Str.isalpha.
  destruct (Str.is_lower c), (Str.is_upper c), (Str.is_digit c), (Ascii.eqb c dot);
    simpl; congruence.
Qed.

Lemma forallb_chars_upper (s : string) :
  Str.forallb_chars not_lower (Str.upper s) = true.
Proof.
  unfold Str.upper.
  induction s as [|c s IH]; cbn [Str.map_chars Str.forallb_chars]; [reflexivity|].
  now rewrite is_lower_upper_char, IH.
Qed.

Lemma forallb_chars_lstrip (p : ascii -> bool) (s : string) :
  Str.forallb_chars p s = true -> Str.forallb_chars p (Str.lstrip s) = true.
Proof.
  induction s as [|c s IH]; cbn [Str.lstrip]; [easy|].
  destruct (Str.isspace c); [|easy].
  cbn [Str.forallb_chars]. intros [_ Hs]%andb_true_iff. now apply IH.
Qed.

Lemma forallb_chars_rstrip (p : ascii -> bool) (s : string) :
  Str.forallb_chars p s = true -> Str.forallb_chars p (Str.rstrip s) = true.
Proof.
  induction s as [|c s IH]; cbn [Str.rstrip]; [easy|].
  cbn [Str.forallb_chars]. intros [Hc Hs]%andb_true_iff.
  specialize (IH Hs).
  destruct (Str.rstrip s) as [|d t].
  - destruct (Str.isspace c); cbn [Str.forallb_chars]; [reflexivity|].
    now rewrite Hc.
  - cbn [Str.forallb_chars] in *. now rewrite Hc, IH.
Qed.

Lemma forallb_chars_filter (s : string) :
  Str.forallb_chars not_lower s = true ->
  Str.forallb_chars icd_char (Str.filter_chars keep s) = true.
Proof.
  induction s as [|c s IH]; cbn [Str.filter_chars Str.forallb_chars]; [easy|].
  intros [Hc Hs]%andb_true_iff.
  destruct (keep c) eqn:Hk; [|now apply IH].
  cbn [Str.forallb_chars].
  rewrite (kept_not_lower_icd_char c Hc Hk). now apply IH.
Qed.

Lemma forallb_chars_substring (p : ascii -> bool) (s : string) :
  forall n m, Str.forallb_chars p s = true ->
              Str.forallb_chars p (substring n m s) = true.
Proof.
  induction s as [|c s IH]; intros [|n] [|m]; cbn [substring Str.forallb_chars];
    try easy.
  - intros [Hc Hs]%andb_true_iff. now rewrite Hc, IH.
  - intros [_ Hs]%andb_true_iff. now apply IH.
  - intros [_ Hs]%andb_true_iff. now apply IH.
Qed.

Lemma append_String (c : ascii) (a b : string) :
  (String c a ++ b)%string = String c (a ++ b).
Proof. reflexivity. Qed.

Lemma forallb_chars_app (p : ascii -> bool) (a b : string) :
  Str.forallb_chars p (a ++ b)
  = Str.forallb_chars p a && Str.forallb_chars p b.
Proof.
  induction a as [|c a IH]; simpl; [reflexivity|].
  now rewrite IH, andb_assoc.
Qed.

Lemma existsb_chars_app (p : ascii -> bool) (a b : string) :
  Str.existsb_chars p (a ++ b)
  = Str.existsb_chars p a || Str.existsb_chars p b.
Proof.
  induction a as [|c a IH]; simpl; [reflexivity|].
  now rewrite IH, orb_assoc.
Qed.

(** A text of upper-case letters, digits and dots is left as it is by the
    three normalising steps of [clean_icd_code]. *)
Lemma upper_fixed (s : string) :
  Str.forallb_chars icd_char s = true -> Str.upper s = s.
Proof.
  unfold Str.upper.
  induction s as [|c s IH]; cbn [Str.map_chars Str.forallb_chars]; [easy|].
  intros [Hc Hs]%andb_true_iff.
  rewrite (IH Hs). unfold Str.upper_char. now rewrite (icd_char_not_lower c Hc).
Qed.

Lemma lstrip_fixed (s : string) :
  Str.forallb_chars icd_char s = true -> Str.lstrip s = s.
Proof.
  destruct s as [|c s]; cbn [Str.lstrip Str.forallb_chars]; [easy|].
  intros [Hc _]%andb_true_iff. now rewrite (icd_char_not_space c Hc).
Qed.

Lemma rstrip_fixed (s : string) :
  Str.forallb_chars icd_char s = true -> Str.rstrip s = s.
Proof.
  induction s as [|c s IH]; cbn [Str.rstrip Str.forallb_chars]; [easy|].
  intros [Hc Hs]%andb_true_iff. rewrite (IH Hs).
  destruct s; [|reflexivity].
  now rewrite (icd_char_not_space c Hc).
Qed.

Lemma filter_chars_fixed (s : string) :
  Str.forallb_chars icd_char s = true -> Str.filter_chars keep s = s.
Proof.
  induction s as [|c s IH]; cbn [Str.filter_chars Str.forallb_chars]; [easy|].
  intros [Hc Hs]%andb_true_iff.
  now rewrite (icd_char_kept c Hc), (IH Hs).
Qed.

Lemma normalised_icd_chars (code : string) :
  Str.forallb_chars icd_char (Str.filter_chars keep (Str.strip (Str.upper code))) = true.
Proof.
  apply forallb_chars_filter. unfold Str.strip.
  apply forallb_chars_rstrip, forallb_chars_lstrip, forallb_chars_upper.
Qed.

Lemma normalise_fixed (s : string) :
  Str.forallb_chars icd_char s = true ->
  Str.filter_chars keep (Str.strip (Str.upper s)) = s.
Proof.
  intros Hs. unfold Str.strip.
  now rewrite (upper_fixed s Hs), (lstrip_fixed s Hs), (rstrip_fixed s Hs),
    (filter_chars_fixed s Hs).
Qed.

Lemma insert_dot_icd_chars (s : string) :
  Str.forallb_chars icd_char s = true -> Str.forallb_chars icd_char (insert_dot s) = true.
Proof.
  intros Hs. unfold insert_dot. destruct s as [|c0 s']; [reflexivity|].
  destruct (Str.isalpha c0); [|exact Hs].
  destruct (negb _ && _); [|exact Hs].
  rewrite forallb_chars_app. cbn [Str.forallb_chars].
  unfold Str.prefix, Str.suffix.
  rewrite !forallb_chars_substring by exact Hs.
  rewrite Ascii.eqb_refl, orb_true_r. reflexivity.
Qed.

(** Whether the dot is inserted or not, a code that starts with a letter
    and is longer than three characters has one afterwards. *)
Lemma insert_dot_has_dot (s : string) :
  match insert_dot s with
  | String c0 _ =>
      Str.isalpha c0 = true -> (3 < String.length (insert_dot s))%nat ->
      Str.contains_char dot (insert_dot s) = true
  | EmptyString => True
  end.
Proof.
  unfold insert_dot. destruct s as [|c0 s']; [exact I|].
  destruct (Str.isalpha c0) eqn:Ha.
  - destruct (negb (Str.contains_char dot (String c0 s'))
              && (3 <? String.length (String c0 s'))%nat) eqn:Hc.
    + apply andb_true_iff in Hc as [_ Hl%Nat.ltb_lt].
      destruct s' as [|c1 [|c2 [|c3 t]]]; cbn [String.length] in Hl; try lia.
      intros _ _. unfold Str.contains_char.
      rewrite existsb_chars_app. cbn [Str.existsb_chars].
      now rewrite Ascii.eqb_refl, orb_true_l, orb_true_r.
    + intros _ Hl. apply andb_false_iff in Hc as [Hc|Hc].
      * now apply negb_false_iff in Hc.
      * apply Nat.ltb_ge in Hc. lia.
  - rewrite Ha. discriminate.
Qed.

Lemma insert_dot_idempotent (s : string) : insert_dot (insert_dot s) = insert_dot s.
Proof.
  unfold insert_dot. destruct s as [|c0 s']; [reflexivity|].
  destruct (Str.isalpha c0) eqn:Ha; [|now rewrite Ha].
  destruct (negb (Str.contains_char dot (String c0 s'))
            && (3 <? String.length (String c0 s'))%nat) eqn:Hc;
    [|now rewrite Ha, Hc].
  apply andb_true_iff in Hc as [_ Hl%Nat.ltb_lt].
  destruct s' as [|c1 [|c2 [|c3 t]]]; cbn [String.length] in Hl; try lia.
  unfold Str.prefix. cbn [substring]. rewrite !append_String. cbn iota.
  rewrite Ha.
  replace (Str.contains_char dot _) with true; [reflexivity|].
  unfold Str.contains_char. rewrite <- !append_String, existsb_chars_app.
  cbn [Str.existsb_chars].
  now rewrite Ascii.eqb_refl, orb_true_l, orb_true_r.
Qed.

Lemma clean_icd_code_Some (code : string) :
  clean_icd_code (Some code)
  = Some (insert_dot (Str.filter_chars keep (Str.strip (Str.upper code)))).
Proof. reflexivity. Qed.

(** X4.  The format of a cleaned diagnosis code.  On ASCII text,
    [clean_icd_code] returns null for a null code only; a cleaned code is
    made of upper-case letters, digits and dots, and when it starts with a
    letter and has more than three characters it holds a dot. *)
Theorem clean_icd_code_format (code : option string) :
  match clean_icd_code code with
  | None => code = None
  | Some s =>
      code <> None
      /\ Str.forallb_chars
           (fun c => Str.is_upper c || Str.is_digit c || Ascii.eqb c dot) s = true
      /\ match s with
         | String c0 _ =>
             Str.isalpha c0 = true -> (3 < String.length s)%nat ->
             Str.contains_char dot s = true
         | EmptyString => True
         end
  end.
Proof.
  destruct code as [code|]; [|reflexivity].
  rewrite clean_icd_code_Some.
  split; [discriminate|]. split.
  - apply insert_dot_icd_chars, normalised_icd_chars.
  - apply insert_dot_has_dot.
Qed.

(** X5.  Cleaning a diagnosis code twice is cleaning it once. *)
Theorem clean_icd_code_idempotent (code : option string) :
  clean_icd_code (clean_icd_code code) = clean_icd_code code.
Proof.
  destruct code as [code|]; [|reflexivity].
  rewrite !clean_icd_code_Some. f_equal.
  set (x := Str.filter_chars _ (Str.strip (Str.upper code))).
  assert (Hx : Str.forallb_chars icd_char x = true) by apply normalised_icd_chars.
  rewrite (normalise_fixed _ (insert_dot_icd_chars x Hx)).
  apply insert_dot_idempotent.
Qed.

Lemma gender_map_values (k v : string) :
  gender_map !! k = Some v ->
  (v = "Male"%string /\ k ∈ ["M"; "MALE"; "1"]%string)
  \/ (v = "Female"%string /\ k ∈ ["F"; "FEMALE"; "0"]%string).
Proof.
  unfold gender_map. rewrite !lookup_insert_Some, lookup_empty.
  intros Hk.
  repeat match goal with
    | H : _ \/ _ |- _ => destruct H
    | H : _ /\ _ |- _ => destruct H
    end; subst; try discriminate;
    (left + right); (split; [reflexivity|]);
    apply list_elem_of_In; simpl; tauto.
Qed.

Lemma standardize_gender_range (gender : option string) :
  standardize_gender gender ∈ ["Male"; "Female"; "Unknown"]%string.
Proof.
  destruct gender as [g|]; cbn [standardize_gender];
    [|apply list_elem_of_In; simpl; tauto].
  destruct (gender_map !! Str.upper g) as [v|] eqn:E; cbn [default from_option id];
    [|apply list_elem_of_In; simpl; tauto].
  apply gender_map_values in E as [[-> _]|[-> _]]; apply list_elem_of_In; simpl; tauto.
Qed.

(** X6.  [standardize_gender] has three values, Male, Female and Unknown, and
    ignores the case of its argument: it is Male exactly for the values
    that read M, MALE or 1 once raised, and Female exactly for F, FEMALE or
    0. *)
Theorem standardize_gender_values (gender : option string) :
  standardize_gender gender ∈ ["Male"; "Female"; "Unknown"]%string
  /\ standardize_gender (Str.upper <$> gender) = standardize_gender gender
  /\ (standardize_gender gender = "Male"%string <->
      exists g, gender = Some g /\ Str.upper g ∈ ["M"; "MALE"; "1"]%string)
  /\ (standardize_gender gender = "Female"%string <->
      exists g, gender = Some g /\ Str.upper g ∈ ["F"; "FEMALE"; "0"]%string).
Proof.
  repeat split.
  - apply standardize_gender_range.
  - destruct gender as [g|]; cbn [standardize_gender fmap option_fmap option_map];
      [|reflexivity].
    now rewrite upper_idempotent.
  - destruct gender as [g|]; cbn [standardize_gender]; [|discriminate].
    destruct (gender_map !! Str.upper g) as [v|] eqn:E; cbn [default from_option id];
      [|discriminate].
    intros ->. exists g. split; [reflexivity|].
    apply gender_map_values in E as [[_ Hk]|[[=] _]]. exact Hk.
  - intros (g & -> & Hk). cbn [standardize_gender].
    apply list_elem_of_In in Hk. simpl in Hk.
    repeat destruct Hk as [<-|Hk]; try reflexivity; contradiction.
  - destruct gender as [g|]; cbn [standardize_gender]; [|discriminate].
    destruct (gender_map !! Str.upper g) as [v|] eqn:E; cbn [default from_option id];
      [|discriminate].
    intros ->. exists g. split; [reflexivity|].
    apply gender_map_values in E as [[[=] _]|[_ Hk]]. exact Hk.
  - intros (g & -> & Hk). cbn [standardize_gender].
    apply list_elem_of_In in Hk. simpl in Hk.
    repeat destruct Hk as [<-|Hk]; try reflexivity; contradiction.
Qed.

End TextCells.

(* ===================================================================== *)
(** ** The adherence calculation on any input *)
(* ===================================================================== *)

(** X7.  Whatever the two cells hold, [calculate_medication_adherence] returns
    a number from 0 to 1 and never a null: a null on either side counts as
    0, and so do days prescribed without an end, whatever the days
    supplied. *)
Theorem medication_adherence_is_a_rate (days_supplied days_prescribed : float64) :
  (exists a, calculate_medication_adherence days_supplied days_prescribed = Fin a
             /\ (0 <= a)%Q /\ (a <= 1)%Q)
  /\ (isna days_supplied || isna days_prescribed = true ->
      calculate_medication_adherence days_supplied days_prescribed = Fin 0)
  /\ (days_prescribed = PosInf \/ days_prescribed = NegInf ->
      calculate_medication_adherence days_supplied days_prescribed = Fin 0).
Proof.
  unfold calculate_medication_adherence. repeat split.
  - apply clip_unit_interval. unfold fillna.
    destruct (isna (fdiv _ _)) eqn:E; [reflexivity|exact E].
  - destruct days_supplied, days_prescribed; try discriminate; reflexivity.
  - intros [->| ->]; destruct days_supplied; reflexivity.
Qed.

(* ===================================================================== *)
(** ** Duplicates: the first row of every key *)
(* ===================================================================== *)

Section Duplicates.

Context {A K : Type} `{EqDecision K}.
Variable key : A -> K.

(** The rows that [drop_duplicates] keeps are the rows no earlier row
    shares its key with. *)
Lemma elem_of_drop_duplicates_from (df : list A) :
  forall seen x,
    x ∈ drop_duplicates_from key seen df <->
    exists i, df !! i = Some x /\ (key x ∉ seen)
              /\ forall j y, (j < i)%nat -> df !! j = Some y -> key y <> key x.
Proof.
  induction df as [|r rest IH]; intros seen x; cbn [drop_duplicates_from].
  - split; [intros Hx; inversion Hx|intros (i & Hi & _); discriminate].
  - case_bool_decide as Hr.
    + rewrite IH. split.
      * intros (i & Hi & Hx & Hfirst). exists (S i). repeat split; [exact Hi|exact Hx|].
        intros [|j] y Hj; cbn [lookup list_lookup].
        -- intros [= <-] E. rewrite E in Hr. contradiction.
        -- apply Hfirst. lia.
      * intros ([|i] & Hi & Hx & Hfirst); cbn [lookup list_lookup] in Hi.
        -- injection Hi as <-. contradiction.
        -- exists i. repeat split; [exact Hi|exact Hx|].
           intros j y Hj Hy. apply (Hfirst (S j) y); [lia|exact Hy].
    + rewrite elem_of_cons, IH. split.
      * intros [->|(i & Hi & Hx & Hfirst)].
        -- exists 0%nat. repeat split; [exact Hr|]. intros j y Hj. lia.
        -- exists (S i). apply not_elem_of_cons in Hx as [Hne Hx].
           repeat split; [exact Hi|exact Hx|].
           intros [|j] y Hj; cbn [lookup list_lookup].
           ++ intros [= <-] E. congruence.
           ++ apply Hfirst. lia.
      * intros ([|i] & Hi & Hx & Hfirst); cbn [lookup list_lookup] in Hi.
        -- injection Hi as <-. now left.
        -- right. exists i. repeat split; [exact Hi| |].
           ++ apply not_elem_of_cons. split; [|exact Hx].
              intros E. apply (Hfirst 0%nat r); [lia|reflexivity|now symmetry].
           ++ intros j y Hj Hy. apply (Hfirst (S j) y); [lia|exact Hy].
Qed.

Lemma elem_of_drop_duplicates_first (df : list A) (x : A) :
  x ∈ drop_duplicates key df <->
  exists i, df !! i = Some x
            /\ forall j y, (j < i)%nat -> df !! j = Some y -> key y <> key x.
Proof.
  unfold drop_duplicates. rewrite elem_of_drop_duplicates_from. split.
  - intros (i & Hi & _ & Hfirst). eauto.
  - intros (i & Hi & Hfirst). exists i. repeat split; [exact Hi| |exact Hfirst].
    apply not_elem_of_nil.
Qed.

Lemma NoDup_drop_duplicates_from (df : list A) :
  forall seen, NoDup (key <$> drop_duplicates_from key seen df).
Proof.
  induction df as [|r rest IH]; intros seen; cbn [drop_duplicates_from].
  - constructor.
  - case_bool_decide as Hr; [apply IH|].
    cbn [fmap list_fmap]. apply NoDup_cons. split; [|apply IH].
    intros (y & E & Hy)%list_elem_of_fmap.
    apply elem_of_drop_duplicates_from in Hy as (_ & _ & Hy & _).
    apply Hy. rewrite E. apply elem_of_cons. now left.
Qed.

Lemma NoDup_drop_duplicates (df : list A) : NoDup (key <$> drop_duplicates key df).
Proof. apply NoDup_drop_duplicates_from. Qed.

End Duplicates.

Lemma foldl_keep_positive_sublist (cols : list (Rx.row float64 (option Z) -> float64)) :
  forall df, foldl keep_positive df cols `sublist_of` df.
Proof.
  induction cols as [|col cols IH]; intros df; cbn [foldl]; [reflexivity|].
  etransitivity; [apply IH|]. apply sublist_filter.
Qed.

Section Identifiers.

Variable parse_number : string -> option float64.
Variable parse_date : string -> option Z.

(** X8.  No two rows of a cleaned frame share their identifier. *)
Theorem cleaned_ids_are_unique :
  (forall df, NoDup (Claim.claim_id <$> _clean_claims_data parse_number parse_date df))
  /\ (forall df,
        NoDup (Patient.patient_id <$> _clean_patients_data parse_number parse_date df))
  /\ (forall df, NoDup (Provider.provider_id <$> _clean_providers_data parse_number df))
  /\ (forall df,
        NoDup (Rx.prescription_id
                 <$> _clean_prescriptions_data parse_number parse_date df)).
Proof.
  repeat split; intros df.
  - unfold _clean_claims_data.
    eapply sublist_NoDup;
      [|apply fmap_sublist; etransitivity; apply sublist_filter].
    rewrite <- list_fmap_compose. apply (NoDup_drop_duplicates Claim.claim_id).
  - unfold _clean_patients_data.
    eapply sublist_NoDup; [|apply fmap_sublist, sublist_filter].
    rewrite <- list_fmap_compose. apply (NoDup_drop_duplicates Patient.patient_id).
  - unfold _clean_providers_data.
    eapply sublist_NoDup; [|apply fmap_sublist, sublist_filter].
    rewrite <- list_fmap_compose. apply (NoDup_drop_duplicates Provider.provider_id).
  - unfold _clean_prescriptions_data.
    eapply sublist_NoDup; [|apply fmap_sublist, foldl_keep_positive_sublist].
    rewrite <- list_fmap_compose. apply (NoDup_drop_duplicates Rx.prescription_id).
Qed.

(** X9.  Of the rows of a claim identifier only the first counts.  A cleaned
    claim is the coerced first row of its identifier, and that row has a
    positive cost and a stay of 0 to 365 days; a later row of the same
    identifier is never used, also when the first one is rejected. *)
Theorem clean_claims_keeps_first_occurrence (df : list (Claim.row (raw float64) (raw Z))) r :
  r ∈ _clean_claims_data parse_number parse_date df <->
  exists i x,
    df !! i = Some x
    /\ (forall j y, (j < i)%nat -> df !! j = Some y ->
                    Claim.claim_id y <> Claim.claim_id x)
    /\ r = coerce_claim parse_number parse_date x
    /\ acceptable r = true.
Proof.
  rewrite elem_of_clean. split.
  - intros (x & Hx & -> & Hacc).
    apply elem_of_drop_duplicates_first in Hx as (i & Hi & Hfirst).
    exists i, x. auto.
  - intros (i & x & Hi & Hfirst & -> & Hacc).
    exists x. repeat split; [|exact Hacc].
    apply elem_of_drop_duplicates_first. eauto.
Qed.

End Identifiers.

(* ===================================================================== *)
(** ** The other derived columns *)
(* ===================================================================== *)

Lemma cost_category_buckets (c : Q) :
  cut cost_bins cost_labels (Fin c)
  = if Qle_bool c 0 then None
    else if Qle_bool c 1000 then Some Claim.CostLow
    else if Qle_bool c 5000 then Some Claim.CostMedium
    else if Qle_bool c 15000 then Some Claim.CostHigh
    else Some Claim.CostVeryHigh.
Proof.
  unfold cut, searchsorted_left, cost_bins, cost_labels, inf.
  cbn [List.filter flt isna]. unfold Qlt_bool. bucket_cases.
Qed.

Lemma risk_level_buckets (c : Q) :
  cut risk_bins risk_labels (Fin c)
  = if Qle_bool c (-1) then None
    else if Qle_bool c 0 then Some Patient.RiskLow
    else if Qle_bool c 2 then Some Patient.RiskMedium
    else if Qle_bool c 4 then Some Patient.RiskHigh
    else Some Patient.RiskVeryHigh.
Proof.
  unfold cut, searchsorted_left, risk_bins, risk_labels, inf.
  cbn [List.filter flt isna]. unfold Qlt_bool. bucket_cases.
Qed.

Lemma hospital_size_buckets (b : Q) :
  cut size_bins size_labels (Fin b)
  = if Qle_bool b 0 then None
    else if Qle_bool b 100 then Some Provider.Small
    else if Qle_bool b 300 then Some Provider.MediumSize
    else if Qle_bool b 600 then Some Provider.Large
    else Some Provider.VeryLarge.
Proof.
  unfold cut, searchsorted_left, size_bins, size_labels, inf.
  cbn [List.filter flt isna]. unfold Qlt_bool. bucket_cases.
Qed.

Lemma round64_0_8 : round64 0.8 = Fin float_0_8.
Proof. vm_compute. reflexivity. Qed.

Lemma adherence_category_buckets (a : Q) :
  cut adherence_bins adherence_labels (Fin a)
  = if Qle_bool a 0 then None
    else if Qle_bool a 0.5 then Some Rx.Poor
    else if Qle_bool a float_0_8 then Some Rx.Fair
    else if Qle_bool a 1 then Some Rx.Good
    else None.
Proof.
  unfold cut, searchsorted_left, adherence_bins, adherence_labels.
  rewrite round64_0_8. unfold float_0_8.
  cbn [List.filter flt isna]. unfold Qlt_bool. bucket_cases.
Qed.

(** Four days supplied of five prescribed are a fair adherence: the quotient
    is rounded to the number that the literal [0.8] stands for. *)
Lemma adherence_of_4_days_in_5 :
  calculate_medication_adherence (Fin 4) (Fin 5) = round64 0.8
  /\ cut adherence_bins adherence_labels
       (calculate_medication_adherence (Fin 4) (Fin 5)) = Some Rx.Fair.
Proof. split; vm_compute; reflexivity. Qed.

Lemma length_substring_0 (n : nat) (s : string) :
  (String.length (substring 0 n s) <= n)%nat.
Proof.
  revert s. induction n as [|n IH]; intros [|c s]; cbn [substring String.length];
    try lia.
  specialize (IH s). lia.
Qed.

Section DerivedColumns.

Variable parse_number : string -> option float64.
Variable parse_date : string -> option Z.

(** X10.  Every row of the claims transform has a [cost_category]: its cost is
    above 0, and the category is Low up to 1000, Medium from above 1000 to
    5000, High from above 5000 to 15000 and Very High above 15000, an
    infinite cost included. *)
Theorem cost_category_of_transformed_claims (df : list (Claim.row (raw float64) (raw Z))) r :
  r ∈ transform_claims_rows parse_number parse_date df ->
  fgt (Claim.cost (Claim.base r)) (Fin 0) = true
  /\ Claim.cost_category r
     = Some match Claim.cost (Claim.base r) with
            | Fin c =>
                if Qle_bool c 1000 then Claim.CostLow
                else if Qle_bool c 5000 then Claim.CostMedium
                else if Qle_bool c 15000 then Claim.CostHigh
                else Claim.CostVeryHigh
            | _ => Claim.CostVeryHigh
            end.
Proof.
  intros (b & (x & _ & -> & Hacc)%elem_of_clean & ->)%elem_of_transform_claims_rows.
  destruct (acceptable_bounds _ Hacc) as (Hpos & Hc & _).
  cbn [Claim.base Claim.cost_category]. unfold cost_category_of.
  split; [exact Hpos|].
  destruct Hc as [->|(c & -> & Hc)]; [reflexivity|].
  rewrite cost_category_buckets.
  destruct (Qle_bool c 0) eqn:E0; [apply Qle_bool_iff in E0; lra|].
  now repeat destruct (Qle_bool c _).
Qed.

(** What the cleaning step leaves of a patient row. *)
Lemma elem_of_clean_patients (df : list (Patient.row (raw float64) (raw Z))) b :
  b ∈ _clean_patients_data parse_number parse_date df <->
  exists x, x ∈ drop_duplicates Patient.patient_id df
            /\ b = coerce_patient parse_number parse_date x
            /\ age_is_reasonable b = true.
Proof.
  unfold _clean_patients_data. cbv zeta.
  rewrite list_elem_of_filter, list_elem_of_fmap, Is_true_true. split.
  - intros (Hage & x & -> & Hx). eauto.
  - intros (x & Hx & -> & Hage). eauto.
Qed.

(** X11.  The invariants of a cleaned patients frame: an age from 0 to 120, a
    gender that is Male, Female or Unknown, a race and an insurance type
    that are not null, and a zip code of at most five characters. *)
Theorem clean_patients_invariants (df : list (Patient.row (raw float64) (raw Z))) b :
  b ∈ _clean_patients_data parse_number parse_date df ->
  (exists a, Patient.age b = Fin a /\ (0 <= a)%Q /\ (a <= 120)%Q)
  /\ Patient.gender b ∈ [Some "Male"; Some "Female"; Some "Unknown"]%string
  /\ is_Some (Patient.race b)
  /\ is_Some (Patient.insurance_type b)
  /\ (exists z, Patient.zip_code b = Some z /\ (String.length z <= 5)%nat).
Proof.
  intros (x & _ & -> & Hage)%elem_of_clean_patients.
  unfold age_is_reasonable in Hage. apply andb_true_iff in Hage as [Hlo Hhi].
  repeat split.
  - destruct (fle_Fin _ _ Hhi) as [Hinf|(a & Ea & Ha120)];
      [rewrite Hinf in Hlo; discriminate|].
    exists a. rewrite Ea in *. repeat split; try assumption.
    now apply Qle_bool_iff in Hlo.
  - cbn [coerce_patient Patient.gender].
    pose proof (standardize_gender_range (Patient.gender x)) as Hg.
    apply list_elem_of_In in Hg. simpl in Hg.
    apply list_elem_of_In. simpl.
    destruct Hg as [<-|[<-|[<-|[]]]]; tauto.
  - cbn [coerce_patient Patient.race]. unfold fill_unknown. eauto.
  - cbn [coerce_patient Patient.insurance_type]. unfold fill_unknown. eauto.
  - cbn [coerce_patient Patient.zip_code]. eexists. split; [reflexivity|].
    apply length_substring_0.
Qed.

Lemma elem_of_transform_patients_rows (current_date : Z)
    (df : list (Patient.row (raw float64) (raw Z))) r :
  r ∈ transform_patients_rows parse_number parse_date current_date df <->
  exists b, b ∈ _clean_patients_data parse_number parse_date df
            /\ r = Patient.Silver b (age_category_of b)
                     (cut risk_bins risk_labels (Patient.chronic_conditions b))
                     (dt_days (sub_datetime (Some current_date)
                                 (Patient.last_visit_date b)))
                     (patient_status_of
                        (dt_days (sub_datetime (Some current_date)
                                    (Patient.last_visit_date b)))).
Proof.
  unfold transform_patients_rows, _engineer_patients_features.
  rewrite list_elem_of_fmap. split; intros (b & H1 & H2); eauto.
Qed.

(** X12.  The [risk_level] of a row of the patients transform follows its
    count of chronic conditions: Low from above -1 to 0, Medium from above 0
    to 2, High from above 2 to 4, Very High above 4, so that every count
    that is not negative has a level; a null count, and a count of -1 or
    below, has none. *)
Theorem risk_level_of_transformed_patients (current_date : Z)
    (df : list (Patient.row (raw float64) (raw Z))) r :
  r ∈ transform_patients_rows parse_number parse_date current_date df ->
  match Patient.chronic_conditions (Patient.base r) with
  | Fin c =>
      Patient.risk_level r
      = (if Qle_bool c (-1) then None
         else if Qle_bool c 0 then Some Patient.RiskLow
         else if Qle_bool c 2 then Some Patient.RiskMedium
         else if Qle_bool c 4 then Some Patient.RiskHigh
         else Some Patient.RiskVeryHigh)
      /\ ((0 <= c)%Q -> is_Some (Patient.risk_level r))
  | NaN | NegInf => Patient.risk_level r = None
  | PosInf => Patient.risk_level r = Some Patient.RiskVeryHigh
  end.
Proof.
  intros (b & _ & ->)%elem_of_transform_patients_rows.
  cbn [Patient.base Patient.risk_level].
  destruct (Patient.chronic_conditions b) as [| |c|]; try reflexivity.
  rewrite risk_level_buckets. split; [reflexivity|].
  intros Hc.
  destruct (Qle_bool c (-1)) eqn:E; [apply Qle_bool_iff in E; lra|].
  repeat destruct (Qle_bool c _); eauto.
Qed.

(** X13.  The [patient_status] of a row of the patients transform follows the
    whole days between the last visit and the current date: Active up to 90
    days (a visit dated in the future included), Inactive from 91 to 365,
    Dormant beyond; a patient without a last visit date is Dormant. *)
Theorem patient_status_of_transformed_patients (current_date : Z)
    (df : list (Patient.row (raw float64) (raw Z))) r :
  r ∈ transform_patients_rows parse_number parse_date current_date df ->
  match Patient.last_visit_date (Patient.base r) with
  | Some last_visit =>
      let days := (current_date - last_visit) / NS_PER_DAY in
      Patient.days_since_last_visit r = Some days
      /\ (Patient.patient_status r = Patient.Active <-> days <= 90)
      /\ (Patient.patient_status r = Patient.Inactive <-> 90 < days <= 365)
      /\ (Patient.patient_status r = Patient.Dormant <-> 365 < days)
  | None =>
      Patient.days_since_last_visit r = None
      /\ Patient.patient_status r = Patient.Dormant
  end.
Proof.
  intros (b & _ & ->)%elem_of_transform_patients_rows.
  cbn [Patient.base Patient.days_since_last_visit Patient.patient_status].
  destruct (Patient.last_visit_date b) as [v|]; [|split; reflexivity].
  cbn [sub_datetime dt_days]. cbv zeta. split; [reflexivity|].
  unfold patient_status_of. cbn [days_le].
  destruct (_ <=? 90) eqn:E90; [apply Z.leb_le in E90|apply Z.leb_gt in E90].
  - repeat split; intros; try reflexivity; try discriminate; lia.
  - destruct (_ <=? 365) eqn:E365; [apply Z.leb_le in E365|apply Z.leb_gt in E365];
      repeat split; intros; try reflexivity; try discriminate; lia.
Qed.

(** What the cleaning step leaves of a provider row. *)
Lemma elem_of_transform_providers_rows (df : list (Provider.row (raw float64))) r :
  r ∈ transform_providers_rows parse_number df ->
  exists x, x ∈ df
            /\ Provider.base r = coerce_provider parse_number x
            /\ fgt (Provider.beds (Provider.base r)) (Fin 0) = true
            /\ Provider.hospital_size r
               = cut size_bins size_labels (Provider.beds (Provider.base r))
            /\ Provider.avg_cost r = Fin 0
            /\ Provider.readmission_rate r = Fin 0
            /\ Provider.patient_volume r = 0.
Proof.
  unfold transform_providers_rows, _engineer_providers_features, _clean_providers_data.
  cbv zeta. intros (b & -> & Hb)%list_elem_of_fmap.
  apply list_elem_of_filter in Hb as [Hbeds (x & -> & Hx)%list_elem_of_fmap].
  apply Is_true_true in Hbeds. apply elem_of_drop_duplicates in Hx.
  exists x. cbn [Provider.base]. repeat split; assumption.
Qed.

(** X14.  Every row of the providers transform has a number of beds above 0
    and a [hospital_size]: Small up to 100 beds, Medium from above 100 to
    300, Large from above 300 to 600 and Very Large above 600, an infinite
    number included; its teaching flag is not null, and its three
    performance columns are 0. *)
Theorem hospital_size_of_transformed_providers (df : list (Provider.row (raw float64))) r :
  r ∈ transform_providers_rows parse_number df ->
  fgt (Provider.beds (Provider.base r)) (Fin 0) = true
  /\ Provider.hospital_size r
     = Some match Provider.beds (Provider.base r) with
            | Fin b =>
                if Qle_bool b 100 then Provider.Small
                else if Qle_bool b 300 then Provider.MediumSize
                else if Qle_bool b 600 then Provider.Large
                else Provider.VeryLarge
            | _ => Provider.VeryLarge
            end
  /\ is_Some (Provider.teaching_hospital (Provider.base r))
  /\ Provider.avg_cost r = Fin 0
  /\ Provider.readmission_rate r = Fin 0
  /\ Provider.patient_volume r = 0.
Proof.
  intros (x & _ & Eb & Hbeds & Hsize & Hcost & Hrate & Hvol)
    %elem_of_transform_providers_rows.
  rewrite Hsize, Hcost, Hrate, Hvol. repeat split; try assumption.
  - destruct (fgt_Fin _ _ Hbeds) as [->|(b & -> & Hb)]; [reflexivity|].
    rewrite hospital_size_buckets.
    destruct (Qle_bool b 0) eqn:E0; [apply Qle_bool_iff in E0; lra|].
    now repeat destruct (Qle_bool b _).
  - rewrite Eb. cbn [coerce_provider Provider.teaching_hospital]. eauto.
Qed.

Lemma elem_of_transform_prescriptions_rows (df : list (Rx.row (raw float64) (raw Z))) r :
  r ∈ transform_prescriptions_rows parse_number parse_date df ->
  exists x, x ∈ df
    /\ Rx.base r = coerce_prescription parse_number parse_date x
    /\ (forall col, col ∈ numeric_columns -> fgt (col (Rx.base r)) (Fin 0) = true)
    /\ Rx.adherence_rate r = adherence_rate_of (Rx.base r)
    /\ Rx.adherence_category r
       = cut adherence_bins adherence_labels (Rx.adherence_rate r)
    /\ Rx.cost_per_day r = fdiv (Rx.cost (Rx.base r)) (Rx.days_supplied (Rx.base r))
    /\ Rx.medication_category r
       = default "Other"%string
           (Rx.medication_name (Rx.base r) ≫= fun n => medication_categories !! n).
Proof.
  unfold transform_prescriptions_rows, _engineer_prescriptions_features,
    _clean_prescriptions_data.
  cbv zeta. intros (b & -> & Hb)%list_elem_of_fmap.
  apply elem_of_keep_positive_all in Hb as [(x & -> & Hx)%list_elem_of_fmap Hall].
  apply elem_of_drop_duplicates in Hx.
  exists x. cbn [Rx.base]. repeat split; assumption.
Qed.

(** X15.  The four numeric columns of a row of the prescriptions transform are
    above 0, and its [cost_per_day] is the cost divided by the days
    supplied, in binary64: null when both are infinite, and never below 0
    otherwise.  It is 0 when the days supplied alone are infinite, and when
    the quotient is too small for the format. *)
Theorem prescription_cost_per_day_is_never_negative
    (df : list (Rx.row (raw float64) (raw Z))) r :
  r ∈ transform_prescriptions_rows parse_number parse_date df ->
  fgt (Rx.days_supplied (Rx.base r)) (Fin 0) = true
  /\ fgt (Rx.days_prescribed (Rx.base r)) (Fin 0) = true
  /\ fgt (Rx.quantity (Rx.base r)) (Fin 0) = true
  /\ fgt (Rx.cost (Rx.base r)) (Fin 0) = true
  /\ Rx.cost_per_day r = fdiv (Rx.cost (Rx.base r)) (Rx.days_supplied (Rx.base r))
  /\ match Rx.cost_per_day r with
     | NaN => Rx.cost (Rx.base r) = PosInf /\ Rx.days_supplied (Rx.base r) = PosInf
     | NegInf => False
     | Fin x => (0 <= x)%Q
     | PosInf => True
     end.
Proof.
  intros (x & _ & _ & Hall & _ & _ & Hcpd & _)%elem_of_transform_prescriptions_rows.
  assert (Hs := Hall Rx.days_supplied). assert (Hp := Hall Rx.days_prescribed).
  assert (Hq := Hall Rx.quantity). assert (Hc := Hall Rx.cost).
  unfold numeric_columns in Hs, Hp, Hq, Hc. rewrite !elem_of_cons in Hs, Hp, Hq, Hc.
  assert (Hs' := Hs ltac:(auto)). assert (Hp' := Hp ltac:(auto)).
  assert (Hq' := Hq ltac:(auto)). assert (Hc' := Hc ltac:(auto 6)).
  repeat split; try assumption. rewrite Hcpd.
  destruct (fgt_Fin _ _ Hs') as [->|(s & -> & Hspos)].
  - destruct (fgt_Fin _ _ Hc') as [->|(c & -> & Hcpos)]; cbn [fdiv]; [auto|lra].
  - destruct (fdiv_positive _ s Hc' Hspos) as [->|(z & -> & Hz)]; [exact I|exact Hz].
Qed.

(** The adherence of two finite day counts whose quotient is not too small
    for the format is above 0. *)
Lemma adherence_above_0 (s p : Q) :
  (0 < p)%Q -> (pow2 (-1074) <= s / p)%Q ->
  exists a, calculate_medication_adherence (Fin s) (Fin p) = Fin a /\ (0 < a)%Q.
Proof.
  intros Hp Hq. pose proof (pow2_pos (-1074)) as Hleast.
  unfold calculate_medication_adherence. rewrite fdiv_Fin by exact Hp.
  destruct (round64_ge (s / p) (-1074)) as [->|(r & -> & Hr)]; [lia|exact Hq|..].
  - exists 1%Q. split; [reflexivity|lra].
  - unfold fillna, clip. cbn [isna flt fgt].
    destruct (Qlt_bool r 0) eqn:E0; [apply Qlt_bool_iff in E0; lra|].
    destruct (Qlt_bool 1 r); [exists 1%Q|exists r]; split; try reflexivity; lra.
Qed.

(** X16.  The [adherence_category] of a row of the prescriptions transform
    follows its rate, a number from 0 to 1: Poor above 0 and up to 0.5, Fair
    from above 0.5 to 0.8, Good above 0.8, and null at the rate 0; the
    bound 0.8 is the number of the format that the literal stands for.  The
    rate is above 0, and the category is not null, when the two day counts
    are finite and their quotient is at least [2 ^ -1074]; days prescribed
    without an end give the rate 0 and no category. *)
Theorem adherence_category_of_transformed_prescriptions
    (df : list (Rx.row (raw float64) (raw Z))) r :
  r ∈ transform_prescriptions_rows parse_number parse_date df ->
  exists a, Rx.adherence_rate r = Fin a
            /\ (0 <= a)%Q /\ (a <= 1)%Q
            /\ Rx.adherence_category r
               = (if Qle_bool a 0 then None
                  else Some (if Qle_bool a 0.5 then Rx.Poor
                             else if Qle_bool a float_0_8 then Rx.Fair
                             else Rx.Good))
            /\ (forall s p,
                  Rx.days_supplied (Rx.base r) = Fin s ->
                  Rx.days_prescribed (Rx.base r) = Fin p ->
                  (pow2 (-1074) <= s / p)%Q -> (0 < a)%Q)
            /\ (Rx.days_prescribed (Rx.base r) = PosInf -> (a == 0)%Q).
Proof.
  intros Hr.
  destruct (elem_of_transform_prescriptions_rows df r Hr)
    as (x & _ & _ & Hall & Hrate & Hcat & _ & _).
  assert (Hp := Hall Rx.days_prescribed). unfold numeric_columns in Hp.
  rewrite !elem_of_cons in Hp. assert (Hp' := Hp ltac:(auto)).
  destruct (clip_unit_interval
              (fillna (Fin 0) (fdiv (Rx.days_supplied (Rx.base r))
                                    (Rx.days_prescribed (Rx.base r)))))
    as (a & Ea & Ha0 & Ha1).
  { unfold fillna. destruct (isna (fdiv _ _)) eqn:E; [reflexivity|exact E]. }
  assert (Erate : Rx.adherence_rate r = Fin a) by (rewrite Hrate; exact Ea).
  exists a. rewrite Hcat, Erate. repeat split; try assumption.
  - rewrite adherence_category_buckets.
    destruct (Qle_bool a 0); [reflexivity|].
    destruct (Qle_bool a 0.5); [reflexivity|].
    destruct (Qle_bool a float_0_8); [reflexivity|].
    destruct (Qle_bool a 1) eqn:E; [reflexivity|].
    apply Qle_bool_false in E. lra.
  - intros s p Es Ep Hq. rewrite Ep in Hp'.
    cbn [fgt flt] in Hp'. apply Qlt_bool_iff in Hp'.
    destruct (adherence_above_0 s p Hp' Hq) as (a' & Ea' & Ha').
    rewrite Hrate in Erate. unfold adherence_rate_of in Erate.
    rewrite Es, Ep, Ea' in Erate. injection Erate as <-. exact Ha'.
  - intros Ep. rewrite Hrate in Erate. unfold adherence_rate_of in Erate.
    rewrite Ep in Erate. destruct (Rx.days_supplied (Rx.base r));
      injection Erate as <-; reflexivity.
Qed.

End DerivedColumns.

(* ===================================================================== *)
(** ** The outcome of a transform *)
(* ===================================================================== *)

Lemma validate_dataframe_true (cols : gset string) (required_columns : list string) :
  validate_dataframe cols required_columns = true
  <-> forall c, c ∈ required_columns -> c ∈ cols.
Proof.
  unfold validate_dataframe. rewrite bool_decide_eq_true. split.
  - intros Hempty c Hc. destruct (decide (c ∈ cols)) as [Hin|Hout]; [exact Hin|].
    assert (Hdiff : c ∈ list_to_set required_columns ∖ cols)
      by (apply elem_of_difference; split; [now apply elem_of_list_to_set|exact Hout]).
    rewrite Hempty in Hdiff. now apply not_elem_of_empty in Hdiff.
  - intros Hall. apply set_eq. intros c. rewrite elem_of_difference, elem_of_list_to_set.
    split; [intros [Hc Hout]; exfalso; auto|intros Hc; now apply not_elem_of_empty in Hc].
Qed.

Ltac in_list := apply list_elem_of_In; simpl; tauto.

Ltac in_list_from H :=
  apply list_elem_of_In in H; simpl in H;
  repeat destruct H as [<-|H]; try contradiction; in_list.

(** Running the last steps of a transform. *)
Ltac run_transform :=
  unfold silver_metadata, generate_etl_metadata, save_silver_claims,
    save_silver_patients, save_silver_providers, save_silver_prescriptions,
    log_dataframe_info;
  cbv [mbind M_bind bind_M mret M_ret ret_M raise logger datetime_now get_silver
       set_silver with_metadata fst snd files rng clock bronze silver db log columns
       rows attrs claims patients providers prescriptions without].

Section Outcomes.

Context {G DB : Type}.
Variable parse_number : string -> option float64.
Variable parse_date : string -> option Z.

Lemma require_columns_outcome (present : gset string) (cols : list string)
    (w : world G DB) :
  match (require_columns present cols w).1 with
  | Ok _ => forall c, c ∈ cols -> c ∈ present
  | Raise e => exists c, e = KeyError c /\ c ∈ cols /\ c ∉ present
  end.
Proof.
  induction cols as [|c cols IH]; cbn [require_columns].
  - intros c Hc. inversion Hc.
  - case_bool_decide as Hc.
    + destruct (require_columns present cols w).1.
      * intros c' [->|Hc']%elem_of_cons; auto.
      * destruct IH as (c' & -> & Hin & Hout). exists c'. repeat split; [|exact Hout].
        apply elem_of_cons. now right.
    + exists c. repeat split; [|exact Hc]. apply elem_of_cons. now left.
Qed.

(** The outcome of [transform_claims_data], whatever the world. *)
Lemma transform_claims_data_outcome (w : world G DB) :
  let run := transform_claims_data parse_number parse_date w in
  files run.2 = files w /\ rng run.2 = rng w /\ clock run.2 = clock w
  /\ bronze run.2 = bronze w /\ db run.2 = db w
  /\ without Claims (silver run.2) = without Claims (silver w)
  /\ match run.1 with
     | Ok df =>
         exists raw m,
           claims (bronze w) = Some raw
           /\ (forall c, c ∈ needed_columns Claims -> c ∈ columns raw)
           /\ columns df = columns raw ∪ list_to_set claims_features
           /\ rows df = transform_claims_rows parse_number parse_date (rows raw)
           /\ (silver_metadata (attrs raw) w).1 = Ok m
           /\ attrs df = dict_update (attrs raw) m
           /\ claims (silver run.2) = Some df
           /\ log run.2
              = log w ++ [Started "transform" Claims]
                ++ (if existsb (fun r => fle (Claim.cost (Claim.base r)) (Fin 0)) (rows df)
                    then [Warning "Found non-positive costs in claims data"] else [])
                ++ (if existsb (fun r => fgt (Claim.cost (Claim.base r)) (Fin 1000000))
                         (rows df)
                    then [Warning "Found extremely high costs in claims data"] else [])
                ++ [Info "Claims data validation completed";
                    FrameInfo "transform" Claims (length (rows df)) (size (columns df))]
     | Raise e =>
         silver run.2 = silver w
         /\ ((e = FileNotFoundError "claims_raw.parquet" /\ claims (bronze w) = None
              /\ log run.2 = log w ++ [Started "transform" Claims])
             \/ (exists raw c,
                   claims (bronze w) = Some raw /\ e = KeyError c
                   /\ c ∈ needed_columns Claims /\ (c ∉ columns raw)
                   /\ log run.2 = log w ++ [Started "transform" Claims])
             \/ (exists raw c,
                   claims (bronze w) = Some raw
                   /\ e = ValueError "Claims data validation failed"
                   /\ c ∈ ["patient_id"; "provider_id"]%string /\ (c ∉ columns raw)
                   /\ log run.2
                      = log w ++ [Started "transform" Claims;
                                  Error "Missing required columns in claims"]))
     end.
Proof.
  cbv zeta. unfold transform_claims_data.
  rewrite bind_run. cbn [logger]. cbv beta iota.
  rewrite bind_run. cbn [get_bronze bronze]. cbv beta iota.
  destruct (claims (bronze w)) as [raw|] eqn:Eraw.
  2:{ run_transform. repeat split. left. repeat split. }
  rewrite bind_run. cbn [load_parquet_with_metadata mret M_ret ret_M]. cbv beta iota.
  unfold clean_claims_frame. rewrite bind_run, bind_require_columns.
  match goal with |- context [(require_columns ?p ?c ?w0).1] =>
    pose proof (require_columns_outcome p c w0) as Hclean;
    destruct (require_columns p c w0).1 as [[]|e1] end.
  2:{ run_transform. repeat split. right. left. destruct Hclean as (c & -> & Hin & Hout).
      exists raw, c. repeat split; [|exact Hout].
      in_list_from Hin. }
  cbn [mret M_ret ret_M]. cbv beta iota.
  unfold engineer_claims_frame. rewrite bind_run, bind_require_columns.
  cbn [columns].
  match goal with |- context [(require_columns ?p ?c ?w0).1] =>
    pose proof (require_columns_outcome p c w0) as Heng;
    destruct (require_columns p c w0).1 as [[]|e1] end.
  2:{ run_transform. repeat split. right. left. destruct Heng as (c & -> & Hin & Hout).
      exists raw, c. repeat split; [|exact Hout].
      in_list_from Hin. }
  cbn [mret M_ret ret_M columns rows attrs]. cbv beta iota.
  unfold _validate_claims_data. rewrite bind_run. cbv zeta. cbn [columns rows attrs].
  destruct (validate_dataframe _ _) eqn:Hval; cbn [negb].
  - rewrite validate_dataframe_true in Hval.
    assert (Hneeded : forall c, c ∈ needed_columns Claims -> c ∈ columns raw).
    { intros c Hc. destruct (decide (c ∈ ["patient_id"; "provider_id"]%string)) as [Hv|Hv].
      - assert (Hu : c ∈ columns raw ∪ list_to_set claims_features)
          by (apply Hval; clear -Hv; in_list_from Hv).
        apply elem_of_union in Hu as [Hu|Hu]; [exact Hu|].
        apply elem_of_list_to_set, list_elem_of_In in Hu.
        apply list_elem_of_In in Hv. simpl in Hu, Hv.
        repeat destruct Hv as [<-|Hv]; try contradiction;
          repeat destruct Hu as [Hu|Hu]; try discriminate; contradiction.
      - apply list_elem_of_In in Hc. simpl in Hc.
        repeat destruct Hc as [<-|Hc]; try contradiction;
          first [apply Hclean; in_list|apply Heng; in_list|exfalso; apply Hv; in_list]. }
    remember (_engineer_claims_features parse_date
                (_clean_claims_data parse_number parse_date (rows raw))) as R eqn:ER.
    repeat match goal with
      | |- context [if existsb ?f R then _ else _] =>
          let E := fresh "E" in destruct (existsb f R) eqn:E
      end;
      run_transform;
      repeat match goal with E : existsb _ R = _ |- _ => rewrite E; clear E end;
      repeat split; exists raw; eexists; repeat split;
      try reflexivity; try exact Hneeded; try exact ER;
      rewrite <- ?app_assoc; reflexivity.
  - run_transform. repeat split. right. right.
    destruct (decide ("patient_id"%string ∈ columns raw)) as [Hp|Hp];
      [|exists raw, "patient_id"%string; repeat split;
        [in_list|exact Hp|now rewrite <- app_assoc]].
    destruct (decide ("provider_id"%string ∈ columns raw)) as [Hv|Hv];
      [|exists raw, "provider_id"%string; repeat split;
        [in_list|exact Hv|now rewrite <- app_assoc]].
    exfalso. assert (Htrue : validate_dataframe
      (columns raw ∪ list_to_set claims_features)
      ["claim_id"; "patient_id"; "provider_id"; "diagnosis_code"; "cost"]%string = true).
    { apply validate_dataframe_true. intros c Hc. apply elem_of_union. left.
      repeat (apply elem_of_cons in Hc as [->|Hc];
              [first [exact Hp|exact Hv|apply Hclean; in_list]|]).
      inversion Hc. }
    congruence.
Qed.

(** The outcome of [transform_patients_data]: its validation cannot fail. *)
Lemma transform_patients_data_outcome (w : world G DB) :
  let run := transform_patients_data parse_number parse_date w in
  files run.2 = files w /\ rng run.2 = rng w /\ clock run.2 = clock w
  /\ bronze run.2 = bronze w /\ db run.2 = db w
  /\ without Patients (silver run.2) = without Patients (silver w)
  /\ match run.1 with
     | Ok df =>
         exists raw m,
           patients (bronze w) = Some raw
           /\ (forall c, c ∈ needed_columns Patients -> c ∈ columns raw)
           /\ columns df = columns raw ∪ list_to_set patients_features
           /\ rows df
              = transform_patients_rows parse_number parse_date (clock w) (rows raw)
           /\ (silver_metadata (attrs raw) w).1 = Ok m
           /\ attrs df = dict_update (attrs raw) m
           /\ patients (silver run.2) = Some df
           /\ log run.2
              = log w ++ [Started "transform" Patients]
                ++ (if existsb (fun r => flt (Patient.age (Patient.base r)) (Fin 0))
                         (rows df)
                       || existsb (fun r => fgt (Patient.age (Patient.base r)) (Fin 120))
                            (rows df)
                    then [Warning "Found unreasonable ages in patients data"] else [])
                ++ [Info "Patients data validation completed";
                    FrameInfo "transform" Patients (length (rows df))
                      (size (columns df))]
     | Raise e =>
         silver run.2 = silver w
         /\ log run.2 = log w ++ [Started "transform" Patients]
         /\ ((e = FileNotFoundError "patients_raw.parquet" /\ patients (bronze w) = None)
             \/ (exists raw c,
                   patients (bronze w) = Some raw /\ e = KeyError c
                   /\ c ∈ needed_columns Patients /\ (c ∉ columns raw)))
     end.
Proof.
  cbv zeta. unfold transform_patients_data.
  rewrite bind_run. cbn [logger]. cbv beta iota.
  rewrite bind_run. cbn [get_bronze bronze]. cbv beta iota.
  destruct (patients (bronze w)) as [raw|] eqn:Eraw.
  2:{ run_transform. repeat split. left. repeat split. }
  rewrite bind_run. cbn [load_parquet_with_metadata mret M_ret ret_M]. cbv beta iota.
  unfold clean_patients_frame. rewrite bind_run, bind_require_columns.
  match goal with |- context [(require_columns ?p ?c ?w0).1] =>
    pose proof (require_columns_outcome p c w0) as Hclean;
    destruct (require_columns p c w0).1 as [[]|e1] end.
  2:{ run_transform. repeat split. right. destruct Hclean as (c & -> & Hin & Hout).
      exists raw, c. repeat split; [|exact Hout]. in_list_from Hin. }
  cbn [mret M_ret ret_M]. cbv beta iota.
  unfold engineer_patients_frame. rewrite bind_run, bind_require_columns.
  cbn [columns].
  match goal with |- context [(require_columns ?p ?c ?w0).1] =>
    pose proof (require_columns_outcome p c w0) as Heng;
    destruct (require_columns p c w0).1 as [[]|e1] end.
  2:{ run_transform. repeat split. right. destruct Heng as (c & -> & Hin & Hout).
      exists raw, c. repeat split; [|exact Hout]. in_list_from Hin. }
  rewrite bind_run. cbn [datetime_now clock]. cbv beta iota.
  rewrite bind_require_columns.
  match goal with |- context [(require_columns ?p ?c ?w0).1] =>
    pose proof (require_columns_outcome p c w0) as Hlast;
    destruct (require_columns p c w0).1 as [[]|e1] end.
  2:{ run_transform. repeat split. right. destruct Hlast as (c & -> & Hin & Hout).
      exists raw, c. repeat split; [|exact Hout]. in_list_from Hin. }
  cbn [mret M_ret ret_M columns rows attrs]. cbv beta iota.
  unfold _validate_patients_data. rewrite bind_run. cbv zeta. cbn [columns rows attrs].
  assert (Hneeded : forall c, c ∈ needed_columns Patients -> c ∈ columns raw).
  { intros c Hc. apply list_elem_of_In in Hc. simpl in Hc.
    repeat destruct Hc as [<-|Hc]; try contradiction;
      first [apply Hclean; in_list|apply Heng; in_list]. }
  assert (Hval : validate_dataframe (columns raw ∪ list_to_set patients_features)
                   ["patient_id"; "age"; "gender"]%string = true).
  { apply validate_dataframe_true. intros c Hc. apply elem_of_union. left.
    apply Hneeded. in_list_from Hc. }
  rewrite Hval. cbn [negb].
  remember (_engineer_patients_features (clock w)
              (_clean_patients_data parse_number parse_date (rows raw))) as R eqn:ER.
  match goal with
  | |- context [if ?b then logger _ else _] => destruct b eqn:E
  end;
    run_transform; rewrite E;
    repeat split; exists raw; eexists; repeat split;
    try reflexivity; try exact Hneeded; try exact ER;
    rewrite <- ?app_assoc; reflexivity.
Qed.

(** The outcome of [transform_providers_data]: its validation cannot fail
    either. *)
Lemma transform_providers_data_outcome (w : world G DB) :
  let run := transform_providers_data parse_number w in
  files run.2 = files w /\ rng run.2 = rng w /\ clock run.2 = clock w
  /\ bronze run.2 = bronze w /\ db run.2 = db w
  /\ without Providers (silver run.2) = without Providers (silver w)
  /\ match run.1 with
     | Ok df =>
         exists raw m,
           providers (bronze w) = Some raw
           /\ (forall c, c ∈ needed_columns Providers -> c ∈ columns raw)
           /\ columns df = columns raw ∪ list_to_set providers_features
           /\ rows df = transform_providers_rows parse_number (rows raw)
           /\ (silver_metadata (attrs raw) w).1 = Ok m
           /\ attrs df = dict_update (attrs raw) m
           /\ providers (silver run.2) = Some df
           /\ log run.2
              = log w ++ [Started "transform" Providers;
                          Info "Providers data validation completed";
                          FrameInfo "transform" Providers (length (rows df))
                            (size (columns df))]
     | Raise e =>
         silver run.2 = silver w
         /\ log run.2 = log w ++ [Started "transform" Providers]
         /\ ((e = FileNotFoundError "providers_raw.parquet"
              /\ providers (bronze w) = None)
             \/ (exists raw c,
                   providers (bronze w) = Some raw /\ e = KeyError c
                   /\ c ∈ needed_columns Providers /\ (c ∉ columns raw)))
     end.
Proof.
  cbv zeta. unfold transform_providers_data.
  rewrite bind_run. cbn [logger]. cbv beta iota.
  rewrite bind_run. cbn [get_bronze bronze]. cbv beta iota.
  destruct (providers (bronze w)) as [raw|] eqn:Eraw.
  2:{ run_transform. repeat split. left. repeat split. }
  rewrite bind_run. cbn [load_parquet_with_metadata mret M_ret ret_M]. cbv beta iota.
  unfold clean_providers_frame. rewrite bind_run, bind_require_columns.
  match goal with |- context [(require_columns ?p ?c ?w0).1] =>
    pose proof (require_columns_outcome p c w0) as Hclean;
    destruct (require_columns p c w0).1 as [[]|e1] end.
  2:{ run_transform. repeat split. right. destruct Hclean as (c & -> & Hin & Hout).
      exists raw, c. repeat split; [|exact Hout]. in_list_from Hin. }
  cbn [mret M_ret ret_M]. cbv beta iota.
  unfold engineer_providers_frame. rewrite bind_run, bind_require_columns.
  cbn [columns].
  match goal with |- context [(require_columns ?p ?c ?w0).1] =>
    pose proof (require_columns_outcome p c w0) as Heng;
    destruct (require_columns p c w0).1 as [[]|e1] end.
  2:{ run_transform. repeat split. right. destruct Heng as (c & -> & Hin & Hout).
      exists raw, c. repeat split; [|exact Hout]. in_list_from Hin. }
  cbn [mret M_ret ret_M columns rows attrs]. cbv beta iota.
  unfold _validate_providers_data. rewrite bind_run. cbv zeta. cbn [columns rows attrs].
  assert (Hneeded : forall c, c ∈ needed_columns Providers -> c ∈ columns raw).
  { intros c Hc. apply Hclean. in_list_from Hc. }
  assert (Hval : validate_dataframe (columns raw ∪ list_to_set providers_features)
                   ["provider_id"; "hospital_name"; "state"]%string = true).
  { apply validate_dataframe_true. intros c Hc. apply elem_of_union. left.
    apply Hneeded. in_list_from Hc. }
  rewrite Hval. cbn [negb].
  run_transform.
  repeat split; exists raw; eexists; repeat split;
    try reflexivity; try exact Hneeded;
    rewrite <- ?app_assoc; reflexivity.
Qed.

(** The outcome of [transform_prescriptions_data]. *)
Lemma transform_prescriptions_data_outcome (w : world G DB) :
  let run := transform_prescriptions_data parse_number parse_date w in
  files run.2 = files w /\ rng run.2 = rng w /\ clock run.2 = clock w
  /\ bronze run.2 = bronze w /\ db run.2 = db w
  /\ without Prescriptions (silver run.2) = without Prescriptions (silver w)
  /\ match run.1 with
     | Ok df =>
         exists raw m,
           prescriptions (bronze w) = Some raw
           /\ (forall c, c ∈ needed_columns Prescriptions -> c ∈ columns raw)
           /\ columns df = columns raw ∪ list_to_set prescriptions_features
           /\ rows df = transform_prescriptions_rows parse_number parse_date (rows raw)
           /\ (silver_metadata (attrs raw) w).1 = Ok m
           /\ attrs df = dict_update (attrs raw) m
           /\ prescriptions (silver run.2) = Some df
           /\ log run.2
              = log w ++ [Started "transform" Prescriptions;
                          Info "Prescriptions data validation completed";
                          FrameInfo "transform" Prescriptions (length (rows df))
                            (size (columns df))]
     | Raise e =>
         silver run.2 = silver w
         /\ ((e = FileNotFoundError "prescriptions_raw.parquet"
              /\ prescriptions (bronze w) = None
              /\ log run.2 = log w ++ [Started "transform" Prescriptions])
             \/ (exists raw c,
                   prescriptions (bronze w) = Some raw /\ e = KeyError c
                   /\ c ∈ needed_columns Prescriptions /\ (c ∉ columns raw)
                   /\ log run.2 = log w ++ [Started "transform" Prescriptions])
             \/ (exists raw c,
                   prescriptions (bronze w) = Some raw
                   /\ e = ValueError "Prescriptions data validation failed"
                   /\ c ∈ ["patient_id"]%string /\ (c ∉ columns raw)
                   /\ log run.2
                      = log w ++ [Started "transform" Prescriptions;
                                  Error "Missing required columns in prescriptions"]))
     end.
Proof.
  cbv zeta. unfold transform_prescriptions_data.
  rewrite bind_run. cbn [logger]. cbv beta iota.
  rewrite bind_run. cbn [get_bronze bronze]. cbv beta iota.
  destruct (prescriptions (bronze w)) as [raw|] eqn:Eraw.
  2:{ run_transform. repeat split. left. repeat split. }
  rewrite bind_run. cbn [load_parquet_with_metadata mret M_ret ret_M]. cbv beta iota.
  unfold clean_prescriptions_frame. rewrite bind_run, bind_require_columns.
  match goal with |- context [(require_columns ?p ?c ?w0).1] =>
    pose proof (require_columns_outcome p c w0) as Hclean;
    destruct (require_columns p c w0).1 as [[]|e1] end.
  2:{ run_transform. repeat split. right. left. destruct Hclean as (c & -> & Hin & Hout).
      exists raw, c. repeat split; [|exact Hout]. in_list_from Hin. }
  cbn [mret M_ret ret_M]. cbv beta iota.
  unfold engineer_prescriptions_frame. rewrite bind_run, bind_require_columns.
  cbn [columns].
  match goal with |- context [(require_columns ?p ?c ?w0).1] =>
    pose proof (require_columns_outcome p c w0) as Heng;
    destruct (require_columns p c w0).1 as [[]|e1] end.
  2:{ run_transform. repeat split. right. left. destruct Heng as (c & -> & Hin & Hout).
      exists raw, c. repeat split; [|exact Hout]. in_list_from Hin. }
  cbn [mret M_ret ret_M columns rows attrs]. cbv beta iota.
  unfold _validate_prescriptions_data. rewrite bind_run. cbv zeta.
  cbn [columns rows attrs].
  destruct (validate_dataframe _ _) eqn:Hval; cbn [negb].
  - rewrite validate_dataframe_true in Hval.
    assert (Hneeded : forall c, c ∈ needed_columns Prescriptions -> c ∈ columns raw).
    { intros c Hc. destruct (decide (c = "patient_id"%string)) as [->|Hv].
      - assert (Hu : "patient_id"%string
                     ∈ columns raw ∪ list_to_set prescriptions_features)
          by (apply Hval; in_list).
        apply elem_of_union in Hu as [Hu|Hu]; [exact Hu|].
        apply elem_of_list_to_set, list_elem_of_In in Hu. simpl in Hu.
        repeat destruct Hu as [Hu|Hu]; try discriminate; contradiction.
      - apply list_elem_of_In in Hc. simpl in Hc.
        repeat destruct Hc as [<-|Hc]; try contradiction;
          first [apply Hclean; in_list|congruence]. }
    run_transform.
    repeat split; exists raw; eexists; repeat split;
      try reflexivity; try exact Hneeded;
      rewrite <- ?app_assoc; reflexivity.
  - run_transform. repeat split. right. right.
    destruct (decide ("patient_id"%string ∈ columns raw)) as [Hp|Hp];
      [|exists raw, "patient_id"%string; repeat split;
        [in_list|exact Hp|now rewrite <- app_assoc]].
    exfalso. assert (Htrue : validate_dataframe
      (columns raw ∪ list_to_set prescriptions_features)
      ["prescription_id"; "patient_id"; "medication_name"; "cost"]%string = true).
    { apply validate_dataframe_true. intros c Hc. apply elem_of_union. left.
      repeat (apply elem_of_cons in Hc as [->|Hc];
              [first [exact Hp|apply Hclean; in_list]|]).
      inversion Hc. }
    congruence.
Qed.

End Outcomes.

(* ===================================================================== *)
(** ** What a transform needs, writes and logs *)
(* ===================================================================== *)

Lemma dict_get_set (k : string) (v : meta) (d : list (string * meta)) :
  dict_get k (dict_set k v d) = Some v.
Proof.
  induction d as [|[k' v'] d IH]; cbn [dict_set dict_get].
  - now rewrite bool_decide_eq_true_2.
  - case_bool_decide as Hk; cbn [dict_get].
    + now rewrite bool_decide_eq_true_2.
    + now rewrite bool_decide_eq_false_2.
Qed.

Lemma dict_get_set_other (k k' : string) (v : meta) (d : list (string * meta)) :
  k <> k' -> dict_get k' (dict_set k v d) = dict_get k' d.
Proof.
  intros Hne. induction d as [|[k0 v0] d IH]; cbn [dict_set dict_get].
  - now rewrite bool_decide_eq_false_2.
  - case_bool_decide as Hk; cbn [dict_get].
    + subst k0. now rewrite !bool_decide_eq_false_2.
    + now rewrite IH.
Qed.

Section TransformOutcomes.

Context {G DB : Type}.
Variable parse_number : string -> option float64.
Variable parse_date : string -> option Z.

Local Abbreviation transform_entity :=
  (@transform_entity G DB parse_number parse_date).
Local Abbreviation transform_succeeds :=
  (@transform_succeeds G DB parse_number parse_date).

(** A computation whose result is dropped. *)
Lemma drop_result_run {A} (m : M G DB A) (w : world G DB) :
  (m ≫= fun _ => mret tt) w
  = (match (m w).1 with Ok _ => Ok tt | Raise e => Raise e end, (m w).2).
Proof. rewrite bind_run. now destruct (m w) as [[a|e] w']. Qed.

(** The four outcome lemmas, as one statement about [transform_entity]. *)
Lemma transform_entity_outcome (e : entity) (w : world G DB) :
  let run := transform_entity e w in
  files run.2 = files w /\ rng run.2 = rng w /\ clock run.2 = clock w
  /\ bronze run.2 = bronze w /\ db run.2 = db w
  /\ without e (silver run.2) = without e (silver w)
  /\ match run.1 with
     | Ok _ =>
         exists cols bronze_attrs m,
           artifact_columns e (bronze w) = Some cols
           /\ (forall c, c ∈ needed_columns e -> c ∈ cols)
           /\ artifact_attrs e (bronze w) = Some bronze_attrs
           /\ (silver_metadata bronze_attrs w).1 = Ok m
           /\ artifact_attrs e (silver run.2) = Some (dict_update bronze_attrs m)
     | Raise exc =>
         silver run.2 = silver w
         /\ match exc with
            | FileNotFoundError name =>
                name = (entity_name e ++ "_raw.parquet")%string
                /\ artifact_columns e (bronze w) = None
            | KeyError c =>
                exists cols, artifact_columns e (bronze w) = Some cols
                             /\ c ∈ needed_columns e /\ (c ∉ cols)
            | ValueError msg =>
                (e = Claims \/ e = Prescriptions)
                /\ exists cols c,
                     artifact_columns e (bronze w) = Some cols
                     /\ c ∈ ["patient_id"; "provider_id"]%string
                     /\ c ∈ needed_columns e /\ (c ∉ cols)
            | _ => False
            end
     end.
Proof.
  cbv zeta. destruct e; unfold HealthcareDataTransformer.transform_entity;
    rewrite drop_result_run; cbn [fst snd].
  - destruct (transform_claims_data_outcome parse_number parse_date w)
      as (Hf & Hr & Hc & Hb & Hd & Hs & Hout).
    repeat split; try assumption.
    destruct (transform_claims_data parse_number parse_date w).1 as [df|exc].
    + destruct Hout as (raw & m & Eraw & Hneed & _ & _ & Hm & Hattrs & Hsilver & _).
      exists (columns raw), (attrs raw), m.
      cbn [artifact_columns artifact_attrs]. rewrite Eraw, Hsilver.
      repeat split; try assumption. cbn. now rewrite Hattrs.
    + destruct Hout as (Hsame & [(-> & Eraw & _)|[(raw & c & Eraw & -> & Hin & Hout & _)|
        (raw & c & Eraw & -> & Hin & Hout & _)]]);
        (split; [exact Hsame|]); cbn [artifact_columns]; rewrite Eraw.
      * split; reflexivity.
      * exists (columns raw). repeat split; assumption.
      * split; [now left|]. exists (columns raw), c. repeat split; try assumption.
        clear -Hin. in_list_from Hin.
  - destruct (transform_patients_data_outcome parse_number parse_date w)
      as (Hf & Hr & Hc & Hb & Hd & Hs & Hout).
    repeat split; try assumption.
    destruct (transform_patients_data parse_number parse_date w).1 as [df|exc].
    + destruct Hout as (raw & m & Eraw & Hneed & _ & _ & Hm & Hattrs & Hsilver & _).
      exists (columns raw), (attrs raw), m.
      cbn [artifact_columns artifact_attrs]. rewrite Eraw, Hsilver.
      repeat split; try assumption. cbn. now rewrite Hattrs.
    + destruct Hout as (Hsame & _ & [(-> & Eraw)|(raw & c & Eraw & -> & Hin & Hout)]);
        (split; [exact Hsame|]); cbn [artifact_columns]; rewrite Eraw.
      * split; reflexivity.
      * exists (columns raw). repeat split; assumption.
  - destruct (transform_providers_data_outcome parse_number w)
      as (Hf & Hr & Hc & Hb & Hd & Hs & Hout).
    repeat split; try assumption.
    destruct (transform_providers_data parse_number w).1 as [df|exc].
    + destruct Hout as (raw & m & Eraw & Hneed & _ & _ & Hm & Hattrs & Hsilver & _).
      exists (columns raw), (attrs raw), m.
      cbn [artifact_columns artifact_attrs]. rewrite Eraw, Hsilver.
      repeat split; try assumption. cbn. now rewrite Hattrs.
    + destruct Hout as (Hsame & _ & [(-> & Eraw)|(raw & c & Eraw & -> & Hin & Hout)]);
        (split; [exact Hsame|]); cbn [artifact_columns]; rewrite Eraw.
      * split; reflexivity.
      * exists (columns raw). repeat split; assumption.
  - destruct (transform_prescriptions_data_outcome parse_number parse_date w)
      as (Hf & Hr & Hc & Hb & Hd & Hs & Hout).
    repeat split; try assumption.
    destruct (transform_prescriptions_data parse_number parse_date w).1 as [df|exc].
    + destruct Hout as (raw & m & Eraw & Hneed & _ & _ & Hm & Hattrs & Hsilver & _).
      exists (columns raw), (attrs raw), m.
      cbn [artifact_columns artifact_attrs]. rewrite Eraw, Hsilver.
      repeat split; try assumption. cbn. now rewrite Hattrs.
    + destruct Hout as (Hsame & [(-> & Eraw & _)|[(raw & c & Eraw & -> & Hin & Hout & _)|
        (raw & c & Eraw & -> & Hin & Hout & _)]]);
        (split; [exact Hsame|]); cbn [artifact_columns]; rewrite Eraw.
      * split; reflexivity.
      * exists (columns raw). repeat split; assumption.
      * split; [now right|]. exists (columns raw), c. repeat split; try assumption;
          clear -Hin; in_list_from Hin.
Qed.

(** X17.  What a transform needs.  A transform that returns has found the
    artifact of its entity in the bronze layer, with every needed column
    among its columns; and without the artifact the transform raises
    [FileNotFoundError]. *)
Theorem transform_needs_its_columns (e : entity) (w : world G DB) :
  (transform_succeeds e w = true ->
   exists cols, artifact_columns e (bronze w) = Some cols
                /\ forall c, c ∈ needed_columns e -> c ∈ cols)
  /\ (artifact_columns e (bronze w) = None ->
      (transform_entity e w).1
      = Raise (FileNotFoundError (entity_name e ++ "_raw.parquet"))).
Proof.
  unfold HealthcareDataTransformer.transform_succeeds.
  destruct (transform_entity_outcome e w) as (_ & _ & _ & _ & _ & _ & Hout).
  destruct (transform_entity e w).1 as [[]|exc]; cbn [is_ok].
  - destruct Hout as (cols & _ & _ & Ecols & Hneed & _).
    split; [eauto|]. intros Enone. congruence.
  - split; [discriminate|]. intros Enone.
    destruct Hout as (_ & Hexc). destruct exc; try contradiction.
    + destruct Hexc as (-> & _). reflexivity.
    + destruct Hexc as (cols' & Ecols' & _). congruence.
    + destruct Hexc as (_ & cols' & c & Ecols' & _). congruence.
Qed.

(** X19.  What a transform writes.  It leaves the source files, the random
    generator, the clock, the bronze layer and the warehouse as they are,
    and in the silver layer the artifacts of the other entities; when it
    raises, the silver layer is unchanged altogether, and when it returns,
    the silver layer holds the artifact of the entity. *)
Theorem transform_writes_only_its_own_artifact (e : entity) (w : world G DB) :
  let run := transform_entity e w in
  files run.2 = files w /\ rng run.2 = rng w /\ clock run.2 = clock w
  /\ bronze run.2 = bronze w /\ db run.2 = db w
  /\ without e (silver run.2) = without e (silver w)
  /\ (if is_ok run.1 then is_Some (artifact_columns e (silver run.2))
      else silver run.2 = silver w).
Proof.
  cbv zeta.
  destruct (transform_entity_outcome e w) as (Hf & Hr & Hc & Hb & Hd & Hs & Hout).
  repeat split; try assumption.
  destruct (transform_entity e w).1 as [[]|exc]; cbn [is_ok].
  - destruct Hout as (_ & attrs0 & m & _ & _ & _ & _ & Hattrs).
    destruct e; cbn [artifact_columns artifact_attrs] in *;
      match goal with |- is_Some (_ <$> ?x) => destruct x; [eauto|discriminate] end.
  - now destruct Hout.
Qed.

(** X20.  The lineage of a silver artifact.  After a transform that returns,
    the metadata of the artifact says that its stage is silver, holds the
    metadata of the bronze artifact under [source_metadata], carries the
    two versions, and has a time under [etl_timestamp] and a time under
    [transformation_timestamp]. *)
Theorem silver_artifact_carries_its_lineage (e : entity) (w : world G DB) :
  transform_succeeds e w = true ->
  exists bronze_attrs silver_attrs t1 t2,
    artifact_attrs e (bronze w) = Some bronze_attrs
    /\ artifact_attrs e (silver (transform_entity e w).2) = Some silver_attrs
    /\ dict_get "pipeline_stage" silver_attrs = Some (MStr "silver")
    /\ dict_get "source_metadata" silver_attrs = Some (MDict bronze_attrs)
    /\ dict_get "etl_timestamp" silver_attrs = Some (MTime t1)
    /\ dict_get "transformation_timestamp" silver_attrs = Some (MTime t2)
    /\ dict_get "etl_version" silver_attrs = Some (MStr "1.0.0")
    /\ dict_get "transformation_version" silver_attrs = Some (MStr "1.0.0").
Proof.
  unfold HealthcareDataTransformer.transform_succeeds.
  destruct (transform_entity_outcome e w) as (_ & _ & _ & _ & _ & _ & Hout).
  destruct (transform_entity e w).1 as [[]|exc]; cbn [is_ok]; [intros _|discriminate].
  destruct Hout as (_ & bronze_attrs & m & _ & _ & Eb & Hm & Es).
  exists bronze_attrs, (dict_update bronze_attrs m), (clock w), (clock w).
  split; [exact Eb|]. split; [exact Es|].
  cbv [silver_metadata generate_etl_metadata mbind M_bind bind_M mret M_ret ret_M
       datetime_now fst] in Hm.
  injection Hm as <-.
  cbn [dict_update foldl fst snd dict_set bool_decide decide_rel].
  repeat match goal with
    | |- context [bool_decide (?a = ?b)] =>
        first [rewrite (bool_decide_eq_true_2 (a = b)) by reflexivity
              |rewrite (bool_decide_eq_false_2 (a = b)) by discriminate]
    end.
  cbn [dict_set].
  repeat match goal with
    | |- context [bool_decide (?a = ?b)] =>
        first [rewrite (bool_decide_eq_true_2 (a = b)) by reflexivity
              |rewrite (bool_decide_eq_false_2 (a = b)) by discriminate]
    end.
  repeat split;
    repeat first [rewrite dict_get_set; reflexivity
                 |rewrite dict_get_set_other by discriminate].
Qed.

End TransformOutcomes.

(* ===================================================================== *)
(** ** The range checks of the validations *)
(* ===================================================================== *)

Ltac not_in_list :=
  let H := fresh "H" in
  intros H; apply list_elem_of_In in H; simpl in H; intuition discriminate.

Section RangeChecks.

Context {G DB : Type}.
Variable parse_number : string -> option float64.
Variable parse_date : string -> option Z.

Lemma existsb_false {A} (f : A -> bool) (l : list A) :
  (forall x, x ∈ l -> f x = false) -> existsb f l = false.
Proof.
  intros Hall. destruct (existsb f l) eqn:E; [|reflexivity].
  apply existsb_exists in E as (x & Hin%list_elem_of_In & Hf).
  rewrite (Hall x Hin) in Hf. discriminate.
Qed.

Lemma no_cost_to_warn_about (df : list (Claim.row (raw float64) (raw Z))) :
  existsb (fun r => fle (Claim.cost (Claim.base r)) (Fin 0))
    (transform_claims_rows parse_number parse_date df) = false.
Proof.
  apply existsb_false.
  intros r (b & (x & _ & -> & Hacc)%elem_of_clean & ->)%elem_of_transform_claims_rows.
  destruct (acceptable_bounds _ Hacc) as (_ & [Ec|(c & Ec & Hc)] & _);
    cbn [Claim.base]; rewrite Ec; cbn [fle]; [reflexivity|].
  destruct (Qle_bool c 0) eqn:E; [|reflexivity]. apply Qle_bool_iff in E. lra.
Qed.

Lemma no_age_to_warn_about (current_date : Z) (df : list (Patient.row (raw float64) (raw Z))) :
  existsb (fun r => flt (Patient.age (Patient.base r)) (Fin 0))
    (transform_patients_rows parse_number parse_date current_date df)
  || existsb (fun r => fgt (Patient.age (Patient.base r)) (Fin 120))
       (transform_patients_rows parse_number parse_date current_date df) = false.
Proof.
  apply orb_false_iff. split; apply existsb_false; intros r Hr;
    destruct (age_category_of_transformed_patients_rows parse_number parse_date
                current_date df r Hr) as (a & Ea & Ha0 & Ha120 & _);
    rewrite Ea; cbn [flt fgt].
  - destruct (Qlt_bool a 0) eqn:E; [|reflexivity]. apply Qlt_bool_iff in E. lra.
  - destruct (Qlt_bool 120 a) eqn:E; [|reflexivity]. apply Qlt_bool_iff in E. lra.
Qed.

(** X21.  The range checks of the validations never fire.  The cleaning step
    has already removed the rows they look for, so no transform ever logs
    the warning about non-positive costs or the warning about unreasonable
    ages. *)
Theorem range_warnings_are_never_logged (e : entity) (w : world G DB) :
  exists l,
    log (transform_entity parse_number parse_date e w).2 = log w ++ l
    /\ (Warning "Found non-positive costs in claims data" ∉ l)
    /\ (Warning "Found unreasonable ages in patients data" ∉ l).
Proof.
  destruct e; unfold transform_entity; rewrite drop_result_run; cbn [fst snd].
  - destruct (transform_claims_data_outcome parse_number parse_date w)
      as (_ & _ & _ & _ & _ & _ & Hout).
    destruct (transform_claims_data parse_number parse_date w).1 as [df|exc].
    + destruct Hout as (raw & m & _ & _ & _ & Hrows & _ & _ & _ & Hlog).
      rewrite Hrows, no_cost_to_warn_about in Hlog.
      eexists. split; [exact Hlog|].
      destruct (existsb _ _); split; not_in_list.
    + destruct Hout as (_ & [(_ & _ & Hlog)|[(raw & c & _ & _ & _ & _ & Hlog)|
        (raw & c & _ & _ & _ & _ & Hlog)]]);
        (eexists; split; [exact Hlog|split; not_in_list]).
  - destruct (transform_patients_data_outcome parse_number parse_date w)
      as (_ & _ & _ & _ & _ & _ & Hout).
    destruct (transform_patients_data parse_number parse_date w).1 as [df|exc].
    + destruct Hout as (raw & m & _ & _ & _ & Hrows & _ & _ & _ & Hlog).
      rewrite Hrows, no_age_to_warn_about in Hlog.
      eexists. split; [exact Hlog|split; not_in_list].
    + destruct Hout as (_ & Hlog & _).
      eexists. split; [exact Hlog|split; not_in_list].
  - destruct (transform_providers_data_outcome parse_number w)
      as (_ & _ & _ & _ & _ & _ & Hout).
    destruct (transform_providers_data parse_number w).1 as [df|exc].
    + destruct Hout as (raw & m & _ & _ & _ & _ & _ & _ & _ & Hlog).
      eexists. split; [exact Hlog|split; not_in_list].
    + destruct Hout as (_ & Hlog & _).
      eexists. split; [exact Hlog|split; not_in_list].
  - destruct (transform_prescriptions_data_outcome parse_number parse_date w)
      as (_ & _ & _ & _ & _ & _ & Hout).
    destruct (transform_prescriptions_data parse_number parse_date w).1 as [df|exc].
    + destruct Hout as (raw & m & _ & _ & _ & _ & _ & _ & _ & Hlog).
      eexists. split; [exact Hlog|split; not_in_list].
    + destruct Hout as (_ & [(_ & _ & Hlog)|[(raw & c & _ & _ & _ & _ & Hlog)|
        (raw & c & _ & _ & _ & _ & Hlog)]]);
        (eexists; split; [exact Hlog|split; not_in_list]).
Qed.

End RangeChecks.

(* ===================================================================== *)
(** ** The loader: chunks, failures and counts *)
(* ===================================================================== *)

Lemma concat_chunks {R : Type} (c : nat) (df : list R) (k : nat) :
  concat ((fun j => take c (drop (j * c) df)) <$> seq 0 k) = take (k * c) df.
Proof.
  induction k as [|k IH]; [reflexivity|].
  rewrite seq_S, fmap_app, concat_app, IH. cbn [fmap list_fmap concat].
  rewrite app_nil_r, take_take_drop. f_equal. lia.
Qed.

Lemma chunk_count_bounds (n : nat) :
  let k := ((n + 999) / 1000)%nat in
  (n <= k * 1000)%nat /\ (forall j, (j < k)%nat -> (j * 1000 < n)%nat).
Proof.
  cbv zeta.
  pose proof (Nat.div_mod_eq (n + 999) 1000) as Hdiv.
  pose proof (Nat.mod_upper_bound (n + 999) 1000 ltac:(lia)) as Hmod.
  split; [lia|]. intros j Hj. nia.
Qed.

Section Chunks.

Import HealthcareDataLoader.

Context {G DB : Type} `{Engine DB}.

Lemma to_sql_chunks_calls {R : Type} (table : string) (df : list R) (starts : list nat) :
  (to_sql_chunks table df starts : M G DB unit)
  = write_chunks table
      ((fun i => (if (i =? 0)%nat then Replace else Append, take chunk_size (drop i df)))
         <$> starts).
Proof.
  induction starts as [|i starts IH]; [reflexivity|].
  cbn [to_sql_chunks fmap list_fmap write_chunks]. cbv zeta. now rewrite IH.
Qed.

Lemma chunks_lookup {R : Type} (df : list R) (j : nat) :
  chunks df !! j
  = if decide (j < (length df + 999) / 1000)%nat
    then Some (if (j =? 0)%nat then Replace else Append,
               take 1000 (drop (j * 1000) df))
    else None.
Proof.
  unfold chunks, chunk_starts, chunk_size.
  replace (length df + 1000 - 1)%nat with (length df + 999)%nat by lia.
  rewrite !list_lookup_fmap.
  destruct (decide (j < (length df + 999) / 1000)%nat) as [Hj|Hj].
  - rewrite lookup_seq_lt by exact Hj. cbn [fmap option_fmap option_map plus].
    do 2 f_equal. destruct j; [reflexivity|].
    rewrite (proj2 (Nat.eqb_neq (S j * 1000) 0)) by lia. reflexivity.
  - rewrite lookup_seq_ge by lia. reflexivity.
Qed.

(** X22.  How a fact table is written.  The loop of [load_claims_data] and of
    [load_prescriptions_data] makes one call of [to_sql] per chunk; the
    chunks are the rows of the frame, each once and in order, in pieces of
    1 to 1000 rows; the first call replaces the table and the others append
    to it.  There are as many calls as thousands of rows, rounded up: none
    for an empty frame, whose table is then not replaced. *)
Theorem fact_tables_are_written_in_chunks {R : Type} (table : string) (df : list R) :
  (to_sql_chunks table df (chunk_starts (length df)) : M G DB unit)
  = write_chunks table (chunks df)
  /\ concat (snd <$> chunks df) = df
  /\ length (chunks df) = ((length df + 999) / 1000)%nat
  /\ (chunks df = [] <-> df = [])
  /\ forall j mode chunk,
       chunks df !! j = Some (mode, chunk) ->
       mode = (if (j =? 0)%nat then Replace else Append)
       /\ chunk = take 1000 (drop (j * 1000) df)
       /\ (0 < length chunk <= 1000)%nat.
Proof.
  destruct (chunk_count_bounds (length df)) as [Hall Hlt].
  assert (Hlen : length (chunks df) = ((length df + 999) / 1000)%nat).
  { unfold chunks, chunk_starts, chunk_size.
    rewrite !length_fmap, length_seq. f_equal. lia. }
  split; [apply to_sql_chunks_calls|]. split; [|split; [exact Hlen|split]].
  - unfold chunks, chunk_starts, chunk_size.
    rewrite <- !list_fmap_compose.
    replace (length df + 1000 - 1)%nat with (length df + 999)%nat by lia.
    etransitivity; [apply (concat_chunks 1000 df)|].
    apply take_ge. lia.
  - split.
    + intros Hnil. rewrite Hnil in Hlen. cbn [length] in Hlen.
      apply length_zero_iff_nil. lia.
    + intros ->. reflexivity.
  - intros j mode chunk. rewrite chunks_lookup.
    destruct (decide _) as [Hj|Hj]; [|discriminate].
    intros [= <- <-]. repeat split.
    + specialize (Hlt j Hj). rewrite length_take, length_drop. lia.
    + rewrite length_take. lia.
Qed.

End Chunks.

Section LoaderFailures.

Import HealthcareDataLoader.

Context {G DB : Type} `{Engine DB}.

Lemma never_raises_if {A} (b : bool) (m1 m2 : M G DB A) :
  never_raises m1 -> never_raises m2 -> never_raises (if b then m1 else m2).
Proof. now destruct b. Qed.

Lemma bind_never_raises_iff {A B} (m : M G DB A) (k : A -> M G DB B)
    (w : world G DB) (exc : exception) :
  (forall a, never_raises (k a)) ->
  ((m ≫= k) w).1 = Raise exc <-> (m w).1 = Raise exc.
Proof.
  intros Hk. rewrite bind_run. destruct (m w) as [[a|e] w']; cbn [fst].
  - specialize (Hk a w'). split; [|discriminate].
    intros Hrun. rewrite Hrun in Hk. discriminate.
  - split; intros [= ->]; reflexivity.
Qed.

Lemma never_raises_load_all_after_connect (connected : bool) :
  never_raises
    (if negb connected then mret false
     else
       created ← create_schema;
       if negb created then mret false
       else
         let success := true in
         ok ← load_patients_data;
         let success := if negb ok then false else success in
         ok ← load_providers_data;
         let success := if negb ok then false else success in
         ok ← load_claims_data;
         let success := if negb ok then false else success in
         ok ← load_prescriptions_data;
         let success := if negb ok then false else success in
         _ ← (if success then
                _ ← update_provider_metrics;
                _ ← create_analytics_views;
                mret tt
              else mret tt);
         _ ← (if success then logger (Info "All data loaded successfully to database")
              else logger (Error "Some data loading operations failed"));
         mret success : M G DB bool).
Proof.
  apply never_raises_if; [apply never_raises_ret|].
  apply never_raises_bind; [unfold create_schema; never_raises_step|intros created].
  apply never_raises_if; [apply never_raises_ret|]. cbv zeta.
  apply never_raises_bind; [apply load_patients_data_effects|intros p].
  apply never_raises_bind; [apply load_providers_data_effects|intros v].
  apply never_raises_bind; [apply load_claims_data_effects|intros c].
  apply never_raises_bind; [apply load_prescriptions_data_effects|intros x].
  apply never_raises_bind; [|intros _].
  { apply never_raises_if; [|apply never_raises_ret].
    unfold update_provider_metrics, create_analytics_views. never_raises_step. }
  apply never_raises_bind; [|intros _; apply never_raises_ret].
  apply never_raises_if; apply never_raises_logger.
Qed.

(** X23.  When [load_all_data] raises.  It raises exactly when the first
    connection to the warehouse raises something other than an
    [SQLAlchemyError], and then it raises that exception; every other
    failure, of the connection, of the schema or of a load, ends in a
    returned boolean. *)
Theorem load_all_data_raises_only_when_connecting (w : world G DB) (exc : exception) :
  (load_all_data w).1 = Raise exc
  <-> (connect_select_1 (db w)).1 = Raise exc
      /\ match exc with SQLAlchemyError _ => False | _ => True end.
Proof.
  unfold load_all_data. rewrite bind_run. cbn [logger]. cbv beta iota.
  rewrite (bind_never_raises_iff _ _ _ _ never_raises_load_all_after_connect).
  unfold connect_to_database, try_except.
  rewrite bind_run. unfold with_db at 1. cbn [db].
  destruct (connect_select_1 (db w)) as [[[]|e] d]; cbn [fst].
  - rewrite bind_run. cbn [logger mret M_ret ret_M fst]. cbv beta iota.
    split; [discriminate|intros [[=] _]].
  - destruct e; cbn [raise fst];
      try (split; [intros [= <-]; split; [reflexivity|exact I]
                  |intros [[= <-] _]; reflexivity]).
    rewrite bind_run. cbn [logger mret M_ret ret_M fst]. cbv beta iota.
    split; [discriminate|]. intros [[= <-] []].
Qed.

Lemma mapM_keys {A B} (f : A -> M G DB (A * B)) :
  (forall x w y, (f x w).1 = Ok y -> y.1 = x) ->
  forall l w ys, (mapM f l w).1 = Ok ys -> ys.*1 = l.
Proof.
  intros Hf. induction l as [|x l IH]; intros w ys; cbn [mapM].
  - intros [= <-]. reflexivity.
  - rewrite bind_run. destruct (f x w) as [[y|e] w1] eqn:Ef; [|discriminate].
    rewrite bind_run. destruct (mapM f l w1) as [[k|e] w2] eqn:Ek; [|discriminate].
    intros [= <-]. cbn [fmap list_fmap]. f_equal.
    + apply (Hf x w). now rewrite Ef.
    + apply (IH w1). now rewrite Ek.
Qed.

(** X24.  [verify_data_integrity] never raises, and its dictionary is all or
    nothing: the counts of the four tables, patients, providers, claims and
    prescriptions, or no count at all as soon as one of the four queries
    fails. *)
Theorem verify_data_integrity_is_all_or_nothing (w : world G DB) :
  exists counts,
    (verify_data_integrity w).1 = Ok counts
    /\ (counts = [] \/ counts.*1 = [Patients; Providers; Claims; Prescriptions]).
Proof.
  unfold verify_data_integrity. rewrite bind_run. cbn [logger]. cbv beta iota.
  unfold try_except.
  match goal with |- context [mapM ?f ?l ?w0] =>
    pose proof (mapM_keys f) as Hkeys; destruct (mapM f l w0) as [[ys|e] w1] eqn:Erun
  end.
  - exists ys. split; [reflexivity|]. right.
    apply (Hkeys) with (w := World (files w) (rng w) (clock w) (bronze w) (silver w)
                               (db w) (log w ++ [Info "Verifying data integrity..."]));
      [|now rewrite Erun].
    intros x w0 y. rewrite bind_run. unfold with_db.
    destruct (select_count _ _) as [[c|e] d]; [|discriminate].
    rewrite bind_run. cbn [logger mret M_ret ret_M fst]. cbv beta iota.
    now intros [= <-].
  - rewrite bind_run. cbn [logger mret M_ret ret_M fst]. cbv beta iota.
    exists []. split; [reflexivity|now left].
Qed.

End LoaderFailures.

Section LoaderInputs.

Import HealthcareDataLoader.

Context {G DB : Type} `{Engine DB}.

(** X25.  A load without its silver artifact.  When the silver layer does not
    hold the artifact of an entity, its load logs the failure and returns
    false, and the warehouse is not touched. *)
Theorem load_without_silver_artifact_fails_cleanly (e : entity) (w : world G DB) :
  artifact_columns e (silver w) = None ->
  load_entity e w
  = (Ok false,
     World (files w) (rng w) (clock w) (bronze w) (silver w) (db w)
       (log w ++ [Started "load" e;
                  Failed ("Failed to load " ++ entity_name e ++ " data")
                    (FileNotFoundError (entity_name e ++ "_clean.parquet"))])).
Proof.
  destruct e; cbn [artifact_columns load_entity]; intros Hnone;
    [unfold load_claims_data|unfold load_patients_data|unfold load_providers_data
    |unfold load_prescriptions_data];
    rewrite bind_run; cbn [logger]; cbv beta iota; unfold try_except;
    rewrite bind_run; cbn [get_silver silver]; cbv beta iota;
    match goal with H : _ <$> ?x = None |- _ => destruct x; [discriminate|] end;
    rewrite bind_run; cbn [load_parquet_with_metadata raise]; cbv beta iota;
    rewrite bind_run; cbn [logger mret M_ret ret_M files rng clock bronze silver db log];
    cbv beta iota; rewrite <- app_assoc; reflexivity.
Qed.

Lemma astype_column_run {R A} (cast : R -> result A) (df : list R) (w : world G DB) :
  astype_column cast df w
  = (match mapM cast df with Ok _ => Ok tt | Raise e => Raise e end, w).
Proof.
  unfold astype_column. rewrite bind_run. unfold lift_result.
  now destruct (mapM cast df).
Qed.

(** The cast of an identifier column fails when a cell is null, and passes
    when none is. *)
Lemma mapM_astype_int64_id {R} (cast : R -> result (option Z)) (key : R -> option Z)
    (df : list R) :
  (forall r, cast r = astype_int64_id (key r)) ->
  mapM cast df = Raise IntCastingNaNError
  \/ (is_ok (mapM cast df) = true /\ forall r, r ∈ df -> key r <> None).
Proof.
  intros Hcast. induction df as [|r df IH]; cbn [mapM].
  - right. split; [reflexivity|]. intros r Hr. inversion Hr.
  - rewrite Hcast.
    destruct (key r) as [z|] eqn:Ekey; cbn [astype_int64_id mbind result_bind];
      [|now left].
    destruct IH as [->|[Hok Hall]]; [now left|]. right.
    destruct (mapM _ df); [|discriminate]. split; [reflexivity|].
    intros r' [->|Hr']%elem_of_cons; [congruence|auto].
Qed.

(** X26.  One null identifier stops the whole load of the claims.  When the
    silver frame has its four required columns and one of its rows has a
    null [claim_id], [patient_id] or [provider_id], [load_claims_data]
    returns false and writes no row at all, the rows with identifiers
    included. *)
Theorem load_claims_rejects_a_null_identifier
    (w : world G DB) (df : frame Claim.silver) (r : Claim.silver) :
  claims (silver w) = Some df ->
  (forall c, c ∈ ["claim_id"; "patient_id"; "provider_id"; "cost"]%string ->
             c ∈ columns df) ->
  r ∈ rows df ->
  Claim.claim_id (Claim.base r) = None
  \/ Claim.patient_id (Claim.base r) = None
  \/ Claim.provider_id (Claim.base r) = None ->
  exists exc,
    load_claims_data w
    = (Ok false,
       World (files w) (rng w) (clock w) (bronze w) (silver w) (db w)
         (log w ++ [Started "load" Claims; Failed "Failed to load claims data" exc])).
Proof.
  intros Hdf Hcols Hr Hnull. exists IntCastingNaNError.
  unfold load_claims_data.
  rewrite bind_run; cbn [logger]; cbv beta iota; unfold try_except.
  rewrite bind_run; cbn [get_silver silver]; cbv beta iota. rewrite Hdf.
  rewrite bind_run; cbn [load_parquet_with_metadata mret M_ret ret_M]; cbv beta iota.
  rewrite bind_run.
  assert (Hprep : forall w0 : world G DB,
            _prepare_claims_for_db df w0 = (Raise IntCastingNaNError, w0)).
  { intros w0. unfold _prepare_claims_for_db, first_missing. cbn [List.filter].
    rewrite !bool_decide_eq_true_2 by (apply Hcols; in_list).
    cbn [negb head].
    rewrite bind_run, astype_column_run.
    match goal with |- context [mapM ?cast (rows df)] =>
      destruct (mapM_astype_int64_id cast (fun r => Claim.claim_id (Claim.base r)) (rows df)
                  (fun _ => eq_refl)) as [->|[Hok1 Hall1]]; [reflexivity|]
    end.
    destruct (mapM _ (rows df)); [|discriminate].
    rewrite bind_run, astype_column_run.
    match goal with |- context [mapM ?cast (rows df)] =>
      destruct (mapM_astype_int64_id cast (fun r => Claim.patient_id (Claim.base r)) (rows df)
                  (fun _ => eq_refl)) as [->|[Hok2 Hall2]]; [reflexivity|]
    end.
    destruct (mapM _ (rows df)); [|discriminate].
    rewrite bind_run, astype_column_run.
    match goal with |- context [mapM ?cast (rows df)] =>
      destruct (mapM_astype_int64_id cast (fun r => Claim.provider_id (Claim.base r)) (rows df)
                  (fun _ => eq_refl)) as [->|[Hok3 Hall3]]; [reflexivity|]
    end.
    exfalso. destruct Hnull as [E|[E|E]];
      [apply (Hall1 r Hr)|apply (Hall2 r Hr)|apply (Hall3 r Hr)]; exact E. }
  rewrite Hprep. rewrite bind_run.
  cbn [logger mret M_ret ret_M files rng clock bronze silver db log]. cbv beta iota.
  rewrite <- app_assoc. reflexivity.
Qed.

End LoaderInputs.

(* ===================================================================== *)
(** ** The extractor: samples, sources and failures *)
(* ===================================================================== *)

Section Draws.

Context {G DB : Type}.

Lemma draws_ret {A} (P : A -> Prop) (a : A) : P a -> draws P (mret a : M G DB A).
Proof. intros Ha w. exists a, (rng w). split; [now destruct w|exact Ha]. Qed.

Lemma draws_with_rng {A} (f : G -> A * G) :
  draws (fun _ => True) (with_rng f : M G DB A).
Proof.
  intros w. unfold with_rng. destruct (f (rng w)) as [a g]. exists a, g. now split.
Qed.

Lemma draws_set_rng (g : G) : draws (fun _ => True) (set_rng g : M G DB unit).
Proof. intros w. exists tt, g. now split. Qed.

Lemma draws_bind {A B} (Q : A -> Prop) (P : B -> Prop) (m : M G DB A)
    (k : A -> M G DB B) :
  draws Q m -> (forall a, Q a -> draws P (k a)) -> draws P (m ≫= k).
Proof.
  intros Hm Hk w. destruct (Hm w) as (a & g & Em & Ha).
  destruct (Hk a Ha (World (files w) g (clock w) (bronze w) (silver w) (db w) (log w)))
    as (b & g' & Ek & Hb).
  exists b, g'. rewrite bind_run, Em. cbv beta iota. rewrite Ek. now split.
Qed.

End Draws.

(** A generator: a seed, then draws, then the frame. *)
Ltac draws_step :=
  repeat first
    [ (eapply draws_bind; [first [apply draws_set_rng|apply draws_with_rng]|intros ? _])
    | match goal with |- draws _ (let _ := _ in _) => cbv zeta end ];
  apply draws_ret.

Lemma started_app (stage : string) (l1 l2 : list event) :
  started stage (l1 ++ l2) = started stage l1 ++ started stage l2.
Proof. apply omap_app. Qed.

Section Generators.

Import HealthcareDataExtractor.

Context {G DB : Type} `{NumpyRandom G} `{CsvReader}.

Lemma generate_sample_claims_draws :
  draws (fun df =>
           columns df = claims_columns
           /\ Claim.claim_id <$> rows df
              = (fun i => Some (Z.of_nat i + 1)) <$> seq 0 (Z.to_nat 10000)
           /\ exists days,
                forall r rd, r ∈ rows df -> Claim.readmission_date r = Some (Val rd) ->
                  exists dd, Claim.discharge_date r = Val dd /\ rd = dd + day days)
    (_generate_sample_claims_data : M G DB _).
Proof.
  unfold _generate_sample_claims_data. draws_step.
  cbn [columns rows]. split; [reflexivity|]. split.
  - rewrite <- list_fmap_compose. apply list_fmap_ext. intros; reflexivity.
  - eexists. intros r rd (i & -> & _)%list_elem_of_fmap.
    cbn [Claim.readmission_date Claim.discharge_date].
    match goal with |- context [Val (?d + day _)] => generalize d; intros dd end.
    case_bool_decide; [|discriminate]. intros [= <-]. eauto.
Qed.

Lemma generate_sample_patients_draws :
  draws (fun df => columns df = patients_columns)
    (_generate_sample_patients_data : M G DB _).
Proof. unfold _generate_sample_patients_data. draws_step. reflexivity. Qed.

Lemma generate_sample_providers_draws :
  draws (fun df => columns df = providers_columns)
    (_generate_sample_providers_data : M G DB _).
Proof. unfold _generate_sample_providers_data. draws_step. reflexivity. Qed.

Lemma generate_sample_prescriptions_draws :
  draws (fun df => columns df = prescriptions_columns)
    (_generate_sample_prescriptions_data : M G DB _).
Proof. unfold _generate_sample_prescriptions_data. draws_step. reflexivity. Qed.

(** X27.  The readmissions of the generated claims.  The generator always
    returns: 10000 claims numbered from 1, with the eleven columns of a
    claims file; one number of days is drawn for the whole frame, so every
    readmission date is its discharge date plus that same number of days,
    and the readmitted claims get the same readmission flag, all 1 or all
    0. *)
Theorem generated_readmissions_share_one_offset (parse_date : string -> option Z)
    (w : world G DB) :
  exists df days,
    (_generate_sample_claims_data w).1 = Ok df
    /\ columns df = claims_columns
    /\ Claim.claim_id <$> rows df
       = (fun i => Some (Z.of_nat i + 1)) <$> seq 0 (Z.to_nat 10000)
    /\ forall r rd,
         r ∈ rows df -> Claim.readmission_date r = Some (Val rd) ->
         exists dd,
           Claim.discharge_date r = Val dd
           /\ rd = dd + day days
           /\ calculate_readmission_flag parse_date (Claim.admission_date r)
                (Claim.discharge_date r) (Val rd) default_days_threshold
              = if (days <=? 30) && (days >? 0) then 1 else 0.
Proof.
  destruct (generate_sample_claims_draws w) as (df & g & Erun & Hcols & Hids & days & Hre).
  exists df, days. rewrite Erun. repeat split; try assumption.
  intros r rd Hr Hrd. destruct (Hre r rd Hr Hrd) as (dd & Edd & ->).
  exists dd. repeat split; [exact Edd|].
  unfold calculate_readmission_flag. rewrite Edd.
  cbn [to_datetime sub_datetime dt_days days_le days_gt]. unfold default_days_threshold.
  replace ((dd + day days - dd) / NS_PER_DAY) with days; [reflexivity|].
  unfold day. replace (dd + days * NS_PER_DAY - dd) with (days * NS_PER_DAY) by lia.
  symmetry. apply Z.div_mul. discriminate.
Qed.

End Generators.

(** Running the last steps of an extraction. *)
Ltac run_extract :=
  cbv [HealthcareDataExtractor.bronze_metadata generate_etl_metadata log_dataframe_info
       mbind M_bind bind_M mret M_ret ret_M raise lift_result logger datetime_now
       get_bronze set_bronze with_metadata fst snd files rng clock bronze silver db log
       columns rows attrs claims patients providers prescriptions without].

Lemma started_extract (l : list event) (e : entity) (msg : string) (ev : event) :
  started "extract" [ev] = [] ->
  started "extract" (((l ++ [Started "extract" e]) ++ [Info msg]) ++ [ev])
  = started "extract" l ++ [e].
Proof.
  intros Hev. rewrite !started_app, Hev.
  change (started "extract" [Info msg]) with (@nil entity).
  change (started "extract" [Started "extract" e]) with [e].
  now rewrite !app_nil_r.
Qed.

Section ExtractOutcomes.

Import HealthcareDataExtractor.

Context {G DB : Type} `{NumpyRandom G} `{CsvReader}.

(** The outcome of [extract_claims_data], whatever the world. *)
Lemma extract_claims_data_outcome (file_path : option string) (w : world G DB) :
  let run := extract_claims_data file_path w in
  exists m,
    (bronze_metadata file_path w).1 = Ok m
    /\ files run.2 = files w /\ clock run.2 = clock w
    /\ silver run.2 = silver w /\ db run.2 = db w
    /\ without Claims (bronze run.2) = without Claims (bronze w)
    /\ started "extract" (log run.2) = started "extract" (log w) ++ [Claims]
    /\ match source_of (files w) file_path with
       | Some text =>
           match read_csv_claims text with
           | Ok df => run.1 = Ok (with_metadata df m)
                      /\ claims (bronze run.2) = Some (with_metadata df m)
           | Raise e => run.1 = Raise e /\ bronze run.2 = bronze w
           end
       | None =>
           exists df, columns df = claims_columns
                      /\ run.1 = Ok (with_metadata df m)
                      /\ claims (bronze run.2) = Some (with_metadata df m)
       end.
Proof.
  cbv zeta. unfold extract_claims_data. eexists. split; [reflexivity|].
  rewrite bind_run. cbn [logger]. cbv beta iota.
  rewrite bind_run. unfold source_text. rewrite bind_run.
  cbn [get_files files mret M_ret ret_M]. cbv beta iota.
  destruct (source_of (files w) file_path) as [text|].
  - rewrite !bind_run. unfold lift_result at 1.
    destruct (read_csv_claims text) as [df|e].
    + run_extract. repeat split. apply started_extract. reflexivity.
    + run_extract. repeat split. rewrite started_app. reflexivity.
  - rewrite !bind_run.
    match goal with |- context [_generate_sample_claims_data ?w0] =>
      destruct (generate_sample_claims_draws w0) as (df & g & Egen & Hcols & _);
      rewrite Egen
    end.
    run_extract. repeat split; [apply started_extract; reflexivity|].
    exists df. repeat split. exact Hcols.
Qed.

Lemma extract_patients_data_outcome (file_path : option string) (w : world G DB) :
  let run := extract_patients_data file_path w in
  exists m,
    (bronze_metadata file_path w).1 = Ok m
    /\ files run.2 = files w /\ clock run.2 = clock w
    /\ silver run.2 = silver w /\ db run.2 = db w
    /\ without Patients (bronze run.2) = without Patients (bronze w)
    /\ started "extract" (log run.2) = started "extract" (log w) ++ [Patients]
    /\ match source_of (files w) file_path with
       | Some text =>
           match read_csv_patients text with
           | Ok df => run.1 = Ok (with_metadata df m)
                      /\ patients (bronze run.2) = Some (with_metadata df m)
           | Raise e => run.1 = Raise e /\ bronze run.2 = bronze w
           end
       | None =>
           exists df, columns df = patients_columns
                      /\ run.1 = Ok (with_metadata df m)
                      /\ patients (bronze run.2) = Some (with_metadata df m)
       end.
Proof.
  cbv zeta. unfold extract_patients_data. eexists. split; [reflexivity|].
  rewrite bind_run. cbn [logger]. cbv beta iota.
  rewrite bind_run. unfold source_text. rewrite bind_run.
  cbn [get_files files mret M_ret ret_M]. cbv beta iota.
  destruct (source_of (files w) file_path) as [text|].
  - rewrite !bind_run. unfold lift_result at 1.
    destruct (read_csv_patients text) as [df|e].
    + run_extract. repeat split. apply started_extract. reflexivity.
    + run_extract. repeat split. rewrite started_app. reflexivity.
  - rewrite !bind_run.
    match goal with |- context [_generate_sample_patients_data ?w0] =>
      destruct (generate_sample_patients_draws w0) as (df & g & Egen & Hcols);
      rewrite Egen
    end.
    run_extract. repeat split; [apply started_extract; reflexivity|].
    exists df. repeat split. exact Hcols.
Qed.

Lemma extract_providers_data_outcome (file_path : option string) (w : world G DB) :
  let run := extract_providers_data file_path w in
  exists m,
    (bronze_metadata file_path w).1 = Ok m
    /\ files run.2 = files w /\ clock run.2 = clock w
    /\ silver run.2 = silver w /\ db run.2 = db w
    /\ without Providers (bronze run.2) = without Providers (bronze w)
    /\ started "extract" (log run.2) = started "extract" (log w) ++ [Providers]
    /\ match source_of (files w) file_path with
       | Some text =>
           match read_csv_providers text with
           | Ok df => run.1 = Ok (with_metadata df m)
                      /\ providers (bronze run.2) = Some (with_metadata df m)
           | Raise e => run.1 = Raise e /\ bronze run.2 = bronze w
           end
       | None =>
           exists df, columns df = providers_columns
                      /\ run.1 = Ok (with_metadata df m)
                      /\ providers (bronze run.2) = Some (with_metadata df m)
       end.
Proof.
  cbv zeta. unfold extract_providers_data. eexists. split; [reflexivity|].
  rewrite bind_run. cbn [logger]. cbv beta iota.
  rewrite bind_run. unfold source_text. rewrite bind_run.
  cbn [get_files files mret M_ret ret_M]. cbv beta iota.
  destruct (source_of (files w) file_path) as [text|].
  - rewrite !bind_run. unfold lift_result at 1.
    destruct (read_csv_providers text) as [df|e].
    + run_extract. repeat split. apply started_extract. reflexivity.
    + run_extract. repeat split. rewrite started_app. reflexivity.
  - rewrite !bind_run.
    match goal with |- context [_generate_sample_providers_data ?w0] =>
      destruct (generate_sample_providers_draws w0) as (df & g & Egen & Hcols);
      rewrite Egen
    end.
    run_extract. repeat split; [apply started_extract; reflexivity|].
    exists df. repeat split. exact Hcols.
Qed.

Lemma extract_prescriptions_data_outcome (file_path : option string) (w : world G DB) :
  let run := extract_prescriptions_data file_path w in
  exists m,
    (bronze_metadata file_path w).1 = Ok m
    /\ files run.2 = files w /\ clock run.2 = clock w
    /\ silver run.2 = silver w /\ db run.2 = db w
    /\ without Prescriptions (bronze run.2) = without Prescriptions (bronze w)
    /\ started "extract" (log run.2) = started "extract" (log w) ++ [Prescriptions]
    /\ match source_of (files w) file_path with
       | Some text =>
           match read_csv_prescriptions text with
           | Ok df => run.1 = Ok (with_metadata df m)
                      /\ prescriptions (bronze run.2) = Some (with_metadata df m)
           | Raise e => run.1 = Raise e /\ bronze run.2 = bronze w
           end
       | None =>
           exists df, columns df = prescriptions_columns
                      /\ run.1 = Ok (with_metadata df m)
                      /\ prescriptions (bronze run.2) = Some (with_metadata df m)
       end.
Proof.
  cbv zeta. unfold extract_prescriptions_data. eexists. split; [reflexivity|].
  rewrite bind_run. cbn [logger]. cbv beta iota.
  rewrite bind_run. unfold source_text. rewrite bind_run.
  cbn [get_files files mret M_ret ret_M]. cbv beta iota.
  destruct (source_of (files w) file_path) as [text|].
  - rewrite !bind_run. unfold lift_result at 1.
    destruct (read_csv_prescriptions text) as [df|e].
    + run_extract. repeat split. apply started_extract. reflexivity.
    + run_extract. repeat split. rewrite started_app. reflexivity.
  - rewrite !bind_run.
    match goal with |- context [_generate_sample_prescriptions_data ?w0] =>
      destruct (generate_sample_prescriptions_draws w0) as (df & g & Egen & Hcols);
      rewrite Egen
    end.
    run_extract. repeat split; [apply started_extract; reflexivity|].
    exists df. repeat split. exact Hcols.
Qed.

End ExtractOutcomes.

Section ExtractEntity.

Import HealthcareDataExtractor.

Context {G DB : Type} `{NumpyRandom G} `{CsvReader}.

(** The four outcome lemmas, as one statement about [extract_entity]. *)
Lemma extract_entity_outcome (e : entity) (file_path : option string) (w : world G DB) :
  let run := extract_entity e file_path w in
  exists m,
    (bronze_metadata file_path w).1 = Ok m
    /\ files run.2 = files w /\ clock run.2 = clock w
    /\ silver run.2 = silver w /\ db run.2 = db w
    /\ without e (bronze run.2) = without e (bronze w)
    /\ started "extract" (log run.2) = started "extract" (log w) ++ [e]
    /\ match source_of (files w) file_path with
       | Some text =>
           match parsed e text with
           | Ok _ =>
               run.1 = Ok tt
               /\ exists attrs0,
                    artifact_attrs e (bronze run.2) = Some (dict_update attrs0 m)
           | Raise exc => run.1 = Raise exc /\ bronze run.2 = bronze w
           end
       | None =>
           run.1 = Ok tt
           /\ artifact_columns e (bronze run.2) = Some (sample_columns e)
           /\ exists attrs0,
                artifact_attrs e (bronze run.2) = Some (dict_update attrs0 m)
       end.
Proof.
  cbv zeta. destruct e; unfold extract_entity; rewrite drop_result_run; cbn [fst snd].
  - destruct (extract_claims_data_outcome file_path w)
      as (m & Hm & Hf & Hc & Hs & Hd & Hw & Hl & Hout).
    exists m. repeat (split; [assumption|]). cbn [parsed].
    destruct (source_of (files w) file_path) as [text|].
    + destruct (read_csv_claims text) as [df|exc]; cbn [table];
        destruct Hout as [-> Hb]; [|now split].
      split; [reflexivity|]. exists (attrs df). cbn [artifact_attrs]. now rewrite Hb.
    + destruct Hout as (df & Hcols & -> & Hb). cbn [artifact_columns artifact_attrs].
      rewrite Hb. cbn. rewrite Hcols. repeat split. eauto.
  - destruct (extract_patients_data_outcome file_path w)
      as (m & Hm & Hf & Hc & Hs & Hd & Hw & Hl & Hout).
    exists m. repeat (split; [assumption|]). cbn [parsed].
    destruct (source_of (files w) file_path) as [text|].
    + destruct (read_csv_patients text) as [df|exc]; cbn [table];
        destruct Hout as [-> Hb]; [|now split].
      split; [reflexivity|]. exists (attrs df). cbn [artifact_attrs]. now rewrite Hb.
    + destruct Hout as (df & Hcols & -> & Hb). cbn [artifact_columns artifact_attrs].
      rewrite Hb. cbn. rewrite Hcols. repeat split. eauto.
  - destruct (extract_providers_data_outcome file_path w)
      as (m & Hm & Hf & Hc & Hs & Hd & Hw & Hl & Hout).
    exists m. repeat (split; [assumption|]). cbn [parsed].
    destruct (source_of (files w) file_path) as [text|].
    + destruct (read_csv_providers text) as [df|exc]; cbn [table];
        destruct Hout as [-> Hb]; [|now split].
      split; [reflexivity|]. exists (attrs df). cbn [artifact_attrs]. now rewrite Hb.
    + destruct Hout as (df & Hcols & -> & Hb). cbn [artifact_columns artifact_attrs].
      rewrite Hb. cbn. rewrite Hcols. repeat split. eauto.
  - destruct (extract_prescriptions_data_outcome file_path w)
      as (m & Hm & Hf & Hc & Hs & Hd & Hw & Hl & Hout).
    exists m. repeat (split; [assumption|]). cbn [parsed].
    destruct (source_of (files w) file_path) as [text|].
    + destruct (read_csv_prescriptions text) as [df|exc]; cbn [table];
        destruct Hout as [-> Hb]; [|now split].
      split; [reflexivity|]. exists (attrs df). cbn [artifact_attrs]. now rewrite Hb.
    + destruct Hout as (df & Hcols & -> & Hb). cbn [artifact_columns artifact_attrs].
      rewrite Hb. cbn. rewrite Hcols. repeat split. eauto.
Qed.

Lemma extracted_without_source (e : entity) (file_path : option string) (w : world G DB) :
  source_of (files w) file_path = None -> extracted e file_path w = generated e w.
Proof.
  intros Hnone. destruct e; unfold extracted, generated.
  - now rewrite extract_claims_table, Hnone.
  - now rewrite extract_patients_table, Hnone.
  - now rewrite extract_providers_table, Hnone.
  - now rewrite extract_prescriptions_table, Hnone.
Qed.

(** X28.  What a bronze artifact says of its source.  After an extraction that
    returns, the metadata of the bronze artifact has the stage bronze and
    the time of the extraction; its [source] is the path that was given,
    also when that path names no file and the table is the generated
    sample, and ["generated"] only when no path, or an empty one, was
    given. *)
Theorem bronze_artifact_names_the_path_it_was_given
    (e : entity) (file_path : option string) (w : world G DB) :
  is_ok (extract_entity e file_path w).1 = true ->
  exists attrs,
    artifact_attrs e (bronze (extract_entity e file_path w).2) = Some attrs
    /\ dict_get "pipeline_stage" attrs = Some (MStr "bronze")
    /\ dict_get "extraction_timestamp" attrs = Some (MTime (clock w))
    /\ dict_get "etl_version" attrs = Some (MStr "1.0.0")
    /\ match file_path with
       | Some p =>
           if bool_decide (p = ""%string)
           then dict_get "source" attrs = Some (MStr "generated")
           else dict_get "source" attrs = Some (MStr p)
                /\ (files w !! p = None -> extracted e file_path w = generated e w)
       | None => dict_get "source" attrs = Some (MStr "generated")
       end.
Proof.
  intros Hok.
  destruct (extract_entity_outcome e file_path w)
    as (m & Hm & _ & _ & _ & _ & _ & _ & Hout).
  assert (Hattrs : exists attrs0,
            artifact_attrs e (bronze (extract_entity e file_path w).2)
            = Some (dict_update attrs0 m)).
  { destruct (source_of (files w) file_path) as [text|].
    - destruct (parsed e text); [now destruct Hout|].
      destruct Hout as [Hraise _]. rewrite Hraise in Hok. discriminate.
    - now destruct Hout as (_ & _ & Hattrs). }
  destruct Hattrs as (attrs0 & ->). eexists. split; [reflexivity|].
  cbv [bronze_metadata generate_etl_metadata mbind M_bind bind_M mret M_ret ret_M
       datetime_now fst] in Hm.
  injection Hm as <-.
  cbn [dict_update foldl fst snd dict_set].
  repeat match goal with
    | |- context [bool_decide (?a = ?b)] =>
        first [rewrite (bool_decide_eq_true_2 (a = b)) by reflexivity
              |rewrite (bool_decide_eq_false_2 (a = b)) by discriminate]
    end.
  cbn [dict_set].
  repeat match goal with
    | |- context [bool_decide (?a = ?b)] =>
        first [rewrite (bool_decide_eq_true_2 (a = b)) by reflexivity
              |rewrite (bool_decide_eq_false_2 (a = b)) by discriminate]
    end.
  repeat split;
    try (repeat first [rewrite dict_get_set; reflexivity
                      |rewrite dict_get_set_other by discriminate]).
  destruct file_path as [p|].
  - case_bool_decide as Hp.
    + repeat first [rewrite dict_get_set; reflexivity
                   |rewrite dict_get_set_other by discriminate].
    + split.
      * repeat first [rewrite dict_get_set; reflexivity
                     |rewrite dict_get_set_other by discriminate].
      * intros Hnone. apply extracted_without_source. cbn [source_of].
        now rewrite bool_decide_eq_false_2.
  - repeat first [rewrite dict_get_set; reflexivity
                 |rewrite dict_get_set_other by discriminate].
Qed.

End ExtractEntity.

Section ExtractAll.

Import HealthcareDataExtractor.

Context {G DB : Type} `{NumpyRandom G} `{CsvReader}.

(** One extraction as a step of [extract_all_data]. *)
Lemma extract_claims_step (file_path : option string) (w : world G DB) :
  let run := extract_claims_data file_path w in
  let readable :=
    match source_of (files w) file_path with
    | Some text => is_ok (parsed Claims text)
    | None => true
    end in
  files run.2 = files w /\ clock run.2 = clock w
  /\ silver run.2 = silver w /\ db run.2 = db w
  /\ without Claims (bronze run.2) = without Claims (bronze w)
  /\ started "extract" (log run.2) = started "extract" (log w) ++ [Claims]
  /\ match run.1 with
     | Ok df =>
         claims (bronze run.2) = Some df /\ readable = true
         /\ (source_of (files w) file_path = None -> columns df = claims_columns)
     | Raise exc =>
         bronze run.2 = bronze w /\ readable = false
         /\ exists text, source_of (files w) file_path = Some text
                         /\ parsed Claims text = Raise exc
     end.
Proof.
  cbv zeta.
  destruct (extract_claims_data_outcome file_path w)
    as (m & _ & Hf & Hc & Hs & Hd & Hw & Hl & Hout).
  repeat (split; [assumption|]). cbn [parsed].
  destruct (source_of (files w) file_path) as [text|].
  - destruct (read_csv_claims text) as [df|exc] eqn:Eread; cbn [table is_ok];
      destruct Hout as [-> Hb].
    + repeat split; [exact Hb|discriminate].
    + repeat split; [exact Hb|]. exists text. now rewrite Eread.
  - destruct Hout as (df & Hcols & -> & Hb). now repeat split.
Qed.

Lemma extract_patients_step (file_path : option string) (w : world G DB) :
  let run := extract_patients_data file_path w in
  let readable :=
    match source_of (files w) file_path with
    | Some text => is_ok (parsed Patients text)
    | None => true
    end in
  files run.2 = files w /\ clock run.2 = clock w
  /\ silver run.2 = silver w /\ db run.2 = db w
  /\ without Patients (bronze run.2) = without Patients (bronze w)
  /\ started "extract" (log run.2) = started "extract" (log w) ++ [Patients]
  /\ match run.1 with
     | Ok df =>
         patients (bronze run.2) = Some df /\ readable = true
         /\ (source_of (files w) file_path = None -> columns df = patients_columns)
     | Raise exc =>
         bronze run.2 = bronze w /\ readable = false
         /\ exists text, source_of (files w) file_path = Some text
                         /\ parsed Patients text = Raise exc
     end.
Proof.
  cbv zeta.
  destruct (extract_patients_data_outcome file_path w)
    as (m & _ & Hf & Hc & Hs & Hd & Hw & Hl & Hout).
  repeat (split; [assumption|]). cbn [parsed].
  destruct (source_of (files w) file_path) as [text|].
  - destruct (read_csv_patients text) as [df|exc] eqn:Eread; cbn [table is_ok];
      destruct Hout as [-> Hb].
    + repeat split; [exact Hb|discriminate].
    + repeat split; [exact Hb|]. exists text. now rewrite Eread.
  - destruct Hout as (df & Hcols & -> & Hb). now repeat split.
Qed.

Lemma extract_providers_step (file_path : option string) (w : world G DB) :
  let run := extract_providers_data file_path w in
  let readable :=
    match source_of (files w) file_path with
    | Some text => is_ok (parsed Providers text)
    | None => true
    end in
  files run.2 = files w /\ clock run.2 = clock w
  /\ silver run.2 = silver w /\ db run.2 = db w
  /\ without Providers (bronze run.2) = without Providers (bronze w)
  /\ started "extract" (log run.2) = started "extract" (log w) ++ [Providers]
  /\ match run.1 with
     | Ok df =>
         providers (bronze run.2) = Some df /\ readable = true
         /\ (source_of (files w) file_path = None -> columns df = providers_columns)
     | Raise exc =>
         bronze run.2 = bronze w /\ readable = false
         /\ exists text, source_of (files w) file_path = Some text
                         /\ parsed Providers text = Raise exc
     end.
Proof.
  cbv zeta.
  destruct (extract_providers_data_outcome file_path w)
    as (m & _ & Hf & Hc & Hs & Hd & Hw & Hl & Hout).
  repeat (split; [assumption|]). cbn [parsed].
  destruct (source_of (files w) file_path) as [text|].
  - destruct (read_csv_providers text) as [df|exc] eqn:Eread; cbn [table is_ok];
      destruct Hout as [-> Hb].
    + repeat split; [exact Hb|discriminate].
    + repeat split; [exact Hb|]. exists text. now rewrite Eread.
  - destruct Hout as (df & Hcols & -> & Hb). now repeat split.
Qed.

Lemma extract_prescriptions_step (file_path : option string) (w : world G DB) :
  let run := extract_prescriptions_data file_path w in
  let readable :=
    match source_of (files w) file_path with
    | Some text => is_ok (parsed Prescriptions text)
    | None => true
    end in
  files run.2 = files w /\ clock run.2 = clock w
  /\ silver run.2 = silver w /\ db run.2 = db w
  /\ without Prescriptions (bronze run.2) = without Prescriptions (bronze w)
  /\ started "extract" (log run.2) = started "extract" (log w) ++ [Prescriptions]
  /\ match run.1 with
     | Ok df =>
         prescriptions (bronze run.2) = Some df /\ readable = true
         /\ (source_of (files w) file_path = None -> columns df = prescriptions_columns)
     | Raise exc =>
         bronze run.2 = bronze w /\ readable = false
         /\ exists text, source_of (files w) file_path = Some text
                         /\ parsed Prescriptions text = Raise exc
     end.
Proof.
  cbv zeta.
  destruct (extract_prescriptions_data_outcome file_path w)
    as (m & _ & Hf & Hc & Hs & Hd & Hw & Hl & Hout).
  repeat (split; [assumption|]). cbn [parsed].
  destruct (source_of (files w) file_path) as [text|].
  - destruct (read_csv_prescriptions text) as [df|exc] eqn:Eread; cbn [table is_ok];
      destruct Hout as [-> Hb].
    + repeat split; [exact Hb|discriminate].
    + repeat split; [exact Hb|]. exists text. now rewrite Eread.
  - destruct Hout as (df & Hcols & -> & Hb). now repeat split.
Qed.

(** The run of [extract_all_data]. *)
Lemma extract_all_data_run (data_sources : option (gmap string string))
    (w : world G DB) :
  let run := extract_all_data data_sources w in
  let order := [Claims; Patients; Providers; Prescriptions] in
  files run.2 = files w /\ clock run.2 = clock w
  /\ silver run.2 = silver w /\ db run.2 = db w
  /\ started "extract" (log run.2)
     = started "extract" (log w)
       ++ attempted (fun e => readable e data_sources w) order
  /\ match List.find (fun e => negb (readable e data_sources w)) order with
     | Some e =>
         exists text exc,
           source_of (files w) (default ∅ data_sources !! entity_name e) = Some text
           /\ parsed e text = Raise exc
           /\ run.1 = Raise exc
     | None =>
         run.1 = Ok (bronze run.2)
         /\ (forall e, is_Some (artifact_columns e (bronze run.2)))
         /\ (forall e,
               source_of (files w) (default ∅ data_sources !! entity_name e) = None ->
               artifact_columns e (bronze run.2) = Some (sample_columns e))
     end.
Proof.
  cbv zeta. unfold extract_all_data, readable. cbn [List.find attempted entity_name].
  rewrite bind_run. cbn [logger]. cbv beta iota zeta.
  set (w0 := World _ _ _ _ _ _ (log w ++ _)).
  assert (Hl0 : started "extract" (log w0) = started "extract" (log w)).
  { unfold w0. cbn [log]. rewrite started_app. apply app_nil_r. }
  assert (Hc0 : clock w0 = clock w) by reflexivity.
  assert (Hs0 : silver w0 = silver w) by reflexivity.
  assert (Hd0 : db w0 = db w) by reflexivity.
  set (ds := default ∅ data_sources) in *.
  (* claims *)
  destruct (extract_claims_step (ds !! "claims"%string) w0)
    as (Hf1 & Hc1 & Hs1 & Hd1 & Hw1 & Hl1 & Hout1).
  rewrite bind_run.
  destruct (extract_claims_data (ds !! "claims"%string) w0) as [r1 w1].
  cbn [fst snd] in *. change (files w0) with (files w) in *.
  destruct r1 as [c|exc]; cbv beta iota.
  2:{ destruct Hout1 as (_ & -> & text & Hsrc & Hparsed). cbn [negb fst snd].
      repeat split; try congruence;
        try (rewrite Hl1, Hl0, <- ?app_assoc; reflexivity); eauto. }
  destruct Hout1 as (Hb1 & -> & Hcols1). cbn [negb].
  (* patients *)
  destruct (extract_patients_step (ds !! "patients"%string) w1)
    as (Hf2 & Hc2 & Hs2 & Hd2 & Hw2 & Hl2 & Hout2).
  rewrite bind_run.
  destruct (extract_patients_data (ds !! "patients"%string) w1) as [r2 w2].
  cbn [fst snd] in *. rewrite Hf1 in *.
  destruct r2 as [p|exc]; cbv beta iota.
  2:{ destruct Hout2 as (_ & -> & text & Hsrc & Hparsed). cbn [negb fst snd].
      repeat split; try congruence;
        try (rewrite Hl2, Hl1, Hl0, <- ?app_assoc; reflexivity); eauto. }
  destruct Hout2 as (Hb2 & -> & Hcols2). cbn [negb].
  (* providers *)
  destruct (extract_providers_step (ds !! "providers"%string) w2)
    as (Hf3 & Hc3 & Hs3 & Hd3 & Hw3 & Hl3 & Hout3).
  rewrite bind_run.
  destruct (extract_providers_data (ds !! "providers"%string) w2) as [r3 w3].
  cbn [fst snd] in *. rewrite Hf2 in *.
  destruct r3 as [v|exc]; cbv beta iota.
  2:{ destruct Hout3 as (_ & -> & text & Hsrc & Hparsed). cbn [negb fst snd].
      repeat split; try congruence;
        try (rewrite Hl3, Hl2, Hl1, Hl0, <- ?app_assoc; reflexivity); eauto. }
  destruct Hout3 as (Hb3 & -> & Hcols3). cbn [negb].
  (* prescriptions *)
  destruct (extract_prescriptions_step (ds !! "prescriptions"%string) w3)
    as (Hf4 & Hc4 & Hs4 & Hd4 & Hw4 & Hl4 & Hout4).
  rewrite bind_run.
  destruct (extract_prescriptions_data (ds !! "prescriptions"%string) w3) as [r4 w4].
  cbn [fst snd] in *. rewrite Hf3 in *.
  destruct r4 as [x|exc]; cbv beta iota.
  2:{ destruct Hout4 as (_ & -> & text & Hsrc & Hparsed). cbn [negb fst snd].
      repeat split; try congruence;
        try (rewrite Hl4, Hl3, Hl2, Hl1, Hl0, <- ?app_assoc; reflexivity); eauto. }
  destruct Hout4 as (Hb4 & -> & Hcols4). cbn [negb].
  rewrite bind_run. cbn [logger mret M_ret ret_M fst snd files clock silver db log bronze].
  cbv beta iota. cbn [fst snd files clock silver db log bronze].
  assert (Hlayer : bronze w4 = Layer (Some c) (Some p) (Some v) (Some x)).
  { destruct (bronze w4) as [c4 p4 v4 x4], (bronze w3) as [c3 p3 v3 x3],
      (bronze w2) as [c2 p2 v2 x2], (bronze w1) as [c1 p1 v1 x1].
    cbn [without claims patients providers prescriptions] in *.
    congruence. }
  repeat split; try congruence.
  - rewrite started_app.
    change (started "extract" [Info "Data extraction completed successfully"])
      with (@nil entity).
    rewrite app_nil_r, Hl4, Hl3, Hl2, Hl1, Hl0, <- !app_assoc. reflexivity.
  - now rewrite Hlayer.
  - intros e. rewrite Hlayer. destruct e; cbn; eauto.
  - intros e Hnone. rewrite Hlayer.
    destruct e; cbn [artifact_columns claims patients providers prescriptions
                     sample_columns entity_name fmap option_fmap option_map] in *;
      f_equal; auto.
Qed.

(** Whether the extraction of an entity returns, and what it raises. *)
Lemma extract_entity_returns (e : entity) (data_sources : option (gmap string string))
    (w : world G DB) :
  let run := extract_entity e (default ∅ data_sources !! entity_name e) w in
  is_ok run.1 = readable e data_sources w
  /\ forall text exc,
       source_of (files w) (default ∅ data_sources !! entity_name e) = Some text ->
       parsed e text = Raise exc -> run.1 = Raise exc.
Proof.
  cbv zeta. unfold readable.
  destruct (extract_entity_outcome e (default ∅ data_sources !! entity_name e) w)
    as (m & _ & _ & _ & _ & _ & _ & _ & Hout).
  destruct (source_of (files w) _) as [text|].
  - destruct (parsed e text) as [d|exc] eqn:Ep; destruct Hout as [-> _]; cbn [is_ok];
      (split; [reflexivity|]); intros text' exc' [= <-] Hp; rewrite Ep in Hp.
    + discriminate Hp.
    + now injection Hp as <-.
  - destruct Hout as [-> _]. split; [reflexivity|]. intros text exc [=].
Qed.

(** X29.  [extract_all_data] stops at the first extraction that raises.  The
    four extractions run in the order claims, patients, providers,
    prescriptions, with no handler around any of them: when one of them
    raises, [extract_all_data] raises the same exception without starting
    the extractions that follow; when all four return, it returns the
    bronze layer it has written, with all four artifacts. *)
Theorem extract_all_data_stops_at_first_failure
    (data_sources : option (gmap string string)) (w : world G DB) :
  let run := extract_all_data data_sources w in
  let returns e :=
    is_ok (extract_entity e (default ∅ data_sources !! entity_name e) w).1 in
  let order := [Claims; Patients; Providers; Prescriptions] in
  started "extract" (log run.2)
  = started "extract" (log w) ++ attempted returns order
  /\ match List.find (fun e => negb (returns e)) order with
     | Some e =>
         exists exc,
           (extract_entity e (default ∅ data_sources !! entity_name e) w).1 = Raise exc
           /\ run.1 = Raise exc
     | None =>
         run.1 = Ok (bronze run.2)
         /\ forall e, is_Some (artifact_columns e (bronze run.2))
     end.
Proof.
  cbv zeta.
  destruct (extract_all_data_run data_sources w) as (_ & _ & _ & _ & Hlog & Hout).
  assert (Hret : forall e,
            is_ok (extract_entity e (default ∅ data_sources !! entity_name e) w).1
            = readable e data_sources w).
  { intros e. apply extract_entity_returns. }
  split.
  - rewrite Hlog. f_equal. cbn [attempted]. now rewrite !Hret.
  - assert (Hfind :
      List.find (fun e => negb (is_ok (extract_entity e
                   (default ∅ data_sources !! entity_name e) w).1))
        [Claims; Patients; Providers; Prescriptions]
      = List.find (fun e => negb (readable e data_sources w))
          [Claims; Patients; Providers; Prescriptions]).
    { cbn [List.find]. now rewrite !Hret. }
    rewrite Hfind. destruct (List.find _ _) as [e|].
    + destruct Hout as (text & exc & Hsrc & Hparsed & Hrun). exists exc.
      split; [|exact Hrun].
      now apply (proj2 (extract_entity_returns e data_sources w) text).
    + now destruct Hout as (Hrun & Hall & _).
Qed.

End ExtractAll.

(* ===================================================================== *)
(** ** From the extractor to the transformer *)
(* ===================================================================== *)

Section TransformAllReturns.

Context {G DB : Type}.
Variable parse_number : string -> option float64.
Variable parse_date : string -> option Z.

Lemma transform_entity_returns (e : entity) (w : world G DB) :
  (exists cols, artifact_columns e (bronze w) = Some cols
                /\ forall c, c ∈ needed_columns e -> c ∈ cols) ->
  (transform_entity parse_number parse_date e w).1 = Ok tt.
Proof.
  intros (cols & Ecols & Hneed).
  destruct (transform_entity_outcome parse_number parse_date e w)
    as (_ & _ & _ & _ & _ & _ & Hout).
  destruct (transform_entity parse_number parse_date e w).1 as [[]|exc];
    [reflexivity|exfalso].
  destruct Hout as (_ & Hexc). destruct exc; try contradiction.
  - destruct Hexc as (_ & Enone). congruence.
  - destruct Hexc as (cols' & Ecols' & Hin & Hout). apply Hout.
    rewrite Ecols in Ecols'. injection Ecols' as <-. auto.
  - destruct Hexc as (_ & cols' & c & Ecols' & _ & Hin & Hout). apply Hout.
    rewrite Ecols in Ecols'. injection Ecols' as <-. auto.
Qed.

(** When the bronze layer has what every transform needs,
    [transform_all_data] returns the silver layer it has written. *)
Lemma transform_all_data_returns (w : world G DB) :
  (forall e, exists cols, artifact_columns e (bronze w) = Some cols
                          /\ forall c, c ∈ needed_columns e -> c ∈ cols) ->
  let run := transform_all_data parse_number parse_date w in
  run.1 = Ok (silver run.2)
  /\ bronze run.2 = bronze w
  /\ forall e, is_Some (artifact_columns e (silver run.2)).
Proof.
  intros Hall. cbv zeta. unfold transform_all_data.
  rewrite bind_run. cbn [logger]. cbv beta iota.
  set (w0 := World _ _ _ _ _ _ (log w ++ _)).
  assert (Hb0 : bronze w0 = bronze w) by reflexivity.
  (* claims *)
  destruct (transform_claims_data_outcome parse_number parse_date w0)
    as (_ & _ & _ & Hb1 & _ & Hw1 & Hout1).
  pose proof (transform_entity_returns Claims w0 (Hall Claims)) as Hok1.
  rewrite transform_succeeds_claims in Hok1.
  rewrite bind_run.
  destruct (transform_claims_data parse_number parse_date w0) as [[c|exc] w1];
    cbn [fst snd] in *; [|discriminate]. cbv beta iota.
  destruct Hout1 as (_ & _ & _ & _ & _ & _ & _ & _ & Hc & _).
  (* patients *)
  destruct (transform_patients_data_outcome parse_number parse_date w1)
    as (_ & _ & _ & Hb2 & _ & Hw2 & Hout2).
  assert (Hall1 : exists cols, artifact_columns Patients (bronze w1) = Some cols
                   /\ forall c, c ∈ needed_columns Patients -> c ∈ cols)
    by (rewrite Hb1; apply Hall).
  pose proof (transform_entity_returns Patients w1 Hall1) as Hok2.
  rewrite transform_succeeds_patients in Hok2.
  rewrite bind_run.
  destruct (transform_patients_data parse_number parse_date w1) as [[p|exc] w2];
    cbn [fst snd] in *; [|discriminate]. cbv beta iota.
  destruct Hout2 as (_ & _ & _ & _ & _ & _ & _ & _ & Hp & _).
  (* providers *)
  destruct (transform_providers_data_outcome parse_number w2)
    as (_ & _ & _ & Hb3 & _ & Hw3 & Hout3).
  assert (Hall2 : exists cols, artifact_columns Providers (bronze w2) = Some cols
                   /\ forall c, c ∈ needed_columns Providers -> c ∈ cols)
    by (rewrite Hb2, Hb1; apply Hall).
  pose proof (transform_entity_returns Providers w2 Hall2) as Hok3.
  rewrite transform_succeeds_providers in Hok3.
  rewrite bind_run.
  destruct (transform_providers_data parse_number w2) as [[v|exc] w3];
    cbn [fst snd] in *; [|discriminate]. cbv beta iota.
  destruct Hout3 as (_ & _ & _ & _ & _ & _ & _ & _ & Hv & _).
  (* prescriptions *)
  destruct (transform_prescriptions_data_outcome parse_number parse_date w3)
    as (_ & _ & _ & Hb4 & _ & Hw4 & Hout4).
  assert (Hall3 : exists cols, artifact_columns Prescriptions (bronze w3) = Some cols
                   /\ forall c, c ∈ needed_columns Prescriptions -> c ∈ cols)
    by (rewrite Hb3, Hb2, Hb1; apply Hall).
  pose proof (transform_entity_returns Prescriptions w3 Hall3) as Hok4.
  rewrite transform_succeeds_prescriptions in Hok4.
  rewrite bind_run.
  destruct (transform_prescriptions_data parse_number parse_date w3) as [[x|exc] w4];
    cbn [fst snd] in *; [|discriminate]. cbv beta iota.
  destruct Hout4 as (_ & _ & _ & _ & _ & _ & _ & _ & Hx & _).
  rewrite bind_run. cbn [logger mret M_ret ret_M fst snd silver bronze]. cbv beta iota.
  cbn [fst snd silver bronze].
  assert (Hlayer : silver w4 = Layer (Some c) (Some p) (Some v) (Some x)).
  { destruct (silver w4) as [c4 p4 v4 x4], (silver w3) as [c3 p3 v3 x3],
      (silver w2) as [c2 p2 v2 x2], (silver w1) as [c1 p1 v1 x1].
    cbn [without claims patients providers prescriptions] in *.
    congruence. }
  repeat split.
  - now rewrite Hlayer.
  - congruence.
  - intros e. rewrite Hlayer. destruct e; cbn; eauto.
Qed.

End TransformAllReturns.

Section Pipeline.

Import HealthcareDataExtractor.

Context {G DB : Type} `{NumpyRandom G} `{CsvReader}.
Variable parse_number : string -> option float64.
Variable parse_date : string -> option Z.

Lemma sample_has_needed_columns (e : entity) (c : string) :
  c ∈ needed_columns e -> c ∈ sample_columns e.
Proof.
  intros Hc. destruct e; apply elem_of_list_to_set; in_list_from Hc.
Qed.

Lemma readable_without_sources (e : entity) (w : world G DB) :
  readable e None w = true.
Proof. unfold readable. cbn [default]. now rewrite lookup_empty. Qed.

(** X30.  The pipeline on generated data.  Without data sources,
    [extract_all_data] always returns, and leaves the four generated
    samples in the bronze layer, each with the columns of its kind; on that
    bronze layer [transform_all_data] always returns as well, whatever the
    random generator has drawn, and it returns the silver layer it has
    written, with all four artifacts. *)
Theorem pipeline_without_sources_always_transforms (w : world G DB) :
  let run1 := extract_all_data None w in
  let run2 := transform_all_data parse_number parse_date run1.2 in
  run1.1 = Ok (bronze run1.2)
  /\ (forall e, artifact_columns e (bronze run1.2) = Some (sample_columns e))
  /\ run2.1 = Ok (silver run2.2)
  /\ (forall e, is_Some (artifact_columns e (silver run2.2))).
Proof.
  cbv zeta.
  destruct (extract_all_data_run None w) as (_ & _ & _ & _ & _ & Hout).
  cbn [List.find] in Hout. rewrite !readable_without_sources in Hout. cbn [negb] in Hout.
  destruct Hout as (Hrun & _ & Hcols).
  assert (Hsample : forall e,
            artifact_columns e (bronze (extract_all_data None w).2)
            = Some (sample_columns e)).
  { intros e. apply Hcols. cbn [default]. now rewrite lookup_empty. }
  split; [exact Hrun|]. split; [exact Hsample|].
  destruct (transform_all_data_returns parse_number parse_date
              (extract_all_data None w).2) as (Hreturn & _ & Hsilver).
  - intros e. exists (sample_columns e). split; [apply Hsample|].
    apply sample_has_needed_columns.
  - now split.
Qed.

End Pipeline.

(* ===================================================================== *)
(** ** The properties above on the sample data *)
(* ===================================================================== *)

(** A claim of 1200: Medium. *)
Lemma cost_category_of_transformed_claims_witness :
  fgt (Claim.cost (Claim.base (silver_claim claim_readmitted_soon))) (Fin 0) = true
  /\ Claim.cost_category (silver_claim claim_readmitted_soon) = Some Claim.CostMedium.
Proof.
  exact (cost_category_of_transformed_claims no_number no_date bronze_claims
           (silver_claim claim_readmitted_soon)
           silver_claim_readmitted_soon_in_transform).
Defined.

(** The patient of 40, whose gender is given as 1 and whose zip code is
    missing. *)
Lemma clean_patients_invariants_witness :
  (exists a, Patient.age (coerce_patient no_number no_date patient_of_40) = Fin a
             /\ (0 <= a)%Q /\ (a <= 120)%Q)
  /\ Patient.gender (coerce_patient no_number no_date patient_of_40)
     ∈ [Some "Male"; Some "Female"; Some "Unknown"]%string
  /\ is_Some (Patient.race (coerce_patient no_number no_date patient_of_40))
  /\ is_Some (Patient.insurance_type (coerce_patient no_number no_date patient_of_40))
  /\ (exists z, Patient.zip_code (coerce_patient no_number no_date patient_of_40) = Some z
                /\ (String.length z <= 5)%nat).
Proof.
  apply (clean_patients_invariants no_number no_date bronze_patients).
  vm_compute. repeat constructor.
Defined.

Lemma silver_patient_of_40_in_transform :
  silver_patient (day 19800) patient_of_40
  ∈ transform_patients_rows no_number no_date (day 19800) bronze_patients.
Proof. vm_compute. repeat constructor. Qed.

Lemma silver_patient_of_110_in_transform :
  silver_patient (day 19800) patient_of_110
  ∈ transform_patients_rows no_number no_date (day 19800) bronze_patients.
Proof. vm_compute. repeat constructor. Qed.

(** One chronic condition: Medium. *)
Lemma risk_level_of_transformed_patients_witness :
  Patient.risk_level (silver_patient (day 19800) patient_of_40)
  = Some Patient.RiskMedium.
Proof.
  pose proof (risk_level_of_transformed_patients no_number no_date (day 19800)
                bronze_patients _ silver_patient_of_40_in_transform) as Hrisk.
  cbn [silver_patient Patient.base Patient.chronic_conditions coerce_patient] in Hrisk.
  destruct Hrisk as [Hrisk _]. exact Hrisk.
Defined.

(** Last seen 800 days ago: Dormant. *)
Lemma patient_status_of_transformed_patients_witness :
  Patient.days_since_last_visit (silver_patient (day 19800) patient_of_110) = Some 800
  /\ Patient.patient_status (silver_patient (day 19800) patient_of_110) = Patient.Dormant.
Proof.
  pose proof (patient_status_of_transformed_patients no_number no_date (day 19800)
                bronze_patients _ silver_patient_of_110_in_transform) as Hstatus.
  cbn [silver_patient Patient.base Patient.last_visit_date coerce_patient to_datetime
       patient_of_110] in Hstatus.
  cbv zeta in Hstatus.
  replace ((day 19800 - day 19000) / NS_PER_DAY) with 800 in Hstatus by reflexivity.
  destruct Hstatus as (Hdays & _ & _ & Hdormant).
  split; [exact Hdays|]. apply Hdormant. lia.
Defined.

Lemma silver_provider_of_80_beds_in_transform :
  silver_provider provider_of_80_beds
  ∈ transform_providers_rows no_number bronze_providers.
Proof. vm_compute. repeat constructor. Qed.

(** A hospital of 80 beds: Small. *)
Lemma hospital_size_of_transformed_providers_witness :
  fgt (Provider.beds (Provider.base (silver_provider provider_of_80_beds))) (Fin 0) = true
  /\ Provider.hospital_size (silver_provider provider_of_80_beds) = Some Provider.Small
  /\ is_Some (Provider.teaching_hospital
                (Provider.base (silver_provider provider_of_80_beds)))
  /\ Provider.avg_cost (silver_provider provider_of_80_beds) = Fin 0
  /\ Provider.readmission_rate (silver_provider provider_of_80_beds) = Fin 0
  /\ Provider.patient_volume (silver_provider provider_of_80_beds) = 0.
Proof.
  exact (hospital_size_of_transformed_providers no_number bronze_providers
           (silver_provider provider_of_80_beds)
           silver_provider_of_80_beds_in_transform).
Defined.

Lemma silver_prescription_half_supplied_in_transform :
  silver_prescription prescription_half_supplied
  ∈ transform_prescriptions_rows no_number no_date bronze_prescriptions.
Proof. vm_compute. repeat constructor. Qed.

(** 25 for 90 days supplied: the cost per day is the binary64 number
    nearest to 5/18. *)
Lemma prescription_cost_per_day_is_never_negative_witness :
  Rx.cost_per_day (silver_prescription prescription_oversupplied)
  = fdiv (Fin 25) (Fin 90)
  /\ exists x, Rx.cost_per_day (silver_prescription prescription_oversupplied) = Fin x
               /\ (0 <= x)%Q.
Proof.
  destruct (prescription_cost_per_day_is_never_negative no_number no_date
              bronze_prescriptions (silver_prescription prescription_oversupplied)
              silver_prescription_oversupplied_in_transform)
    as (_ & _ & _ & _ & Hcpd & Hsign).
  split; [exact Hcpd|].
  remember (Rx.cost_per_day (silver_prescription prescription_oversupplied))
    as cost_per_day eqn:E in *.
  vm_compute in E. subst cost_per_day.
  eexists. split; [reflexivity|exact Hsign].
Defined.

(** 15 days supplied for 30 prescribed: the rate is 0.5, Poor. *)
Lemma adherence_category_of_transformed_prescriptions_witness :
  exists a, Rx.adherence_rate (silver_prescription prescription_half_supplied) = Fin a
            /\ (0 < a)%Q /\ (a <= 1)%Q
            /\ Rx.adherence_category (silver_prescription prescription_half_supplied)
               = Some Rx.Poor.
Proof.
  destruct (adherence_category_of_transformed_prescriptions no_number no_date
              bronze_prescriptions (silver_prescription prescription_half_supplied)
              silver_prescription_half_supplied_in_transform)
    as (a & Ea & _ & Ha1 & _ & Hpositive & _).
  exists a. split; [exact Ea|].
  split; [apply (Hpositive 15%Q 30%Q); [reflexivity|reflexivity|]|].
  - apply Qle_shift_div_l; [reflexivity|].
    pose proof (pow2_le (-1074) (-1) ltac:(lia)) as Hle.
    change (pow2 (-1)) with (1 # 2)%Q in Hle. lra.
  - split; [exact Ha1|reflexivity].
Defined.

(** The patients of the complete bronze layer. *)
Lemma silver_artifact_carries_its_lineage_witness :
  exists bronze_attrs silver_attrs t1 t2,
    artifact_attrs Patients (bronze (world_of bronze_complete empty_layer))
    = Some bronze_attrs
    /\ artifact_attrs Patients
         (silver (transform_entity no_number no_date Patients
                    (world_of bronze_complete empty_layer)).2) = Some silver_attrs
    /\ dict_get "pipeline_stage" silver_attrs = Some (MStr "silver")
    /\ dict_get "source_metadata" silver_attrs = Some (MDict bronze_attrs)
    /\ dict_get "etl_timestamp" silver_attrs = Some (MTime t1)
    /\ dict_get "transformation_timestamp" silver_attrs = Some (MTime t2)
    /\ dict_get "etl_version" silver_attrs = Some (MStr "1.0.0")
    /\ dict_get "transformation_version" silver_attrs = Some (MStr "1.0.0").
Proof.
  apply (silver_artifact_carries_its_lineage no_number no_date Patients
           (world_of bronze_complete empty_layer)).
  vm_compute. reflexivity.
Defined.

(** Before any transform, the silver layer is empty. *)
Lemma load_without_silver_artifact_fails_cleanly_witness :
  @HealthcareDataLoader.load_entity unit warehouse (engine_failing_on "none") Claims
    world_at_warehouse
  = (Ok false,
     World (files world_at_warehouse) (rng world_at_warehouse) (clock world_at_warehouse)
       (bronze world_at_warehouse) (silver world_at_warehouse) (db world_at_warehouse)
       (log world_at_warehouse
        ++ [Started "load" Claims;
            Failed ("Failed to load " ++ entity_name Claims ++ " data")
              (FileNotFoundError (entity_name Claims ++ "_clean.parquet"))])).
Proof.
  apply (@load_without_silver_artifact_fails_cleanly unit warehouse
           (engine_failing_on "none") Claims world_at_warehouse).
  reflexivity.
Defined.

Lemma claim_without_patient_in_silver :
  silver_claim claim_without_patient ∈ rows silver_claims_with_null_patient.
Proof. vm_compute. repeat constructor. Qed.

Lemma silver_claims_with_null_patient_columns (c : string) :
  c ∈ ["claim_id"; "patient_id"; "provider_id"; "cost"]%string ->
  c ∈ columns silver_claims_with_null_patient.
Proof.
  intros Hc. unfold silver_claims_with_null_patient. cbn [columns].
  apply elem_of_union. left. apply elem_of_list_to_set. in_list_from Hc.
Qed.

(** Two claims, one of them without a patient: neither is written. *)
Lemma load_claims_rejects_a_null_identifier_witness :
  exists exc,
    @HealthcareDataLoader.load_claims_data unit warehouse (engine_failing_on "none")
      world_with_null_patient
    = (Ok false,
       World (files world_with_null_patient) (rng world_with_null_patient)
         (clock world_with_null_patient) (bronze world_with_null_patient)
         (silver world_with_null_patient) (db world_with_null_patient)
         (log world_with_null_patient
          ++ [Started "load" Claims; Failed "Failed to load claims data" exc])).
Proof.
  apply (@load_claims_rejects_a_null_identifier unit warehouse (engine_failing_on "none")
           world_with_null_patient silver_claims_with_null_patient
           (silver_claim claim_without_patient)).
  - reflexivity.
  - exact silver_claims_with_null_patient_columns.
  - exact claim_without_patient_in_silver.
  - right. left. reflexivity.
Defined.

(** A path that names no file: the providers are generated, and the
    artifact still names the path. *)
Lemma bronze_artifact_names_the_path_it_was_given_witness :
  exists attrs,
    artifact_attrs Providers
      (bronze (@HealthcareDataExtractor.extract_entity Z unit lcg one_file_reader
                 Providers (Some "/data/providers.csv"%string) world_monday).2)
    = Some attrs
    /\ dict_get "source" attrs = Some (MStr "/data/providers.csv")
    /\ @HealthcareDataExtractor.extracted Z unit lcg one_file_reader Providers
         (Some "/data/providers.csv"%string) world_monday
       = @HealthcareDataExtractor.generated Z unit lcg Providers world_monday.
Proof.
  destruct (@bronze_artifact_names_the_path_it_was_given Z unit lcg one_file_reader
              Providers (Some "/data/providers.csv"%string) world_monday)
    as (attrs & Hattrs & _ & _ & _ & Hsource).
  - vm_compute. reflexivity.
  - rewrite bool_decide_eq_false_2 in Hsource by discriminate.
    destruct Hsource as [Hsource Hgenerated].
    exists attrs. split; [exact Hattrs|]. split; [exact Hsource|].
    apply Hgenerated. reflexivity.
Defined.
